(** * QardioARM 2 client scripts: measurement decoder and session control

    A shallow embedding of the Python scripts of the repository:

    - [blood_pressure_monitor.py]: the SFLOAT decoder
      [parse_blood_pressure_measurement] / [parse_sfloat], the retry loops
      [discover_device] and [connect_to_device], the feature read, the
      activation and the session [main];
    - [qardio_arm2_app.py]: the methods [parse_blood_pressure_measurement],
      [blood_pressure_notification_handler], [scan_for_devices], [connect],
      [disconnect] and [read_battery_level] of [QardioArm2Client];
    - [attempt1.py]: [discover_device], [connect_to_device] and
      [send_command].

    Python integers are [Z], Python floats are IEEE binary64 primitive
    floats, [bytes] are lists of [Byte.byte], dictionaries are
    [gmap string pyval], and exceptions are an explicit result type.  The
    calls on the BLE stack are recorded in a trace, and the stack's answers
    may depend on the calls made before.  [main] waits for measurements in
    a loop without exit: its model covers the runs that the user
    interrupts, in which [asyncio.CancelledError] leaves the coroutine. *)

From Stdlib Require Import ZArith List String Ascii Bool Lia.
From Stdlib Require Import Floats.PrimFloat Floats.SpecFloat Floats.FloatOps Uint63.
From Stdlib Require Import DecimalString.
From stdpp Require Import gmap strings list fin_maps.

Local Open Scope Z_scope.

(* ===================================================================== *)
(** ** Python values and exceptions *)
(* ===================================================================== *)

(** [datetime.datetime] objects (naive, no time zone). *)
Record datetime := MkDatetime {
  dt_year : Z; dt_month : Z; dt_day : Z;
  dt_hour : Z; dt_minute : Z; dt_second : Z; dt_microsecond : Z
}.

(** The values stored in the dictionaries built by the parsers. *)
Inductive pyval :=
| VInt (z : Z)
| VFloat (f : float)
| VStr (s : string)
| VDatetime (d : datetime).

(** The exception classes that occur; all derive from [Exception]. *)
Inductive exn :=
| IndexError
| StructError
| ValueError
| BleakError (msg : string)
| OSError (msg : string)
| TimeoutError.

(** Outcome of running a piece of Python code. *)
Inductive py (A : Type) :=
| Ret (a : A)
| Raise (e : exn).
Arguments Ret {A} a.
Arguments Raise {A} e.

Definition py_bind {A B} (k : A -> py B) (m : py A) : py B :=
  match m with
  | Ret a => k a
  | Raise e => Raise e
  end.

Global Instance py_mret : MRet py := @Ret.
Global Instance py_mbind : MBind py := @py_bind.

(** [try: body except Exception: handler] *)
Definition try_except {A} (body : py A) (handler : exn -> py A) : py A :=
  match body with
  | Ret a => Ret a
  | Raise e => handler e
  end.

(** [try: body except ValueError: handler]; other exceptions propagate. *)
Definition try_except_ValueError {A} (body : py A) (handler : py A) : py A :=
  match body with
  | Ret a => Ret a
  | Raise ValueError => handler
  | Raise e => Raise e
  end.

(* ===================================================================== *)
(** ** Numbers *)
(* ===================================================================== *)

(** [float(z)] for an [int]; exact for [|z| < 2^53], which covers every
    conversion made by the scripts (operands are below [2^16]). *)
Definition float_of_Z (z : Z) : float :=
  if z <? 0 then PrimFloat.opp (PrimFloat.of_uint63 (Uint63.of_Z (- z)))
  else PrimFloat.of_uint63 (Uint63.of_Z z).

(** [b ** e] on two [int]s.  A negative exponent makes Python compute
    [pow(float(b), float(e))], a binary float; the C library's result is
    taken to be the correctly rounded one, which is [1.0 / float(b ** -e)]
    as long as [b ** -e] is itself a float (here at most [10 ** 8]). *)
Definition py_pow (b e : Z) : pyval :=
  if 0 <=? e then VInt (b ^ e)
  else VFloat (PrimFloat.div (float_of_Z 1) (float_of_Z (b ^ (- e)))).

(** [m * v] for an [int] [m]: an [int] product, or a float product after
    converting [m]. *)
Definition py_mul_int (m : Z) (v : pyval) : pyval :=
  match v with
  | VInt z => VInt (m * z)
  | VFloat f => VFloat (PrimFloat.mul (float_of_Z m) f)
  | other => other
  end.

(** [z / d] for an [int] [z] and a float [d] (true division). *)
Definition py_div_float (z : Z) (d : float) : pyval :=
  VFloat (PrimFloat.div (float_of_Z z) d).

(** Truth value of an [int]. *)
Definition truthy (z : Z) : bool := negb (z =? 0).

(* ===================================================================== *)
(** ** Byte strings *)
(* ===================================================================== *)

Definition byte_val (b : Byte.byte) : Z := Z.of_N (Byte.to_N b).

(** [data[i]] for [i >= 0]. *)
Definition getitem (data : list Byte.byte) (i : nat) : py Z :=
  match data !! i with
  | Some b => Ret (byte_val b)
  | None => Raise IndexError
  end.

(** [data[a:b]] for [0 <= a <= b]; slicing never raises. *)
Definition slice (data : list Byte.byte) (a b : nat) : list Byte.byte :=
  take (b - a) (drop a data).

(** [struct.unpack('<H', bs)[0]] *)
Definition unpack_H (bs : list Byte.byte) : py Z :=
  match bs with
  | [b0; b1] => Ret (byte_val b0 + 256 * byte_val b1)
  | _ => Raise StructError
  end.

(* ===================================================================== *)
(** ** Text formatting *)
(* ===================================================================== *)

(** [str(n)] / [f"{n}"] for a non-negative [int]. *)
Definition str_of_int (n : Z) : string :=
  NilZero.string_of_uint (N.to_uint (Z.to_N n)).

(** [f"{n:02d}"] for a non-negative [int]. *)
Definition fmt_02d (n : Z) : string :=
  let s := str_of_int n in
  if (String.length s <? 2)%nat then String "0" s else s.

(** [c.lower()] on an ASCII character. *)
Definition ascii_lower (c : ascii) : ascii :=
  let n := nat_of_ascii c in
  if (65 <=? n)%nat && (n <=? 90)%nat then ascii_of_nat (n + 32) else c.

(** [s.lower()] *)
Fixpoint str_lower (s : string) : string :=
  match s with
  | EmptyString => EmptyString
  | String c s' => String (ascii_lower c) (str_lower s')
  end.

(** [needle in hay] *)
Fixpoint str_contains (needle hay : string) : bool :=
  String.prefix needle hay ||
  match hay with
  | EmptyString => false
  | String _ hay' => str_contains needle hay'
  end.

(** [str(e)] for the exceptions raised by the BLE stack. *)
Definition exn_str (e : exn) : string :=
  match e with
  | BleakError msg => msg
  | OSError msg => msg
  | _ => ""
  end.

(* ===================================================================== *)
(** ** The [datetime] constructor of the Python standard library *)
(* ===================================================================== *)

Definition MINYEAR : Z := 1.
Definition MAXYEAR : Z := 9999.

Definition is_leap (y : Z) : bool :=
  (y mod 4 =? 0) && (negb (y mod 100 =? 0) || (y mod 400 =? 0)).

Definition days_in_month (y m : Z) : Z :=
  if m =? 2 then (if is_leap y then 29 else 28)
  else if (m =? 4) || (m =? 6) || (m =? 9) || (m =? 11) then 30
  else 31.

(** The field checks made by [datetime(year, month, day, hour, minute, second)]. *)
Definition valid_datetime_fields (y mo d h mi s : Z) : bool :=
  (MINYEAR <=? y) && (y <=? MAXYEAR) &&
  (1 <=? mo) && (mo <=? 12) &&
  (1 <=? d) && (d <=? days_in_month y mo) &&
  (0 <=? h) && (h <=? 23) &&
  (0 <=? mi) && (mi <=? 59) &&
  (0 <=? s) && (s <=? 59).

(** [datetime(y, mo, d, h, mi, s)]: raises [ValueError] on a field out of
    range. *)
Definition datetime_new (y mo d h mi s : Z) : py datetime :=
  if valid_datetime_fields y mo d h mi s
  then Ret (MkDatetime y mo d h mi s 0)
  else Raise ValueError.

(* ===================================================================== *)
(** ** The BLE stack (bleak) seen from the scripts *)
(* ===================================================================== *)

(** A [BLEDevice] as returned by [BleakScanner.discover()]. *)
Record device := MkDevice { dev_name : option string; dev_address : string }.

(** A [BleakClient(address)] object. *)
Record client := MkClient { client_address : string }.

(** The calls a script makes on the BLE stack and the event loop, in the
    order it makes them. *)
Inductive event :=
| EvDiscover
| EvSleep (seconds : Z)
| EvConnect (address : string)
| EvReadChar (uuid : string)
| EvStartNotify (uuid : string)
| EvWriteChar (uuid : string) (data : list Byte.byte) (response : bool)
| EvStopNotify (uuid : string)
| EvDisconnect.

(** The environment: what each call answers, given every call made before
    it.  [ble_interrupt_after] is the number of one-second sleeps of the
    waiting loop that complete before the user interrupts the script: the
    interrupt cancels the coroutine during the sleep that follows them.  A
    run that is never interrupted, in which the waiting loop goes on for
    ever, and an interrupt at any other point of a script are not
    modelled. *)
Record ble_stack := MkBleStack {
  ble_scan : list event -> py (list device);
  ble_connect : list event -> string -> py unit;
  ble_read : list event -> string -> py (list Byte.byte);
  ble_start_notify : list event -> string -> py unit;
  ble_write : list event -> string -> list Byte.byte -> bool -> py unit;
  ble_stop_notify : list event -> string -> py unit;
  ble_disconnect : list event -> string -> py unit;
  ble_interrupt_after : nat
}.

(** Code that talks to the BLE stack: it extends the trace of calls and
    returns a value or raises. *)
Definition io (A : Type) : Type := list event -> py A * list event.

Definition io_ret {A} (a : A) : io A := fun t => (Ret a, t).

Definition io_bind {A B} (k : A -> io B) (m : io A) : io B :=
  fun t =>
    match m t with
    | (Ret a, t') => k a t'
    | (Raise e, t') => (Raise e, t')
    end.

Global Instance io_mret : MRet io := @io_ret.
Global Instance io_mbind : MBind io := @io_bind.

(** [try: body except Exception as e: handler(e)] *)
Definition io_try {A} (body : io A) (handler : exn -> io A) : io A :=
  fun t =>
    match body t with
    | (Ret a, t') => (Ret a, t')
    | (Raise e, t') => handler e t'
    end.

(** [raise e] *)
Definition io_raise {A} (e : exn) : io A := fun t => (Raise e, t).

(** Code that makes no call: it returns or raises and leaves the trace. *)
Definition io_lift {A} (m : py A) : io A := fun t => (m, t).

(** Reading an attribute whose value depends on the calls made so far; the
    reading itself makes no call. *)
Definition io_read {A} (attribute : list event -> A) : io A :=
  fun t => (Ret (attribute t), t).


(** [int.from_bytes(bs, byteorder='little')] *)
Fixpoint int_from_bytes_little (bs : list Byte.byte) : Z :=
  match bs with
  | [] => 0
  | b :: rest => byte_val b + 256 * int_from_bytes_little rest
  end.

(** One call on the stack: the answer depends on the calls made so far. *)
Definition call {A} (answer : list event -> py A) (ev : event) : io A :=
  fun t => (answer t, t ++ [ev]).

(** [for x in xs: body] followed by [orelse].  The body yields [Some r] when
    it executes [return r] and [None] when the iteration runs to its end. *)
Fixpoint for_each {A R} (xs : list A) (body : A -> io (option R)) (orelse : io R)
  : io R :=
  match xs with
  | [] => orelse
  | x :: xs' =>
      r ← body x;
      match r with
      | Some v => mret v
      | None => for_each xs' body orelse
      end
  end.

Section BleCalls.
Variable env : ble_stack.

(** [await BleakScanner.discover()] *)
Definition BleakScanner_discover : io (list device) :=
  call (ble_scan env) EvDiscover.

(** [await asyncio.sleep(seconds)] *)
Definition asyncio_sleep (seconds : Z) : io unit :=
  call (fun _ => Ret tt) (EvSleep seconds).

(** [await client.connect()] *)
Definition client_connect (c : client) : io unit :=
  call (fun t => ble_connect env t (client_address c))
       (EvConnect (client_address c)).

(** [await client.read_gatt_char(uuid)] *)
Definition client_read_gatt_char (c : client) (uuid : string) : io (list Byte.byte) :=
  call (fun t => ble_read env t uuid) (EvReadChar uuid).

(** [await client.start_notify(uuid, handler)] *)
Definition client_start_notify (c : client) (uuid : string) : io unit :=
  call (fun t => ble_start_notify env t uuid) (EvStartNotify uuid).

(** [await client.write_gatt_char(uuid, data, response=response)] *)
Definition client_write_gatt_char (c : client) (uuid : string)
    (data : list Byte.byte) (response : bool) : io unit :=
  call (fun t => ble_write env t uuid data response) (EvWriteChar uuid data response).

(** [await client.stop_notify(uuid)] *)
Definition client_stop_notify (c : client) (uuid : string) : io unit :=
  call (fun t => ble_stop_notify env t uuid) (EvStopNotify uuid).

(** [await client.disconnect()] *)
Definition client_disconnect (c : client) : io unit :=
  call (fun t => ble_disconnect env t (client_address c)) EvDisconnect.
End BleCalls.

(** How a coroutine that the user can interrupt ends: it returns, an
    exception deriving from [Exception] leaves it, or the
    [asyncio.CancelledError] that the interrupt raises at the pending
    [await] leaves it.  [CancelledError] derives from [BaseException]:
    neither an [except Exception] clause nor an [except KeyboardInterrupt]
    clause catches it. *)
Inductive ending (A : Type) :=
| Returned (a : A)
| Raised (e : exn)
| CancelledError.
Arguments Returned {A} a.
Arguments Raised {A} e.
Arguments CancelledError {A}.

(** A coroutine that the user can interrupt. *)
Definition task (A : Type) : Type := list event -> ending A * list event.

Definition task_ret {A} (a : A) : task A := fun t => (Returned a, t).

Definition task_bind {A B} (k : A -> task B) (m : task A) : task B :=
  fun t =>
    match m t with
    | (Returned a, t') => k a t'
    | (Raised e, t') => (Raised e, t')
    | (CancelledError, t') => (CancelledError, t')
    end.

Global Instance task_mret : MRet task := @task_ret.
Global Instance task_mbind : MBind task := @task_bind.

(** [await m] for code [m] during which no interrupt arrives. *)
Definition await {A} (m : io A) : task A :=
  fun t =>
    match m t with
    | (Ret a, t') => (Returned a, t')
    | (Raise e, t') => (Raised e, t')
    end.

(** [await asyncio.sleep(seconds)] during which the interrupt arrives: the
    call is made and [CancelledError] is raised at the [await]. *)
Definition asyncio_sleep_cancelled (seconds : Z) : task unit :=
  fun t => (CancelledError, t ++ [EvSleep seconds]).

(** [try: body except KeyboardInterrupt: ... except Exception as e:
    handler(e)]; a [CancelledError] passes both clauses. *)
Definition task_try {A} (body : task A) (handler : exn -> task A) : task A :=
  fun t =>
    match body t with
    | (Returned a, t') => (Returned a, t')
    | (Raised e, t') => handler e t'
    | (CancelledError, t') => (CancelledError, t')
    end.

(** [try: body finally: cleanup]: the cleanup runs however the body ends,
    and the body's return or exception goes on after it unless the cleanup
    itself raises. *)
Definition task_finally {A} (body : task A) (cleanup : task unit) : task A :=
  fun t =>
    match body t with
    | (r, t') =>
        match cleanup t' with
        | (Returned _, t'') => (r, t'')
        | (Raised e, t'') => (Raised e, t'')
        | (CancelledError, t'') => (CancelledError, t'')
        end
    end.

(** [next((dev for dev in devices if dev.name == name), None)] *)
Definition find_by_name (name : string) (devices : list device) : option device :=
  List.find (fun dev =>
               match dev_name dev with
               | Some n => String.eqb n name
               | None => false
               end) devices.

(* ===================================================================== *)
(** ** blood_pressure_monitor.py *)
(* ===================================================================== *)

Module BloodPressureMonitor.

Definition DEVICE_NAME : string := "QardioARM 2".
Definition ACTIVATION_CHAR_UUID : string := "583cb5b3-875d-40ed-9098-c39eb0c1983d".
Definition BP_MEASUREMENT_CHAR_UUID : string := "00002a35-0000-1000-8000-00805f9b34fb".
Definition BP_FEATURE_CHAR_UUID : string := "00002a49-0000-1000-8000-00805f9b34fb".
Definition ACTIVATION_DATA : list Byte.byte := [Byte.xf1; Byte.x01].

Definition MAX_DISCOVERY_RETRIES : nat := 3.
Definition MAX_CONNECTION_RETRIES : nat := 3.
Definition RETRY_DELAY : Z := 1.

(** The nested function [parse_sfloat(value)]. *)
Definition parse_sfloat (value : Z) : pyval :=
  let mantissa := Z.land value 0x0FFF in
  let exponent := Z.land (Z.shiftr value 12) 0x000F in
  let mantissa :=
    if truthy (Z.land mantissa 0x0800)
    then - (Z.land (Z.lnot mantissa) 0x0FFF + 1)
    else mantissa in
  let exponent :=
    if truthy (Z.land exponent 0x0008)
    then - (Z.land (Z.lnot exponent) 0x000F + 1)
    else exponent in
  py_mul_int mantissa (py_pow 10 exponent).

(** [(data[hi] << 8) | data[lo]]; the left operand is evaluated first. *)
Definition read_le16 (data : list Byte.byte) (lo hi : nat) : py Z :=
  h ← getitem data hi;
  l ← getitem data lo;
  Ret (Z.lor (Z.shiftl h 8) l).

(** The [if timestamp_present and len(data) >= offset + 7:] block; returns
    the updated dictionary and offset. *)
Definition parse_timestamp (timestamp_present : bool) (data : list Byte.byte)
    (result : gmap string pyval) (offset : nat)
  : py (gmap string pyval * nat) :=
  if timestamp_present && (offset + 7 <=? length data)%nat then
    year ← read_le16 data offset (offset + 1);
    month ← getitem data (offset + 2);
    day ← getitem data (offset + 3);
    hour ← getitem data (offset + 4);
    minute ← getitem data (offset + 5);
    second ← getitem data (offset + 6);
    let text :=
      (str_of_int year +:+ "-" +:+ fmt_02d month +:+ "-" +:+ fmt_02d day +:+ " "
       +:+ fmt_02d hour +:+ ":" +:+ fmt_02d minute +:+ ":" +:+ fmt_02d second)%string in
    Ret (<["timestamp" := VStr text]> result, (offset + 7)%nat)
  else Ret (result, offset).

(** The [if pulse_rate_present and len(data) >= offset + 2:] block. *)
Definition parse_pulse_rate (pulse_rate_present : bool) (data : list Byte.byte)
    (result : gmap string pyval) (offset : nat)
  : py (gmap string pyval) :=
  if pulse_rate_present && (offset + 2 <=? length data)%nat then
    pulse_rate ← read_le16 data offset (offset + 1);
    Ret (<["pulse_rate" := parse_sfloat pulse_rate]> result)
  else Ret result.

(** [parse_blood_pressure_measurement(data)]; [Ret None] is [return None]. *)
Definition parse_blood_pressure_measurement (data : list Byte.byte)
  : py (option (gmap string pyval)) :=
  if (length data =? 0)%nat || (length data <? 7)%nat then Ret None
  else
    flags ← getitem data 0;
    let units_kpa := truthy (Z.land flags 0x01) in
    let timestamp_present := truthy (Z.land flags 0x02) in
    let pulse_rate_present := truthy (Z.land flags 0x04) in
    systolic ← read_le16 data 1 2;
    diastolic ← read_le16 data 3 4;
    mean_arterial ← read_le16 data 5 6;
    let result : gmap string pyval :=
      <["units" := VStr (if units_kpa then "kPa" else "mmHg")]>
      (<["mean_arterial" := parse_sfloat mean_arterial]>
      (<["diastolic" := parse_sfloat diastolic]>
      (<["systolic" := parse_sfloat systolic]> ∅))) in
    let offset := 7%nat in
    '(result, offset) ← parse_timestamp timestamp_present data result offset;
    result ← parse_pulse_rate pulse_rate_present data result offset;
    Ret (Some result).

Section Session.
Variable env : ble_stack.

(** The [if attempt < bound: await asyncio.sleep(RETRY_DELAY)] statement. *)
Definition sleep_before_retry (attempt bound : nat) : io unit :=
  if (attempt <? bound)%nat then asyncio_sleep RETRY_DELAY else mret tt.

(** One iteration of the loop of [discover_device]. *)
Definition discover_attempt (attempt : nat) : io (option (option device)) :=
  io_try
    (devices ← BleakScanner_discover env;
     match find_by_name DEVICE_NAME devices with
     | Some device => mret (Some (Some device))
     | None =>
         sleep_before_retry attempt MAX_DISCOVERY_RETRIES;;
         mret None
     end)
    (fun e =>
       sleep_before_retry attempt MAX_DISCOVERY_RETRIES;;
       mret None).

(** [discover_device()] *)
Definition discover_device : io (option device) :=
  for_each (seq 1 MAX_DISCOVERY_RETRIES) discover_attempt (mret None).

(** One iteration of the loop of [connect_to_device]. *)
Definition connect_attempt (dev : device) (attempt : nat) : io (option (option client)) :=
  io_try
    (let client := MkClient (dev_address dev) in
     client_connect env client;;
     mret (Some (Some client)))
    (fun e =>
       sleep_before_retry attempt MAX_CONNECTION_RETRIES;;
       mret None).

(** [connect_to_device(device)] *)
Definition connect_to_device (dev : device) : io (option client) :=
  for_each (seq 1 MAX_CONNECTION_RETRIES) (connect_attempt dev) (mret None).

(** [read_blood_pressure_feature(client)]; the feature bits are only
    logged. *)
Definition read_blood_pressure_feature (c : client) : io (option (list Byte.byte)) :=
  io_try
    (feature_data ← client_read_gatt_char env c BP_FEATURE_CHAR_UUID;
     mret (Some feature_data))
    (fun e => mret None).

(** [activate_measurement(client)] *)
Definition activate_measurement (c : client) : io bool :=
  io_try
    (client_write_gatt_char env c ACTIVATION_CHAR_UUID ACTIVATION_DATA true;;
     mret true)
    (fun e => mret false).

(** [while True: await asyncio.sleep(1)].  The loop has no exit: it is left
    only by the [CancelledError] of the user's interrupt, which arrives
    during the sleep that follows [completed] whole ones. *)
Fixpoint wait_for_measurements (completed : nat) : task unit :=
  match completed with
  | O => asyncio_sleep_cancelled 1
  | S completed' => await (asyncio_sleep 1);; wait_for_measurements completed'
  end.

(** The [finally:] block of [main]. *)
Definition cleanup (c : client) : io unit :=
  io_try
    (client_stop_notify env c BP_MEASUREMENT_CHAR_UUID;;
     client_disconnect env c)
    (fun e => mret tt).

(** The [try:] block of [main] with its [except] clauses, which only log. *)
Definition monitor (c : client) : task unit :=
  task_try
    (await (read_blood_pressure_feature c);;
     await (client_start_notify env c BP_MEASUREMENT_CHAR_UUID);;
     success ← await (activate_measurement c);
     if negb success then mret tt
     else wait_for_measurements (ble_interrupt_after env))
    (fun e => mret tt).

(** [main()] *)
Definition main : task unit :=
  device ← await discover_device;
  match device with
  | None => mret tt
  | Some device =>
      c ← await (connect_to_device device);
      match c with
      | None => mret tt
      | Some c => task_finally (monitor c) (await (cleanup c))
      end
  end.
End Session.



End BloodPressureMonitor.

(* ===================================================================== *)
(** ** qardio_arm2_app.py *)
(* ===================================================================== *)

Module QardioArm2App.

(** [struct.unpack('<H', data[a:a+2])[0]] *)
Definition read_H (data : list Byte.byte) (a : nat) : py Z :=
  unpack_H (slice data a (a + 2)).

(** [raw / 10.0 if unit == "mmHg" else raw / 1000.0] *)
Definition scale_pressure (unit : string) (raw : Z) : pyval :=
  if String.eqb unit "mmHg" then py_div_float raw (float_of_Z 10)
  else py_div_float raw (float_of_Z 1000).

(** The [if has_timestamp and len(data) >= offset + 7:] block. *)
Definition parse_timestamp (has_timestamp : bool) (data : list Byte.byte)
    (measurement : gmap string pyval) (offset : nat)
  : py (gmap string pyval * nat) :=
  if has_timestamp && (offset + 7 <=? length data)%nat then
    year ← read_H data offset;
    month ← getitem data (offset + 2);
    day ← getitem data (offset + 3);
    hours ← getitem data (offset + 4);
    minutes ← getitem data (offset + 5);
    seconds ← getitem data (offset + 6);
    measurement ←
      try_except_ValueError
        (d ← datetime_new year month day hours minutes seconds;
         Ret (<["device_timestamp" := VDatetime d]> measurement))
        (Ret measurement);
    Ret (measurement, (offset + 7)%nat)
  else Ret (measurement, offset).

(** The [if has_pulse_rate and len(data) >= offset + 2:] block. *)
Definition parse_pulse_rate (has_pulse_rate : bool) (data : list Byte.byte)
    (measurement : gmap string pyval) (offset : nat)
  : py (gmap string pyval * nat) :=
  if has_pulse_rate && (offset + 2 <=? length data)%nat then
    pulse_rate ← read_H data offset;
    Ret (<["pulse_rate" := py_div_float pulse_rate (float_of_Z 10)]> measurement,
         (offset + 2)%nat)
  else Ret (measurement, offset).

(** The [if has_user_id and len(data) >= offset + 1:] block. *)
Definition parse_user_id (has_user_id : bool) (data : list Byte.byte)
    (measurement : gmap string pyval) (offset : nat)
  : py (gmap string pyval * nat) :=
  if has_user_id && (offset + 1 <=? length data)%nat then
    user_id ← getitem data offset;
    Ret (<["user_id" := VInt user_id]> measurement, (offset + 1)%nat)
  else Ret (measurement, offset).

(** The [if has_status and len(data) >= offset + 2:] block. *)
Definition parse_status (has_status : bool) (data : list Byte.byte)
    (measurement : gmap string pyval) (offset : nat)
  : py (gmap string pyval * nat) :=
  if has_status && (offset + 2 <=? length data)%nat then
    status ← read_H data offset;
    Ret (<["status" := VInt status]> measurement, (offset + 2)%nat)
  else Ret (measurement, offset).

(** The body of the outer [try:] block. *)
Definition parse_body (now : datetime) (data : list Byte.byte)
  : py (gmap string pyval) :=
  flags ← getitem data 0;
  let unit : string := if truthy (Z.land flags 0x01) then "kPa" else "mmHg" in
  let has_timestamp := truthy (Z.land flags 0x02) in
  let has_pulse_rate := truthy (Z.land flags 0x04) in
  let has_user_id := truthy (Z.land flags 0x08) in
  let has_status := truthy (Z.land flags 0x10) in
  systolic ← read_H data 1;
  diastolic ← read_H data 3;
  mean_arterial_pressure ← read_H data 5;
  let systolic_value := scale_pressure unit systolic in
  let diastolic_value := scale_pressure unit diastolic in
  let map_value := scale_pressure unit mean_arterial_pressure in
  let measurement : gmap string pyval :=
    <["flags" := VInt flags]>
    (<["unit" := VStr unit]>
    (<["mean_arterial_pressure" := map_value]>
    (<["diastolic" := diastolic_value]>
    (<["systolic" := systolic_value]>
    (<["timestamp" := VDatetime now]> ∅))))) in
  let offset := 7%nat in
  '(measurement, offset) ← parse_timestamp has_timestamp data measurement offset;
  '(measurement, offset) ← parse_pulse_rate has_pulse_rate data measurement offset;
  '(measurement, offset) ← parse_user_id has_user_id data measurement offset;
  '(measurement, offset) ← parse_status has_status data measurement offset;
  Ret measurement.

(** [QardioArm2Client.parse_blood_pressure_measurement(self, data)].  [now]
    is the value returned by [datetime.now()]; the empty dictionary is the
    failure value [{}]. *)
Definition parse_blood_pressure_measurement (now : datetime) (data : list Byte.byte)
  : py (gmap string pyval) :=
  if (length data <? 7)%nat then Ret ∅
  else try_except (parse_body now data) (fun _ => Ret ∅).

(** [QardioArm2Client.blood_pressure_notification_handler(self, sender, data)]
    as far as [self.measurements] goes: the measurement is appended when the
    dictionary is not empty. *)
Definition blood_pressure_notification_handler (now : datetime)
    (measurements : list (gmap string pyval)) (data : list Byte.byte)
  : py (list (gmap string pyval)) :=
  measurement ← parse_blood_pressure_measurement now data;
  if (size measurement =? 0)%nat then Ret measurements
  else Ret (measurements ++ [measurement]).

Definition BATTERY_LEVEL_UUID : string := "00002A19-0000-1000-8000-00805F9B34FB".

(** A [BLEDevice] with the attributes [scan_for_devices] looks at.
    [sd_metadata] is [None] when the object has no [metadata] attribute or
    the attribute is [None]; [sd_rssi] is [None] when the object has no
    [rssi] attribute, and [Some None] when the attribute is [None]. *)
Record scanned_device := MkScanned {
  sd_name : option string;
  sd_address : string;
  sd_metadata : option (gmap string pyval);
  sd_rssi : option (option pyval)
}.

(** The dictionary [device_info] of [scan_for_devices]; [None] stands for
    Python's [None]. *)
Record device_info := MkDeviceInfo {
  info_address : string;
  info_name : string;
  info_rssi : option pyval;
  info_metadata : option (gmap string pyval)
}.

(** The RSSI and metadata found on a device: from a non-empty [metadata],
    else from the [rssi] attribute, else ['N/A']. *)
Definition rssi_and_metadata (d : scanned_device)
  : option pyval * option (gmap string pyval) :=
  let fallback :=
    match sd_rssi d with
    | Some rssi => (rssi, None)
    | None => (Some (VStr "N/A"), None)
    end in
  match sd_metadata d with
  | Some metadata =>
      if negb (size metadata =? 0)%nat
      then (Some (default (VStr "N/A") (metadata !! "rssi")), Some metadata)
      else fallback
  | None => fallback
  end.

(** [device.name or 'Unknown'] *)
Definition name_or_unknown (name : option string) : string :=
  match name with
  | Some n => if String.eqb n "" then "Unknown" else n
  | None => "Unknown"
  end.

Definition make_device_info (d : scanned_device) : device_info :=
  let '(rssi, metadata) := rssi_and_metadata d in
  MkDeviceInfo (sd_address d) (name_or_unknown (sd_name d)) rssi metadata.

(** [device.name and any(keyword in device.name.lower() for keyword in
    ['qardio', 'blood pressure', 'bp'])] *)
Definition looks_like_qardio (d : scanned_device) : bool :=
  match sd_name d with
  | Some n =>
      negb (String.eqb n "") &&
      existsb (fun keyword => str_contains keyword (str_lower n))
        ["qardio"; "blood pressure"; "bp"]
  | None => false
  end.

(** One iteration of [for device in devices:] on the pair
    [(qardio_devices, all_devices)]. *)
Definition scan_step (lists : list device_info * list device_info) (d : scanned_device)
  : list device_info * list device_info :=
  let '(qardio_devices, all_devices) := lists in
  let device_info := make_device_info d in
  let all_devices := all_devices ++ [device_info] in
  if looks_like_qardio d
  then (qardio_devices ++ [device_info], all_devices)
  else (qardio_devices, all_devices).

(** The loop of [scan_for_devices] and its
    [return qardio_devices if qardio_devices else all_devices]. *)
Definition select_devices (devices : list scanned_device) : list device_info :=
  let '(qardio_devices, all_devices) := fold_left scan_step devices ([], []) in
  match qardio_devices with
  | [] => all_devices
  | _ => qardio_devices
  end.

(** The attributes of a [QardioArm2Client] that [connect] and [disconnect]
    use: [self.client] and [self.device_address]. *)
Record client_state := MkState {
  self_client : option client;
  self_device_address : option string
}.

Section Client.
Variable env : ble_stack.
(** The value of [client.is_connected] for the client of an address, after
    the calls made so far; reading it makes no call. *)
Variable is_connected : list event -> string -> bool.
(** What [BleakScanner.discover(timeout=timeout)] answers, with the
    attributes of the devices. *)
Variable scan_devices : list event -> py (list scanned_device).

(** [QardioArm2Client.scan_for_devices(self, timeout)]; a failing scan is
    not caught. *)
Definition scan_for_devices : io (list device_info) :=
  devices ← call scan_devices EvDiscover;
  mret (select_devices devices).

(** [QardioArm2Client.read_battery_level(self)] on a client that has been
    created, as in [run_interactive_session]. *)
Definition read_battery_level (c : client) : io (option Z) :=
  io_try
    (data ← client_read_gatt_char env c BATTERY_LEVEL_UUID;
     battery_level ← io_lift (getitem data 0);
     mret (Some battery_level))
    (fun e => mret None).

(** [QardioArm2Client.connect(self, device_address)]: the result and the
    attributes afterwards.  [self.client] is assigned before the connect
    call is made. *)
Definition connect (self : client_state) (device_address : string)
  : io (bool * client_state) :=
  let self := MkState (Some (MkClient device_address)) (self_device_address self) in
  io_try
    (client_connect env (MkClient device_address);;
     connected ← io_read (fun t => is_connected t device_address);
     if (connected : bool)
     then mret (true, MkState (self_client self) (Some device_address))
     else mret (false, self))
    (fun e => mret (false, self)).

(** [QardioArm2Client.disconnect(self)]; a failing disconnection is not
    caught. *)
Definition disconnect (self : client_state) : io unit :=
  match self_client self with
  | Some c =>
      connected ← io_read (fun t => is_connected t (client_address c));
      if (connected : bool) then client_disconnect env c else mret tt
  | None => mret tt
  end.
End Client.

End QardioArm2App.

(* ===================================================================== *)
(** ** attempt1.py *)
(* ===================================================================== *)

Module Attempt1.

Definition DEVICE_NAME : string := "QardioARM 2".
Definition MAX_DISCOVERY_RETRIES : nat := 3.
Definition MAX_CONNECTION_RETRIES : nat := 3.
Definition RETRY_DELAY : Z := 0.

Section Session.
Variable env : ble_stack.

(** The [if attempt < bound: await asyncio.sleep(RETRY_DELAY)] statement. *)
Definition sleep_before_retry (attempt bound : nat) : io unit :=
  if (attempt <? bound)%nat then asyncio_sleep RETRY_DELAY else mret tt.

(** One iteration of the loop of [discover_device]. *)
Definition discover_attempt (attempt : nat) : io (option (option string)) :=
  io_try
    (devices ← BleakScanner_discover env;
     match find_by_name DEVICE_NAME devices with
     | Some device => mret (Some (Some (dev_address device)))
     | None =>
         sleep_before_retry attempt MAX_DISCOVERY_RETRIES;;
         mret None
     end)
    (fun e =>
       sleep_before_retry attempt MAX_DISCOVERY_RETRIES;;
       mret None).

(** [discover_device(device_address=None)]; an empty address string is
    falsy, like [None]. *)
Definition discover_device (device_address : option string) : io (option string) :=
  match device_address with
  | Some address =>
      if negb (String.eqb address "") then mret (Some address)
      else for_each (seq 1 MAX_DISCOVERY_RETRIES) discover_attempt (mret None)
  | None => for_each (seq 1 MAX_DISCOVERY_RETRIES) discover_attempt (mret None)
  end.

(** The inner [try: ... except BleakError as e: ...] of [connect_to_device];
    exceptions of other classes pass through it. *)
Definition connect_once (c : client) : io (option (option client)) :=
  io_try
    (client_connect env c;;
     mret (Some (Some c)))
    (fun e =>
       match e with
       | BleakError _ =>
           if str_contains "already connected" (str_lower (exn_str e))
           then mret (Some (Some c))
           else io_raise e
       | _ => io_raise e
       end).

(** One iteration of the loop of [connect_to_device]. *)
Definition connect_attempt (address : string) (attempt : nat)
  : io (option (option client)) :=
  io_try
    (let client := MkClient address in
     connect_once client)
    (fun e =>
       sleep_before_retry attempt MAX_CONNECTION_RETRIES;;
       mret None).

(** [connect_to_device(address)] *)
Definition connect_to_device (address : string) : io (option client) :=
  for_each (seq 1 MAX_CONNECTION_RETRIES) (connect_attempt address) (mret None).


End Session.

End Attempt1.

(* ===================================================================== *)
(** ** Vocabulary: SFLOAT values *)
(* ===================================================================== *)

(** Two's-complement reading of a [bits]-wide field holding [u]. *)
Definition twos_complement (bits u : Z) : Z :=
  if u <? 2 ^ (bits - 1) then u else u - 2 ^ bits.

(** Mantissa and exponent of a raw SFLOAT: low 12 bits and the 4 bits above. *)
Definition sfloat_mantissa (raw : Z) : Z := twos_complement 12 (raw mod 4096).
Definition sfloat_exponent (raw : Z) : Z := twos_complement 4 ((raw / 4096) mod 16).

(** The value [mantissa * 10 ** exponent] as Python computes it: an exact
    [int] for a non-negative exponent, a binary float product otherwise. *)
Definition sfloat_value (m e : Z) : pyval :=
  if 0 <=? e then VInt (m * 10 ^ e)
  else VFloat (PrimFloat.mul (float_of_Z m)
                 (PrimFloat.div (float_of_Z 1) (float_of_Z (10 ^ (- e))))).

(** The mantissa field holds one of the IEEE-11073 reserved codes
    +INFINITY, -INFINITY, NaN, NRes. *)
Definition reserved_sentinel (raw : Z) : bool :=
  let m := Z.land raw 0x0FFF in
  (m =? 0x07FE) || (m =? 0x0802) || (m =? 0x07FF) || (m =? 0x0800).

(** A Python number, as opposed to any other kind of value. *)
Definition is_number (v : pyval) : bool :=
  match v with
  | VInt _ | VFloat _ => true
  | _ => false
  end.

(** The finite float [f] is exactly the decimal [num / 10 ^ k]. *)
Definition float_is_exactly (f : float) (num k : Z) : bool :=
  match Prim2SF f with
  | S754_zero _ => num =? 0
  | S754_finite s m e =>
      let v := if s then Z.neg m else Z.pos m in
      if 0 <=? e then v * 2 ^ e * 10 ^ k =? num
      else v * 10 ^ k =? num * 2 ^ (- e)
  | _ => false
  end.

(* ===================================================================== *)
(** ** Vocabulary: bytes, flags and the cursor *)
(* ===================================================================== *)

(** Little-endian 16-bit value at offset [i], reading absent bytes as 0. *)
Definition byte_at (data : list Byte.byte) (i : nat) : Z :=
  match data !! i with
  | Some b => byte_val b
  | None => 0
  end.
Definition le16_at (data : list Byte.byte) (i : nat) : Z :=
  byte_at data i + 256 * byte_at data (i + 1).

(** Bit [k] of the flags byte [data[0]]. *)
Definition flag (data : list Byte.byte) (k : Z) : bool :=
  Z.testbit (byte_at data 0) k.

(** The calendar fields found at offset [off]. *)
Definition ts_year (data : list Byte.byte) (off : nat) : Z := le16_at data off.
Definition ts_month (data : list Byte.byte) (off : nat) : Z := byte_at data (off + 2).
Definition ts_day (data : list Byte.byte) (off : nat) : Z := byte_at data (off + 3).
Definition ts_hour (data : list Byte.byte) (off : nat) : Z := byte_at data (off + 4).
Definition ts_minute (data : list Byte.byte) (off : nat) : Z := byte_at data (off + 5).
Definition ts_second (data : list Byte.byte) (off : nat) : Z := byte_at data (off + 6).

(** The calendar fields at [off] are ones [datetime] accepts. *)
Definition ts_valid (data : list Byte.byte) (off : nat) : bool :=
  valid_datetime_fields (ts_year data off) (ts_month data off) (ts_day data off)
    (ts_hour data off) (ts_minute data off) (ts_second data off).

(** The text [blood_pressure_monitor.py] makes of the calendar fields. *)
Definition ts_text (data : list Byte.byte) (off : nat) : string :=
  (str_of_int (ts_year data off) +:+ "-" +:+ fmt_02d (ts_month data off) +:+ "-"
   +:+ fmt_02d (ts_day data off) +:+ " " +:+ fmt_02d (ts_hour data off) +:+ ":"
   +:+ fmt_02d (ts_minute data off) +:+ ":" +:+ fmt_02d (ts_second data off))%string.

(** The cursor of either decoder once the timestamp block is passed. *)
Definition offset_after_timestamp (data : list Byte.byte) : nat :=
  if flag data 1 && (14 <=? length data)%nat then 14%nat else 7%nat.

(** The cursor of [qardio_arm2_app.py] once the pulse-rate block is passed. *)
Definition offset_after_pulse_rate (data : list Byte.byte) : nat :=
  let off := offset_after_timestamp data in
  if flag data 2 && (off + 2 <=? length data)%nat then (off + 2)%nat else off.

(** The cursor of [qardio_arm2_app.py] once the user-id block is passed. *)
Definition offset_after_user_id (data : list Byte.byte) : nat :=
  let off := offset_after_pulse_rate data in
  if flag data 3 && (off + 1 <=? length data)%nat then (off + 1)%nat else off.

(** The cursor of [qardio_arm2_app.py] once the status block is passed. *)
Definition offset_after_status (data : list Byte.byte) : nat :=
  let off := offset_after_user_id data in
  if flag data 4 && (off + 2 <=? length data)%nat then (off + 2)%nat else off.

(** The end of the last field [blood_pressure_monitor.py] reads. *)
Definition monitor_consumed (data : list Byte.byte) : nat :=
  let off := offset_after_timestamp data in
  if flag data 2 && (off + 2 <=? length data)%nat then (off + 2)%nat else off.

(* ===================================================================== *)
(** ** The dictionaries the decoders build *)
(* ===================================================================== *)

(** What [blood_pressure_monitor.py] returns on at least 7 bytes. *)
Module BpmForm.
Import BloodPressureMonitor.

Definition base (data : list Byte.byte) : gmap string pyval :=
  <["units" := VStr (if flag data 0 then "kPa" else "mmHg")]>
  (<["mean_arterial" := parse_sfloat (le16_at data 5)]>
  (<["diastolic" := parse_sfloat (le16_at data 3)]>
  (<["systolic" := parse_sfloat (le16_at data 1)]> ∅))).

Definition with_timestamp (data : list Byte.byte) (m : gmap string pyval)
  : gmap string pyval :=
  if flag data 1 && (14 <=? length data)%nat
  then <["timestamp" := VStr (ts_text data 7)]> m else m.

Definition with_pulse_rate (data : list Byte.byte) (m : gmap string pyval)
  : gmap string pyval :=
  let off := offset_after_timestamp data in
  if flag data 2 && (off + 2 <=? length data)%nat
  then <["pulse_rate" := parse_sfloat (le16_at data off)]> m else m.

Definition form (data : list Byte.byte) : gmap string pyval :=
  with_pulse_rate data (with_timestamp data (base data)).
End BpmForm.

(** What [qardio_arm2_app.py] returns on at least 7 bytes. *)
Module AppForm.
Import QardioArm2App.

Definition unit_of (data : list Byte.byte) : string :=
  if flag data 0 then "kPa" else "mmHg".

Definition base (now : datetime) (data : list Byte.byte) : gmap string pyval :=
  <["flags" := VInt (byte_at data 0)]>
  (<["unit" := VStr (unit_of data)]>
  (<["mean_arterial_pressure" := scale_pressure (unit_of data) (le16_at data 5)]>
  (<["diastolic" := scale_pressure (unit_of data) (le16_at data 3)]>
  (<["systolic" := scale_pressure (unit_of data) (le16_at data 1)]>
  (<["timestamp" := VDatetime now]> ∅))))).

Definition device_timestamp (data : list Byte.byte) (off : nat) : datetime :=
  MkDatetime (ts_year data off) (ts_month data off) (ts_day data off)
    (ts_hour data off) (ts_minute data off) (ts_second data off) 0.

Definition with_timestamp (data : list Byte.byte) (m : gmap string pyval)
  : gmap string pyval :=
  if flag data 1 && (14 <=? length data)%nat then
    if ts_valid data 7
    then <["device_timestamp" := VDatetime (device_timestamp data 7)]> m
    else m
  else m.

Definition with_pulse_rate (data : list Byte.byte) (m : gmap string pyval)
  : gmap string pyval :=
  let off := offset_after_timestamp data in
  if flag data 2 && (off + 2 <=? length data)%nat
  then <["pulse_rate" := py_div_float (le16_at data off) (float_of_Z 10)]> m
  else m.

Definition with_user_id (data : list Byte.byte) (m : gmap string pyval)
  : gmap string pyval :=
  let off := offset_after_pulse_rate data in
  if flag data 3 && (off + 1 <=? length data)%nat
  then <["user_id" := VInt (byte_at data off)]> m else m.

Definition with_status (data : list Byte.byte) (m : gmap string pyval)
  : gmap string pyval :=
  let off := offset_after_user_id data in
  if flag data 4 && (off + 2 <=? length data)%nat
  then <["status" := VInt (le16_at data off)]> m else m.

Definition form (now : datetime) (data : list Byte.byte) : gmap string pyval :=
  with_status data
    (with_user_id data
       (with_pulse_rate data
          (with_timestamp data (base now data)))).
End AppForm.

(* ===================================================================== *)
(** ** Vocabulary: traces and retry loops *)
(* ===================================================================== *)

(** [m] only adds events that satisfy [P] to the trace. *)
Definition emits {A} (P : event -> Prop) (m : io A) : Prop :=
  forall t, exists t', snd (m t) = t ++ t' /\ Forall P t'.

(** The events of [k] failed attempts, each followed by the retry delay. *)
Definition rounds (ev : event) (delay : Z) (k : nat) : list event :=
  concat (replicate k [ev; EvSleep delay]).

(** The events of the failed attempts [attempts] of a loop bounded by
    [bound]: the delay follows every attempt but the last. *)
Definition failed_attempts (ev : event) (delay : Z) (bound : nat) (attempts : list nat)
  : list event :=
  flat_map (fun attempt =>
              ev :: (if (attempt <? bound)%nat then [EvSleep delay] else [])) attempts.

(** How many times [ev] was called in a trace. *)
Definition calls (is_call : event -> bool) (t : list event) : nat :=
  length (List.filter is_call t).

Definition is_discover (ev : event) : bool :=
  match ev with EvDiscover => true | _ => false end.
Definition is_connect (ev : event) : bool :=
  match ev with EvConnect _ => true | _ => false end.

(** A write to a characteristic. *)
Definition is_write (ev : event) : bool :=
  match ev with EvWriteChar _ _ _ => true | _ => false end.

(** An event other than a characteristic write. *)
Definition no_write (ev : event) : Prop := is_write ev = false.

(** The device named [name] in the answer to a scan made after the calls
    [t], if the scan answers and lists one. *)
Definition scan_match (env : ble_stack) (name : string) (t : list event) : option device :=
  match ble_scan env t with
  | Ret devices => find_by_name name devices
  | Raise _ => None
  end.



(** The error says that the device is connected already. *)
Definition reports_already_connected (e : exn) : bool :=
  match e with
  | BleakError msg => str_contains "already connected" (str_lower msg)
  | _ => false
  end.

(** What a connect attempt of [blood_pressure_monitor.py] made after the
    calls [t] achieves: a client, or nothing on any error. *)
Definition bpm_connect_outcome (env : ble_stack) (address : string) (t : list event)
  : option (option client) :=
  match ble_connect env t address with
  | Ret _ => Some (Some (MkClient address))
  | Raise _ => None
  end.

(** The same for [attempt1.py]: an "already connected" error counts as a
    connection. *)
Definition attempt1_connect_outcome (env : ble_stack) (address : string) (t : list event)
  : option (option client) :=
  match ble_connect env t address with
  | Ret _ => Some (Some (MkClient address))
  | Raise e =>
      if reports_already_connected e then Some (Some (MkClient address)) else None
  end.

(* ===================================================================== *)
(** ** Sample inputs *)
(* ===================================================================== *)

(** Flags [0x00], systolic raw [0x0128], diastolic [0x0050], mean [0x005A]. *)
Definition sample_plain : list Byte.byte :=
  [Byte.x00; Byte.x28; Byte.x01; Byte.x50; Byte.x00; Byte.x5a; Byte.x00].

(** Flags [0x01] (kPa), systolic raw [0x0078]. *)
Definition sample_kpa : list Byte.byte :=
  [Byte.x01; Byte.x78; Byte.x00; Byte.x50; Byte.x00; Byte.x5a; Byte.x00].

(** Flags [0x06]: 2024-03-15 08:30:00 and pulse raw [0x0048]. *)
Definition sample_full : list Byte.byte :=
  [Byte.x06; Byte.x28; Byte.x01; Byte.x50; Byte.x00; Byte.x5a; Byte.x00;
   Byte.xe8; Byte.x07; Byte.x03; Byte.x0f; Byte.x08; Byte.x1e; Byte.x00;
   Byte.x48; Byte.x00].

(** Flags [0x1E]: every optional field announced, none present. *)
Definition sample_truncated : list Byte.byte :=
  [Byte.x1e; Byte.x28; Byte.x01; Byte.x50; Byte.x00; Byte.x5a; Byte.x00].

(** Flags [0x06] and 13 bytes: the timestamp lacks its last byte, and no
    pulse rate follows. *)
Definition sample_cut_timestamp : list Byte.byte :=
  [Byte.x06; Byte.x28; Byte.x01; Byte.x50; Byte.x00; Byte.x5a; Byte.x00;
   Byte.xe8; Byte.x07; Byte.x03; Byte.x0f; Byte.x08; Byte.x1e].

(** Flags [0x06] with the calendar fields 2024-00-15 08:30:00 (month 0). *)
Definition sample_bad_month : list Byte.byte :=
  [Byte.x06; Byte.x28; Byte.x01; Byte.x50; Byte.x00; Byte.x5a; Byte.x00;
   Byte.xe8; Byte.x07; Byte.x00; Byte.x0f; Byte.x08; Byte.x1e; Byte.x00;
   Byte.x48; Byte.x00].

(** Six bytes: one short of a measurement. *)
Definition sample_short : list Byte.byte :=
  [Byte.x00; Byte.x28; Byte.x01; Byte.x50; Byte.x00; Byte.x5a].

(** A value for [datetime.now()]. *)
Definition sample_now : datetime := MkDatetime 2025 6 1 12 0 0 0.

(** The fields of a decoded dictionary that the examples inspect. *)
Definition keys_of (m : gmap string pyval) (ks : list string) : list (option pyval) :=
  List.map (fun k => m !! k) ks.

Definition bpm_fields (data : list Byte.byte) (ks : list string) : list (option pyval) :=
  match BloodPressureMonitor.parse_blood_pressure_measurement data with
  | Ret (Some m) => keys_of m ks
  | _ => []
  end.

Definition app_fields (data : list Byte.byte) (ks : list string) : list (option pyval) :=
  match QardioArm2App.parse_blood_pressure_measurement sample_now data with
  | Ret m => keys_of m ks
  | Raise _ => []
  end.

(** [qardio] is the target device, [headset] another one. *)
Definition qardio : device := MkDevice (Some "QardioARM 2") "C4:7C:8D:00:00:01".
Definition headset : device := MkDevice (Some "Headset") "00:1B:66:00:00:02".

(** Every call succeeds; scans list [headset] only. *)
Definition quiet_stack : ble_stack :=
  {| ble_scan := fun _ => Ret [headset];
     ble_connect := fun _ _ => Ret tt;
     ble_read := fun _ _ => Ret [Byte.x00; Byte.x00];
     ble_start_notify := fun _ _ => Ret tt;
     ble_write := fun _ _ _ _ => Ret tt;
     ble_stop_notify := fun _ _ => Ret tt;
     ble_disconnect := fun _ _ => Ret tt;
     ble_interrupt_after := 2 |}.

(** Like [quiet_stack], but [qardio] is listed once two calls have been
    made, that is from the second scan on. *)
Definition late_stack : ble_stack :=
  {| ble_scan := fun t => if (2 <=? length t)%nat then Ret [headset; qardio]
                          else Ret [headset];
     ble_connect := fun _ _ => Ret tt;
     ble_read := fun _ _ => Ret [Byte.x00; Byte.x00];
     ble_start_notify := fun _ _ => Ret tt;
     ble_write := fun _ _ _ _ => Ret tt;
     ble_stop_notify := fun _ _ => Ret tt;
     ble_disconnect := fun _ _ => Ret tt;
     ble_interrupt_after := 2 |}.

(** [qardio] is listed by every scan, and every connect attempt is refused
    because the device is connected already. *)
Definition busy_stack : ble_stack :=
  {| ble_scan := fun _ => Ret [headset; qardio];
     ble_connect := fun _ _ => Raise (BleakError "Device Already Connected");
     ble_read := fun _ _ => Ret [Byte.x00; Byte.x00];
     ble_start_notify := fun _ _ => Ret tt;
     ble_write := fun _ _ _ _ => Ret tt;
     ble_stop_notify := fun _ _ => Ret tt;
     ble_disconnect := fun _ _ => Ret tt;
     ble_interrupt_after := 2 |}.

(* ===================================================================== *)
(** ** Vocabulary: further properties of the code *)
(* ===================================================================== *)

(** The raw SFLOAT whose exponent field holds [e] and whose mantissa field
    holds [m], both in two's complement. *)
Definition sfloat_raw (m e : Z) : Z := (e mod 16) * 4096 + m mod 4096.

(** The keys of a decoded dictionary. *)
Definition keys (m : gmap string pyval) : gset string := dom m.

(** The set [{[k]}] when [b] holds, the empty set otherwise. *)
Definition key_if (b : bool) (k : string) : gset string :=
  if b then {[k]} else ∅.

(** The size in bytes of an optional field announced by flag [b]. *)
Definition field_size (b : bool) (n : nat) : nat := if b then n else 0%nat.

(** The stack delivering notifications one after the other to
    [blood_pressure_notification_handler], each with the host time of its
    arrival; [log] is [self.measurements]. *)
Fixpoint deliver (log : list (gmap string pyval))
    (notifications : list (datetime * list Byte.byte))
  : py (list (gmap string pyval)) :=
  match notifications with
  | [] => Ret log
  | (now, data) :: rest =>
      log' ← QardioArm2App.blood_pressure_notification_handler now log data;
      deliver log' rest
  end.

(** The notifications long enough to hold a measurement. *)
Definition decodable (notifications : list (datetime * list Byte.byte))
  : list (datetime * list Byte.byte) :=
  List.filter (fun n => (7 <=? length (snd n))%nat) notifications.

(** The stack accepted the call: it answered without raising. *)
Definition accepted {A} (answer : py A) : bool :=
  match answer with
  | Ret _ => true
  | Raise _ => false
  end.

(** The calls of the [finally:] block of [main] after the calls [h]: the
    unsubscription, and the disconnection if the unsubscription was
    accepted. *)
Definition cleanup_calls (env : ble_stack) (h : list event) : list event :=
  EvStopNotify BloodPressureMonitor.BP_MEASUREMENT_CHAR_UUID ::
  (if accepted (ble_stop_notify env h BloodPressureMonitor.BP_MEASUREMENT_CHAR_UUID)
   then [EvDisconnect] else []).

(** A call on a characteristic or on the connection, as opposed to a scan,
    a connect attempt or a sleep. *)
Definition is_gatt (ev : event) : bool :=
  match ev with
  | EvDiscover | EvSleep _ | EvConnect _ => false
  | _ => true
  end.

(** [qardio] is listed by every scan and connects, but the subscription to
    notifications is refused. *)
Definition refusing_stack : ble_stack :=
  {| ble_scan := fun _ => Ret [qardio];
     ble_connect := fun _ _ => Ret tt;
     ble_read := fun _ _ => Raise (BleakError "Characteristic not found");
     ble_start_notify := fun _ _ => Raise (BleakError "Notify refused");
     ble_write := fun _ _ _ _ => Ret tt;
     ble_stop_notify := fun _ _ => Raise (BleakError "Not subscribed");
     ble_disconnect := fun _ _ => Ret tt;
     ble_interrupt_after := 2 |}.

(** [qardio] is listed by every scan, connects and accepts the
    subscription, but the activation write is refused. *)
Definition locked_stack : ble_stack :=
  {| ble_scan := fun _ => Ret [qardio];
     ble_connect := fun _ _ => Ret tt;
     ble_read := fun _ _ => Ret [Byte.x00; Byte.x00];
     ble_start_notify := fun _ _ => Ret tt;
     ble_write := fun _ _ _ _ => Raise (BleakError "Write not permitted");
     ble_stop_notify := fun _ _ => Ret tt;
     ble_disconnect := fun _ _ => Ret tt;
     ble_interrupt_after := 2 |}.

(* ===================================================================== *)
(** ** Bit-level facts *)
(* ===================================================================== *)

Lemma land_pow2 (u k : Z) :
  0 <= k -> Z.land u (2 ^ k) = if Z.testbit u k then 2 ^ k else 0.
Proof.
  intros Hk. apply Z.bits_inj'. intros i Hi.
  rewrite Z.land_spec, Z.pow2_bits_eqb by assumption.
  destruct (Z.eqb_spec k i) as [->|Hne].
  - destruct (Z.testbit u i); simpl.
    + rewrite Z.pow2_bits_eqb, Z.eqb_refl by assumption. reflexivity.
    + rewrite Z.bits_0. reflexivity.
  - rewrite andb_false_r. destruct (Z.testbit u k).
    + rewrite Z.pow2_bits_eqb by assumption.
      symmetry. apply Z.eqb_neq. assumption.
    + rewrite Z.bits_0. reflexivity.
Qed.

Lemma testbit_top (bits u : Z) :
  0 < bits -> 0 <= u < 2 ^ bits ->
  Z.testbit u (bits - 1) = negb (u <? 2 ^ (bits - 1)).
Proof.
  intros Hb Hu.
  assert (Hpow : 2 ^ bits = 2 * 2 ^ (bits - 1)).
  { replace bits with (Z.succ (bits - 1)) at 1 by lia. apply Z.pow_succ_r. lia. }
  assert (Hpos : 0 < 2 ^ (bits - 1)) by (apply Z.pow_pos_nonneg; lia).
  destruct (Z.ltb_spec u (2 ^ (bits - 1))) as [Hlt|Hge]; simpl.
  - apply Z.testbit_false; [lia|]. rewrite Z.div_small by lia. reflexivity.
  - apply Z.testbit_true; [lia|].
    replace (u / 2 ^ (bits - 1)) with 1; [reflexivity|].
    apply Z.div_unique with (r := u - 2 ^ (bits - 1)); lia.
Qed.

Lemma land_lnot_ones (bits u : Z) :
  0 <= bits -> 0 <= u < 2 ^ bits ->
  Z.land (Z.lnot u) (Z.ones bits) = 2 ^ bits - 1 - u.
Proof.
  intros Hb Hu. rewrite Z.land_ones by assumption.
  unfold Z.lnot. symmetry.
  apply Z.mod_unique with (q := -1); lia.
Qed.

(** The [if field & sign: field = -((~field & mask) + 1)] idiom of
    [parse_sfloat] is the two's-complement reading. *)
Lemma sign_idiom (bits u : Z) :
  0 < bits -> 0 <= u < 2 ^ bits ->
  (if truthy (Z.land u (2 ^ (bits - 1)))
   then - (Z.land (Z.lnot u) (Z.ones bits) + 1)
   else u) = twos_complement bits u.
Proof.
  intros Hb Hu. unfold truthy, twos_complement.
  rewrite land_pow2 by lia. rewrite testbit_top by assumption.
  assert (Hpos : 0 < 2 ^ (bits - 1)) by (apply Z.pow_pos_nonneg; lia).
  destruct (Z.ltb_spec u (2 ^ (bits - 1))) as [Hlt|Hge]; simpl.
  - reflexivity.
  - destruct (Z.eqb_spec (2 ^ (bits - 1)) 0) as [H0|_]; [lia|]. simpl.
    rewrite land_lnot_ones by lia. lia.
Qed.

Lemma twos_complement_range (bits u : Z) :
  0 < bits -> 0 <= u < 2 ^ bits ->
  - 2 ^ (bits - 1) <= twos_complement bits u < 2 ^ (bits - 1).
Proof.
  intros Hb Hu. unfold twos_complement.
  assert (Hpow : 2 ^ bits = 2 * 2 ^ (bits - 1)).
  { replace bits with (Z.succ (bits - 1)) at 1 by lia. apply Z.pow_succ_r. lia. }
  destruct (Z.ltb_spec u (2 ^ (bits - 1))); lia.
Qed.

Lemma sfloat_mantissa_range (raw : Z) : -2048 <= sfloat_mantissa raw <= 2047.
Proof.
  unfold sfloat_mantissa.
  pose proof (twos_complement_range 12 (raw mod 4096) ltac:(lia)
                (Z.mod_pos_bound raw 4096 ltac:(lia))) as H.
  change (2 ^ (12 - 1)) with 2048 in H. lia.
Qed.

Lemma sfloat_exponent_range (raw : Z) : -8 <= sfloat_exponent raw <= 7.
Proof.
  unfold sfloat_exponent.
  pose proof (twos_complement_range 4 ((raw / 4096) mod 16) ltac:(lia)
                (Z.mod_pos_bound (raw / 4096) 16 ltac:(lia))) as H.
  change (2 ^ (4 - 1)) with 8 in H. lia.
Qed.

(** [parse_sfloat] computes [mantissa * 10 ** exponent] on the
    two's-complement mantissa and exponent fields. *)
Lemma parse_sfloat_fields (raw : Z) :
  BloodPressureMonitor.parse_sfloat raw =
  sfloat_value (sfloat_mantissa raw) (sfloat_exponent raw).
Proof.
  unfold BloodPressureMonitor.parse_sfloat, sfloat_mantissa, sfloat_exponent.
  cbv zeta.
  change 0x0FFF with (Z.ones 12). change 0x000F with (Z.ones 4).
  change 0x0800 with (2 ^ (12 - 1)). change 0x0008 with (2 ^ (4 - 1)).
  rewrite (sign_idiom 12), (sign_idiom 4);
    try lia; try (rewrite Z.land_ones by lia; apply Z.mod_pos_bound; lia).
  rewrite !Z.land_ones by lia. rewrite Z.shiftr_div_pow2 by lia.
  change (2 ^ 12) with 4096. change (2 ^ 4) with 16.
  unfold sfloat_value, py_pow.
  destruct (0 <=? twos_complement 4 _); reflexivity.
Qed.

(* ===================================================================== *)
(** ** Reading bytes *)
(* ===================================================================== *)

Lemma bind_Ret {A B} (a : A) (k : A -> py B) : (Ret a ≫= k) = k a.
Proof. reflexivity. Qed.

Lemma byte_val_range (b : Byte.byte) : 0 <= byte_val b < 256.
Proof. unfold byte_val. pose proof (Byte.to_N_bounded b). lia. Qed.

Lemma byte_at_range (data : list Byte.byte) (i : nat) : 0 <= byte_at data i < 256.
Proof.
  unfold byte_at. destruct (data !! i); [apply byte_val_range | lia].
Qed.

Lemma getitem_lt (data : list Byte.byte) (i : nat) :
  (i < length data)%nat -> getitem data i = Ret (byte_at data i).
Proof.
  intros Hi. unfold getitem, byte_at.
  destruct (lookup_lt_is_Some_2 data i Hi) as [b ->]. reflexivity.
Qed.

Lemma truthy_land_pow2 (f k : Z) :
  0 <= k -> truthy (Z.land f (2 ^ k)) = Z.testbit f k.
Proof.
  intros Hk. unfold truthy. rewrite land_pow2 by assumption.
  assert (0 < 2 ^ k) by (apply Z.pow_pos_nonneg; lia).
  destruct (Z.testbit f k); [|reflexivity].
  destruct (Z.eqb_spec (2 ^ k) 0); [lia | reflexivity].
Qed.

Lemma lor_shiftl_byte (h l : Z) :
  0 <= l < 256 -> Z.lor (Z.shiftl h 8) l = l + 256 * h.
Proof.
  intros Hl.
  assert (Hdisj : Z.land (Z.shiftl h 8) l = 0).
  { apply Z.bits_inj'. intros i Hi. rewrite Z.land_spec, Z.bits_0.
    destruct (Z.ltb_spec i 8) as [Hlt|Hge].
    - rewrite Z.shiftl_spec_low by assumption. reflexivity.
    - replace (Z.testbit l i) with false; [apply andb_false_r|].
      symmetry. apply Z.testbit_false; [assumption|].
      rewrite Z.div_small; [reflexivity|].
      split; [lia|]. apply Z.lt_le_trans with (2 ^ 8); [change (2 ^ 8) with 256; lia|].
      apply Z.pow_le_mono_r; lia. }
  pose proof (Z.add_lor_land (Z.shiftl h 8) l) as Hadd.
  rewrite Hdisj in Hadd. rewrite Z.shiftl_mul_pow2 in Hadd |- * by lia.
  change (2 ^ 8) with 256 in Hadd |- *. lia.
Qed.

Lemma bpm_read_le16 (data : list Byte.byte) (i : nat) :
  (i + 2 <= length data)%nat ->
  BloodPressureMonitor.read_le16 data i (i + 1) = Ret (le16_at data i).
Proof.
  intros Hi. unfold BloodPressureMonitor.read_le16, le16_at.
  rewrite !getitem_lt by lia. rewrite !bind_Ret.
  rewrite lor_shiftl_byte by apply byte_at_range. reflexivity.
Qed.

Lemma app_read_H (data : list Byte.byte) (i : nat) :
  (i + 2 <= length data)%nat ->
  QardioArm2App.read_H data i = Ret (le16_at data i).
Proof.
  intros Hi. unfold QardioArm2App.read_H, slice, le16_at, byte_at.
  replace (i + 2 - i)%nat with 2%nat by lia.
  destruct (lookup_lt_is_Some_2 data i ltac:(lia)) as [x Hx].
  destruct (lookup_lt_is_Some_2 data (i + 1) ltac:(lia)) as [y Hy].
  rewrite Hx, Hy.
  assert (H0 : drop i data !! 0%nat = Some x)
    by (rewrite lookup_drop, Nat.add_0_r; exact Hx).
  assert (H1 : drop i data !! 1%nat = Some y) by (rewrite lookup_drop; exact Hy).
  destruct (drop i data) as [|x' [|y' rest]]; simplify_eq/=. reflexivity.
Qed.

(** The 16-bit value read at any offset is a 16-bit value. *)
Lemma le16_at_range (data : list Byte.byte) (i : nat) : 0 <= le16_at data i < 65536.
Proof.
  unfold le16_at. pose proof (byte_at_range data i).
  pose proof (byte_at_range data (i + 1)). lia.
Qed.

(* ===================================================================== *)
(** ** The decoders in closed form *)
(* ===================================================================== *)

Lemma bpm_parse_timestamp_eq (b : bool) (data : list Byte.byte)
    (result : gmap string pyval) (off : nat) :
  BloodPressureMonitor.parse_timestamp b data result off =
  Ret (if b && (off + 7 <=? length data)%nat
       then (<["timestamp" := VStr (ts_text data off)]> result, (off + 7)%nat)
       else (result, off)).
Proof.
  unfold BloodPressureMonitor.parse_timestamp.
  destruct (b && (off + 7 <=? length data)%nat) eqn:E; [|reflexivity].
  apply andb_true_iff in E as [_ Hlen%Nat.leb_le].
  rewrite bpm_read_le16 by lia. rewrite !getitem_lt by lia.
  rewrite !bind_Ret. reflexivity.
Qed.

Lemma bpm_parse_pulse_rate_eq (b : bool) (data : list Byte.byte)
    (result : gmap string pyval) (off : nat) :
  BloodPressureMonitor.parse_pulse_rate b data result off =
  Ret (if b && (off + 2 <=? length data)%nat
       then <["pulse_rate" := BloodPressureMonitor.parse_sfloat (le16_at data off)]> result
       else result).
Proof.
  unfold BloodPressureMonitor.parse_pulse_rate.
  destruct (b && (off + 2 <=? length data)%nat) eqn:E; [|reflexivity].
  apply andb_true_iff in E as [_ Hlen%Nat.leb_le].
  rewrite bpm_read_le16 by lia. rewrite bind_Ret. reflexivity.
Qed.

Lemma bpm_short (data : list Byte.byte) :
  (length data < 7)%nat ->
  BloodPressureMonitor.parse_blood_pressure_measurement data = Ret None.
Proof.
  intros Hlen. unfold BloodPressureMonitor.parse_blood_pressure_measurement.
  replace (length data <? 7)%nat with true by (symmetry; apply Nat.ltb_lt; lia).
  rewrite orb_true_r. reflexivity.
Qed.

(** On at least 7 bytes the decoder returns the dictionary [BpmForm.form]. *)
Lemma bpm_parse_eq (data : list Byte.byte) :
  (7 <= length data)%nat ->
  BloodPressureMonitor.parse_blood_pressure_measurement data =
  Ret (Some (BpmForm.form data)).
Proof.
  intros Hlen. unfold BloodPressureMonitor.parse_blood_pressure_measurement.
  replace (length data =? 0)%nat with false by (symmetry; apply Nat.eqb_neq; lia).
  replace (length data <? 7)%nat with false by (symmetry; apply Nat.ltb_ge; lia).
  cbv [orb]. rewrite getitem_lt by lia. rewrite bind_Ret. cbv zeta.
  change (BloodPressureMonitor.read_le16 data 1 2)
    with (BloodPressureMonitor.read_le16 data 1 (1 + 1)).
  change (BloodPressureMonitor.read_le16 data 3 4)
    with (BloodPressureMonitor.read_le16 data 3 (3 + 1)).
  change (BloodPressureMonitor.read_le16 data 5 6)
    with (BloodPressureMonitor.read_le16 data 5 (5 + 1)).
  rewrite (bpm_read_le16 data 1), (bpm_read_le16 data 3), (bpm_read_le16 data 5) by lia.
  rewrite !bind_Ret.
  change 0x01 with (2 ^ 0). change 0x02 with (2 ^ 1). change 0x04 with (2 ^ 2).
  rewrite !truthy_land_pow2 by lia.
  rewrite bpm_parse_timestamp_eq, bind_Ret.
  unfold BpmForm.form, BpmForm.with_pulse_rate, BpmForm.with_timestamp,
    offset_after_timestamp.
  fold (flag data 0) (flag data 1) (flag data 2).
  change (7 + 7 <=? length data)%nat with (14 <=? length data)%nat.
  fold (BpmForm.base data).
  destruct (flag data 1 && (14 <=? length data)%nat);
    rewrite bpm_parse_pulse_rate_eq, bind_Ret; reflexivity.
Qed.

Lemma app_parse_timestamp_eq (b : bool) (data : list Byte.byte)
    (m : gmap string pyval) (off : nat) :
  QardioArm2App.parse_timestamp b data m off =
  Ret (if b && (off + 7 <=? length data)%nat
       then ((if ts_valid data off
              then <["device_timestamp" := VDatetime (AppForm.device_timestamp data off)]> m
              else m), (off + 7)%nat)
       else (m, off)).
Proof.
  unfold QardioArm2App.parse_timestamp.
  destruct (b && (off + 7 <=? length data)%nat) eqn:E; [|reflexivity].
  apply andb_true_iff in E as [_ Hlen%Nat.leb_le].
  rewrite app_read_H by lia. rewrite !getitem_lt by lia.
  rewrite !bind_Ret. unfold datetime_new.
  fold (ts_year data off) (ts_month data off) (ts_day data off)
    (ts_hour data off) (ts_minute data off) (ts_second data off).
  fold (ts_valid data off).
  destruct (ts_valid data off); reflexivity.
Qed.

Lemma app_parse_pulse_rate_eq (b : bool) (data : list Byte.byte)
    (m : gmap string pyval) (off : nat) :
  QardioArm2App.parse_pulse_rate b data m off =
  Ret (if b && (off + 2 <=? length data)%nat
       then (<["pulse_rate" := py_div_float (le16_at data off) (float_of_Z 10)]> m,
             (off + 2)%nat)
       else (m, off)).
Proof.
  unfold QardioArm2App.parse_pulse_rate.
  destruct (b && (off + 2 <=? length data)%nat) eqn:E; [|reflexivity].
  apply andb_true_iff in E as [_ Hlen%Nat.leb_le].
  rewrite app_read_H by lia. rewrite bind_Ret. reflexivity.
Qed.

Lemma app_parse_user_id_eq (b : bool) (data : list Byte.byte)
    (m : gmap string pyval) (off : nat) :
  QardioArm2App.parse_user_id b data m off =
  Ret (if b && (off + 1 <=? length data)%nat
       then (<["user_id" := VInt (byte_at data off)]> m, (off + 1)%nat)
       else (m, off)).
Proof.
  unfold QardioArm2App.parse_user_id.
  destruct (b && (off + 1 <=? length data)%nat) eqn:E; [|reflexivity].
  apply andb_true_iff in E as [_ Hlen%Nat.leb_le].
  rewrite getitem_lt by lia. rewrite bind_Ret. reflexivity.
Qed.

Lemma app_parse_status_eq (b : bool) (data : list Byte.byte)
    (m : gmap string pyval) (off : nat) :
  QardioArm2App.parse_status b data m off =
  Ret (if b && (off + 2 <=? length data)%nat
       then (<["status" := VInt (le16_at data off)]> m, (off + 2)%nat)
       else (m, off)).
Proof.
  unfold QardioArm2App.parse_status.
  destruct (b && (off + 2 <=? length data)%nat) eqn:E; [|reflexivity].
  apply andb_true_iff in E as [_ Hlen%Nat.leb_le].
  rewrite app_read_H by lia. rewrite bind_Ret. reflexivity.
Qed.

Lemma app_short (now : datetime) (data : list Byte.byte) :
  (length data < 7)%nat ->
  QardioArm2App.parse_blood_pressure_measurement now data = Ret ∅.
Proof.
  intros Hlen. unfold QardioArm2App.parse_blood_pressure_measurement.
  replace (length data <? 7)%nat with true by (symmetry; apply Nat.ltb_lt; lia).
  reflexivity.
Qed.

(** On at least 7 bytes the body of the [try] block returns [AppForm.form]
    and the [except Exception] clause is never entered. *)
Lemma app_parse_body_eq (now : datetime) (data : list Byte.byte) :
  (7 <= length data)%nat ->
  QardioArm2App.parse_body now data = Ret (AppForm.form now data).
Proof.
  intros Hlen. unfold QardioArm2App.parse_body.
  rewrite getitem_lt by lia. rewrite bind_Ret. cbv zeta.
  rewrite (app_read_H data 1), (app_read_H data 3), (app_read_H data 5) by lia.
  rewrite !bind_Ret.
  change 0x01 with (2 ^ 0). change 0x02 with (2 ^ 1). change 0x04 with (2 ^ 2).
  change 0x08 with (2 ^ 3). change 0x10 with (2 ^ 4).
  rewrite !truthy_land_pow2 by lia.
  fold (flag data 0) (flag data 1) (flag data 2) (flag data 3) (flag data 4).
  fold (AppForm.unit_of data). fold (AppForm.base now data).
  rewrite app_parse_timestamp_eq, bind_Ret.
  unfold AppForm.form, AppForm.with_status, AppForm.with_user_id,
    AppForm.with_pulse_rate, AppForm.with_timestamp,
    offset_after_user_id, offset_after_pulse_rate, offset_after_timestamp.
  cbv zeta.
  change (7 + 7 <=? length data)%nat with (14 <=? length data)%nat.
  destruct (flag data 1 && (14 <=? length data)%nat);
    rewrite app_parse_pulse_rate_eq, bind_Ret; cbn [Nat.add];
    match goal with
    | |- context [flag data 2 && ?c] => destruct (flag data 2 && c)
    end;
    rewrite app_parse_user_id_eq, bind_Ret; cbn [Nat.add];
    match goal with
    | |- context [flag data 3 && ?c] => destruct (flag data 3 && c)
    end;
    rewrite app_parse_status_eq, bind_Ret; cbn [Nat.add];
    match goal with
    | |- context [flag data 4 && ?c] => destruct (flag data 4 && c)
    end;
    reflexivity.
Qed.

Lemma app_parse_eq (now : datetime) (data : list Byte.byte) :
  (7 <= length data)%nat ->
  QardioArm2App.parse_blood_pressure_measurement now data =
  Ret (AppForm.form now data).
Proof.
  intros Hlen. unfold QardioArm2App.parse_blood_pressure_measurement.
  replace (length data <? 7)%nat with false by (symmetry; apply Nat.ltb_ge; lia).
  rewrite app_parse_body_eq by assumption. reflexivity.
Qed.

(* ===================================================================== *)
(** ** Keys of the decoded dictionaries *)
(* ===================================================================== *)

Ltac map_lookup :=
  repeat first
    [ rewrite lookup_insert_eq
    | rewrite lookup_insert_ne by discriminate
    | rewrite lookup_empty ].

Ltac split_guards :=
  repeat match goal with
         | |- context [if ?c && ?d then _ else _] => destruct (c && d)
         | |- context [if ts_valid ?d ?o then _ else _] => destruct (ts_valid d o)
         end.

Section BpmKeys.
Import BloodPressureMonitor.
Variable data : list Byte.byte.

Lemma bpm_form_systolic :
  BpmForm.form data !! "systolic" = Some (parse_sfloat (le16_at data 1)).
Proof.
  unfold BpmForm.form, BpmForm.with_pulse_rate, BpmForm.with_timestamp, BpmForm.base.
  cbv zeta. split_guards; map_lookup; reflexivity.
Qed.

Lemma bpm_form_diastolic :
  BpmForm.form data !! "diastolic" = Some (parse_sfloat (le16_at data 3)).
Proof.
  unfold BpmForm.form, BpmForm.with_pulse_rate, BpmForm.with_timestamp, BpmForm.base.
  cbv zeta. split_guards; map_lookup; reflexivity.
Qed.

Lemma bpm_form_mean_arterial :
  BpmForm.form data !! "mean_arterial" = Some (parse_sfloat (le16_at data 5)).
Proof.
  unfold BpmForm.form, BpmForm.with_pulse_rate, BpmForm.with_timestamp, BpmForm.base.
  cbv zeta. split_guards; map_lookup; reflexivity.
Qed.

Lemma bpm_form_units :
  BpmForm.form data !! "units" = Some (VStr (if flag data 0 then "kPa" else "mmHg")).
Proof.
  unfold BpmForm.form, BpmForm.with_pulse_rate, BpmForm.with_timestamp, BpmForm.base.
  cbv zeta. split_guards; map_lookup; reflexivity.
Qed.

Lemma bpm_form_timestamp :
  BpmForm.form data !! "timestamp" =
  if flag data 1 && (14 <=? length data)%nat
  then Some (VStr (ts_text data 7)) else None.
Proof.
  unfold BpmForm.form, BpmForm.with_pulse_rate, BpmForm.with_timestamp, BpmForm.base.
  cbv zeta. split_guards; map_lookup; reflexivity.
Qed.

Lemma bpm_form_pulse_rate :
  BpmForm.form data !! "pulse_rate" =
  if flag data 2 && (offset_after_timestamp data + 2 <=? length data)%nat
  then Some (parse_sfloat (le16_at data (offset_after_timestamp data))) else None.
Proof.
  unfold BpmForm.form, BpmForm.with_pulse_rate, BpmForm.with_timestamp, BpmForm.base.
  cbv zeta. split_guards; map_lookup; reflexivity.
Qed.
End BpmKeys.

Section AppKeys.
Import QardioArm2App.
Variable now : datetime.
Variable data : list Byte.byte.

Ltac open_form :=
  unfold AppForm.form, AppForm.with_status, AppForm.with_user_id,
    AppForm.with_pulse_rate, AppForm.with_timestamp, AppForm.base;
  cbv zeta; split_guards; map_lookup; reflexivity.

Lemma app_form_systolic :
  AppForm.form now data !! "systolic" =
  Some (scale_pressure (AppForm.unit_of data) (le16_at data 1)).
Proof. open_form. Qed.

Lemma app_form_diastolic :
  AppForm.form now data !! "diastolic" =
  Some (scale_pressure (AppForm.unit_of data) (le16_at data 3)).
Proof. open_form. Qed.

Lemma app_form_mean_arterial_pressure :
  AppForm.form now data !! "mean_arterial_pressure" =
  Some (scale_pressure (AppForm.unit_of data) (le16_at data 5)).
Proof. open_form. Qed.

Lemma app_form_unit :
  AppForm.form now data !! "unit" = Some (VStr (AppForm.unit_of data)).
Proof. open_form. Qed.

Lemma app_form_flags :
  AppForm.form now data !! "flags" = Some (VInt (byte_at data 0)).
Proof. open_form. Qed.

Lemma app_form_device_timestamp :
  AppForm.form now data !! "device_timestamp" =
  if flag data 1 && (14 <=? length data)%nat then
    if ts_valid data 7 then Some (VDatetime (AppForm.device_timestamp data 7))
    else None
  else None.
Proof. open_form. Qed.

Lemma app_form_pulse_rate :
  AppForm.form now data !! "pulse_rate" =
  if flag data 2 && (offset_after_timestamp data + 2 <=? length data)%nat
  then Some (py_div_float (le16_at data (offset_after_timestamp data)) (float_of_Z 10))
  else None.
Proof. open_form. Qed.

Lemma app_form_user_id :
  AppForm.form now data !! "user_id" =
  if flag data 3 && (offset_after_pulse_rate data + 1 <=? length data)%nat
  then Some (VInt (byte_at data (offset_after_pulse_rate data))) else None.
Proof. open_form. Qed.

Lemma app_form_status :
  AppForm.form now data !! "status" =
  if flag data 4 && (offset_after_user_id data + 2 <=? length data)%nat
  then Some (VInt (le16_at data (offset_after_user_id data))) else None.
Proof. open_form. Qed.

(** A decoded measurement is never the failure value [{}]. *)
Lemma app_form_nonempty : AppForm.form now data ≠ ∅.
Proof.
  intros Hempty. pose proof app_form_flags as Hflags.
  rewrite Hempty, lookup_empty in Hflags. discriminate.
Qed.
End AppKeys.

(* ===================================================================== *)
(** ** The decoders on the sample inputs *)
(* ===================================================================== *)

Example sample_plain_bpm :
  bpm_fields sample_plain
    ["systolic"; "diastolic"; "mean_arterial"; "units"; "timestamp"; "pulse_rate"]
  = [Some (VInt 296); Some (VInt 80); Some (VInt 90); Some (VStr "mmHg"); None; None].
Proof. vm_compute. reflexivity. Qed.

Example sample_full_bpm :
  bpm_fields sample_full ["systolic"; "units"; "timestamp"; "pulse_rate"]
  = [Some (VInt 296); Some (VStr "mmHg"); Some (VStr "2024-03-15 08:30:00");
     Some (VInt 72)].
Proof. vm_compute. reflexivity. Qed.

Example sample_full_app :
  app_fields sample_full ["diastolic"; "unit"; "flags"; "device_timestamp"; "user_id"]
  = [Some (VFloat 8); Some (VStr "mmHg"); Some (VInt 6);
     Some (VDatetime (MkDatetime 2024 3 15 8 30 0 0)); None].
Proof. vm_compute. reflexivity. Qed.

Example sample_short_fails :
  BloodPressureMonitor.parse_blood_pressure_measurement sample_short = Ret None /\
  QardioArm2App.parse_blood_pressure_measurement sample_now sample_short = Ret ∅.
Proof. split; reflexivity. Qed.

(* ===================================================================== *)
(** ** The decoder: SFLOAT values *)
(* ===================================================================== *)

Lemma sfloat_value_number (m e : Z) : is_number (sfloat_value m e) = true.
Proof. unfold sfloat_value. destruct (0 <=? e); reflexivity. Qed.

Lemma land_low12 (raw : Z) : Z.land raw 0x0FFF = raw mod 4096.
Proof. change 0x0FFF with (Z.ones 12). apply Z.land_ones. lia. Qed.

(** C1, as the code has it: a raw SFLOAT whose mantissa field is one of the
    reserved codes 0x07FE, 0x0802, 0x07FF, 0x0800 is decoded by [parse_sfloat]
    like any other value, to the number mantissa * 10 ** exponent with the
    mantissa read as 2046, -2046, 2047 and -2048 respectively; no special
    value is produced. *)
Theorem C1_reserved_codes_decode_as_numbers (raw : Z) :
  reserved_sentinel raw = true ->
  is_number (BloodPressureMonitor.parse_sfloat raw) = true /\
  BloodPressureMonitor.parse_sfloat raw =
    sfloat_value (sfloat_mantissa raw) (sfloat_exponent raw) /\
  ((Z.land raw 0x0FFF = 0x07FE /\ sfloat_mantissa raw = 2046) \/
   (Z.land raw 0x0FFF = 0x0802 /\ sfloat_mantissa raw = -2046) \/
   (Z.land raw 0x0FFF = 0x07FF /\ sfloat_mantissa raw = 2047) \/
   (Z.land raw 0x0FFF = 0x0800 /\ sfloat_mantissa raw = -2048)).
Proof.
  intros Hres. rewrite parse_sfloat_fields. split; [apply sfloat_value_number|].
  split; [reflexivity|].
  unfold reserved_sentinel in Hres. cbv zeta in Hres.
  unfold sfloat_mantissa. rewrite land_low12 in *.
  repeat (apply orb_true_iff in Hres as [Hres|Hres]);
    apply Z.eqb_eq in Hres; rewrite Hres; auto 10.
Qed.

Lemma C1_reserved_codes_decode_as_numbers_witness :
  reserved_sentinel 0x07FF = true /\
  BloodPressureMonitor.parse_sfloat 0x07FF = sfloat_value 2047 0.
Proof.
  split; [reflexivity|].
  destruct (C1_reserved_codes_decode_as_numbers 0x07FF eq_refl) as (_ & Hval & _).
  exact Hval.
Defined.

(** C1 as stated fails: the four reserved codes come out as the ordinary
    numbers 2046, -2046, 2047 and -2048. *)
Lemma C1_reserved_code_is_ordinary_number :
  reserved_sentinel 0x07FE = true /\
  BloodPressureMonitor.parse_sfloat 0x07FE = VInt (2046 * 10 ^ 0) /\
  BloodPressureMonitor.parse_sfloat 0x0802 = VInt (-2046 * 10 ^ 0) /\
  BloodPressureMonitor.parse_sfloat 0x07FF = VInt (2047 * 10 ^ 0) /\
  BloodPressureMonitor.parse_sfloat 0x0800 = VInt (-2048 * 10 ^ 0).
Proof. repeat split; reflexivity. Qed.

(** C3, as the code has it: [blood_pressure_monitor.py] decodes the raw
    16-bit values at the systolic, diastolic and mean-arterial positions, and
    the pulse rate when it is read, as SFLOATs: the low 12 bits are a
    two's-complement mantissa in [-2048, 2047], the high 4 bits a
    two's-complement exponent in [-8, 7], and the value is the exact integer
    mantissa * 10 ** exponent when the exponent is not negative and the
    binary-float product mantissa * (10 ** exponent) when it is. *)
Theorem C3_monitor_decodes_sfloat (data : list Byte.byte) :
  (7 <= length data)%nat ->
  exists m,
    BloodPressureMonitor.parse_blood_pressure_measurement data = Ret (Some m) /\
    m !! "systolic" =
      Some (sfloat_value (sfloat_mantissa (le16_at data 1))
                         (sfloat_exponent (le16_at data 1))) /\
    m !! "diastolic" =
      Some (sfloat_value (sfloat_mantissa (le16_at data 3))
                         (sfloat_exponent (le16_at data 3))) /\
    m !! "mean_arterial" =
      Some (sfloat_value (sfloat_mantissa (le16_at data 5))
                         (sfloat_exponent (le16_at data 5))) /\
    (forall v, m !! "pulse_rate" = Some v ->
       v = sfloat_value (sfloat_mantissa (le16_at data (offset_after_timestamp data)))
                        (sfloat_exponent (le16_at data (offset_after_timestamp data)))) /\
    (forall raw, -2048 <= sfloat_mantissa raw <= 2047 /\ -8 <= sfloat_exponent raw <= 7) /\
    (forall mant e, 0 <= e -> sfloat_value mant e = VInt (mant * 10 ^ e)) /\
    (forall mant e, e < 0 ->
       sfloat_value mant e =
       VFloat (PrimFloat.mul (float_of_Z mant)
                 (PrimFloat.div (float_of_Z 1) (float_of_Z (10 ^ (- e)))))).
Proof.
  intros Hlen. exists (BpmForm.form data).
  split; [apply bpm_parse_eq; assumption|].
  rewrite bpm_form_systolic, bpm_form_diastolic, bpm_form_mean_arterial,
    bpm_form_pulse_rate, !parse_sfloat_fields.
  repeat split; try reflexivity.
  - intros v. destruct (_ && _); [|discriminate].
    intros [= <-]. reflexivity.
  - apply sfloat_mantissa_range.
  - apply sfloat_mantissa_range.
  - apply sfloat_exponent_range.
  - apply sfloat_exponent_range.
  - intros mant e He. unfold sfloat_value.
    destruct (Z.leb_spec 0 e); [reflexivity | lia].
  - intros mant e He. unfold sfloat_value.
    destruct (Z.leb_spec 0 e); [lia | reflexivity].
Qed.

Lemma C3_monitor_decodes_sfloat_witness :
  exists m,
    BloodPressureMonitor.parse_blood_pressure_measurement sample_full = Ret (Some m) /\
    m !! "systolic" =
      Some (sfloat_value (sfloat_mantissa (le16_at sample_full 1))
                         (sfloat_exponent (le16_at sample_full 1))).
Proof.
  destruct (C3_monitor_decodes_sfloat sample_full) as (m & Hm & Hsys & _).
  - simpl. lia.
  - exists m. split; assumption.
Defined.

(** C3 as stated fails.  In [blood_pressure_monitor.py] the raw value 0xF003
    (mantissa 3, exponent -1) decodes to the float 3 * 0.1, which is not the
    decimal 0.3; in [qardio_arm2_app.py] the raw value 0x0078 (mantissa 120,
    exponent 0) of a kPa packet comes out as 120 / 1000.0, and the raw value
    0x0050 (mantissa 80) of a mmHg packet as 80 / 10.0. *)
Lemma C3_not_exact_decimal :
  sfloat_mantissa 0xF003 = 3 /\ sfloat_exponent 0xF003 = -1 /\
  (exists f, BloodPressureMonitor.parse_sfloat 0xF003 = VFloat f /\
             float_is_exactly f 3 1 = false) /\
  le16_at sample_kpa 1 = 0x0078 /\
  sfloat_value (sfloat_mantissa 0x0078) (sfloat_exponent 0x0078) = VInt 120 /\
  app_fields sample_plain ["diastolic"] = [Some (py_div_float 0x0050 (float_of_Z 10))] /\
  app_fields sample_kpa ["systolic"] = [Some (py_div_float 0x0078 (float_of_Z 1000))].
Proof.
  split; [reflexivity|]. split; [reflexivity|]. split.
  - eexists. split; [vm_compute; reflexivity | vm_compute; reflexivity].
  - repeat split; vm_compute; reflexivity.
Qed.

(* ===================================================================== *)
(** ** The decoder: length check and units *)
(* ===================================================================== *)

(** C4: on fewer than 7 bytes both decoders fail, [blood_pressure_monitor.py]
    with [None] and [qardio_arm2_app.py] with the empty dictionary, no
    measurement is built and none is added to the client's list; so whenever
    a measurement is returned the input had at least 7 bytes. *)
Theorem C4_short_input_is_rejected (now : datetime) (data : list Byte.byte) :
  ((length data < 7)%nat ->
     BloodPressureMonitor.parse_blood_pressure_measurement data = Ret None /\
     QardioArm2App.parse_blood_pressure_measurement now data = Ret ∅ /\
     forall log, QardioArm2App.blood_pressure_notification_handler now log data = Ret log) /\
  (forall m, BloodPressureMonitor.parse_blood_pressure_measurement data = Ret (Some m) ->
     (7 <= length data)%nat) /\
  (forall m, QardioArm2App.parse_blood_pressure_measurement now data = Ret m ->
     m ≠ ∅ -> (7 <= length data)%nat).
Proof.
  split; [|split].
  - intros Hlen. split; [apply bpm_short; assumption|].
    split; [apply app_short; assumption|].
    intros log. unfold QardioArm2App.blood_pressure_notification_handler.
    rewrite app_short by assumption. rewrite bind_Ret, map_size_empty. reflexivity.
  - intros m Hm. destruct (Nat.lt_ge_cases (length data) 7) as [Hlt|Hge]; [|assumption].
    rewrite bpm_short in Hm by assumption. discriminate.
  - intros m Hm Hne. destruct (Nat.lt_ge_cases (length data) 7) as [Hlt|Hge]; [|assumption].
    rewrite app_short in Hm by assumption. congruence.
Qed.

Lemma C4_short_input_is_rejected_witness :
  BloodPressureMonitor.parse_blood_pressure_measurement sample_short = Ret None /\
  QardioArm2App.parse_blood_pressure_measurement sample_now sample_short = Ret ∅ /\
  (7 <= length sample_plain)%nat.
Proof.
  destruct (C4_short_input_is_rejected sample_now sample_short) as (Hshort & _ & _).
  destruct (C4_short_input_is_rejected sample_now sample_plain) as (_ & Hbpm & _).
  destruct Hshort as (H1 & H2 & _); [simpl; lia|].
  split; [exact H1|]. split; [exact H2|].
  apply (Hbpm (BpmForm.form sample_plain)).
  apply bpm_parse_eq. simpl. lia.
Defined.

(** C6: on any input of at least 7 bytes, the unit of the decoded
    measurement is kPa exactly when bit 0 of the flags byte is 1 and mmHg
    exactly when it is 0, whatever the other bits of the flags byte are. *)
Theorem C6_unit_follows_flag_bit_0 (now : datetime) (data : list Byte.byte) :
  (7 <= length data)%nat ->
  exists m a,
    BloodPressureMonitor.parse_blood_pressure_measurement data = Ret (Some m) /\
    QardioArm2App.parse_blood_pressure_measurement now data = Ret a /\
    (m !! "units" = Some (VStr "kPa") <-> Z.testbit (byte_at data 0) 0 = true) /\
    (m !! "units" = Some (VStr "mmHg") <-> Z.testbit (byte_at data 0) 0 = false) /\
    (a !! "unit" = Some (VStr "kPa") <-> Z.testbit (byte_at data 0) 0 = true) /\
    (a !! "unit" = Some (VStr "mmHg") <-> Z.testbit (byte_at data 0) 0 = false).
Proof.
  intros Hlen. exists (BpmForm.form data), (AppForm.form now data).
  split; [apply bpm_parse_eq; assumption|].
  split; [apply app_parse_eq; assumption|].
  rewrite bpm_form_units, app_form_unit. unfold AppForm.unit_of, flag.
  destruct (Z.testbit (byte_at data 0) 0); repeat split; intros; congruence.
Qed.

Lemma C6_unit_follows_flag_bit_0_witness :
  exists m a,
    BloodPressureMonitor.parse_blood_pressure_measurement sample_kpa = Ret (Some m) /\
    QardioArm2App.parse_blood_pressure_measurement sample_now sample_kpa = Ret a /\
    m !! "units" = Some (VStr "kPa") /\ a !! "unit" = Some (VStr "kPa").
Proof.
  destruct (C6_unit_follows_flag_bit_0 sample_now sample_kpa)
    as (m & a & Hm & Ha & Hk & _ & Hk' & _).
  - simpl. lia.
  - exists m, a. split; [exact Hm|]. split; [exact Ha|].
    split; [apply Hk | apply Hk']; reflexivity.
Defined.

(* ===================================================================== *)
(** ** The decoder: optional fields *)
(* ===================================================================== *)

Lemma guard_false_of_short (b : bool) (need have : nat) :
  (have < need)%nat -> b && (need <=? have)%nat = false.
Proof.
  intros Hlt. replace (need <=? have)%nat with false; [apply andb_false_r|].
  symmetry. apply Nat.leb_gt. assumption.
Qed.

(** C2, as the code has it: on an input of at least 7 bytes, when a flag
    bit announces an optional field (timestamp, pulse rate, user id, status)
    and fewer bytes remain at the cursor than the field needs, both decoders
    still return a measurement, from which that field is left out; no error
    is reported.  The cursor moves on only past a field that was read ([o1],
    [o2], [o3] below are the cursor after the timestamp, pulse-rate and
    user-id blocks): a field left out leaves it where it was, and an
    announced field that fits there is read from there. *)
Theorem C2_truncated_field_is_left_out (now : datetime) (data : list Byte.byte) :
  (7 <= length data)%nat ->
  exists m a,
    BloodPressureMonitor.parse_blood_pressure_measurement data = Ret (Some m) /\
    QardioArm2App.parse_blood_pressure_measurement now data = Ret a /\
    a ≠ ∅ /\
    (flag data 1 = true -> (length data < 7 + 7)%nat ->
       m !! "timestamp" = None /\ a !! "device_timestamp" = None) /\
    (flag data 2 = true -> (length data < offset_after_timestamp data + 2)%nat ->
       m !! "pulse_rate" = None /\ a !! "pulse_rate" = None) /\
    (flag data 3 = true -> (length data < offset_after_pulse_rate data + 1)%nat ->
       a !! "user_id" = None) /\
    (flag data 4 = true -> (length data < offset_after_user_id data + 2)%nat ->
       a !! "status" = None) /\
    (let o1 := if flag data 1 && (7 + 7 <=? length data)%nat
               then (7 + 7)%nat else 7%nat in
     let o2 := if flag data 2 && (o1 + 2 <=? length data)%nat
               then (o1 + 2)%nat else o1 in
     let o3 := if flag data 3 && (o2 + 1 <=? length data)%nat
               then (o2 + 1)%nat else o2 in
     (flag data 2 = true -> (o1 + 2 <= length data)%nat ->
        m !! "pulse_rate" =
          Some (BloodPressureMonitor.parse_sfloat (le16_at data o1)) /\
        a !! "pulse_rate" = Some (py_div_float (le16_at data o1) (float_of_Z 10))) /\
     (flag data 3 = true -> (o2 + 1 <= length data)%nat ->
        a !! "user_id" = Some (VInt (byte_at data o2))) /\
     (flag data 4 = true -> (o3 + 2 <= length data)%nat ->
        a !! "status" = Some (VInt (le16_at data o3)))).
Proof.
  intros Hlen. exists (BpmForm.form data), (AppForm.form now data).
  split; [apply bpm_parse_eq; assumption|].
  split; [apply app_parse_eq; assumption|].
  split; [apply app_form_nonempty|].
  rewrite bpm_form_timestamp, bpm_form_pulse_rate, app_form_device_timestamp,
    app_form_pulse_rate, app_form_user_id, app_form_status.
  split; [|split; [|split; [|split]]];
    try (intros; rewrite guard_false_of_short by assumption; reflexivity).
  - intros; rewrite guard_false_of_short by assumption. split; reflexivity.
  - intros; rewrite guard_false_of_short by assumption. split; reflexivity.
  - cbv zeta.
    change (if flag data 1 && (7 + 7 <=? length data)%nat then (7 + 7)%nat else 7%nat)
      with (offset_after_timestamp data).
    change (if flag data 2 && (offset_after_timestamp data + 2 <=? length data)%nat
            then (offset_after_timestamp data + 2)%nat else offset_after_timestamp data)
      with (offset_after_pulse_rate data).
    change (if flag data 3 && (offset_after_pulse_rate data + 1 <=? length data)%nat
            then (offset_after_pulse_rate data + 1)%nat else offset_after_pulse_rate data)
      with (offset_after_user_id data).
    split; [|split]; intros Hflag Hfits; rewrite Hflag;
      apply Nat.leb_le in Hfits; rewrite Hfits; cbn [andb];
      first [reflexivity | split; reflexivity].
Qed.

Lemma C2_truncated_field_is_left_out_witness :
  (exists m a,
     BloodPressureMonitor.parse_blood_pressure_measurement sample_truncated = Ret (Some m) /\
     QardioArm2App.parse_blood_pressure_measurement sample_now sample_truncated = Ret a /\
     m !! "timestamp" = None /\ m !! "pulse_rate" = None /\
     a !! "device_timestamp" = None /\ a !! "pulse_rate" = None /\
     a !! "user_id" = None /\ a !! "status" = None) /\
  (exists m a,
     BloodPressureMonitor.parse_blood_pressure_measurement sample_cut_timestamp =
       Ret (Some m) /\
     QardioArm2App.parse_blood_pressure_measurement sample_now sample_cut_timestamp =
       Ret a /\
     m !! "timestamp" = None /\ a !! "device_timestamp" = None /\
     m !! "pulse_rate" =
       Some (BloodPressureMonitor.parse_sfloat (le16_at sample_cut_timestamp 7)) /\
     a !! "pulse_rate" =
       Some (py_div_float (le16_at sample_cut_timestamp 7) (float_of_Z 10))).
Proof.
  split.
  - destruct (C2_truncated_field_is_left_out sample_now sample_truncated)
      as (m & a & Hm & Ha & _ & Hts & Hpulse & Huser & Hstatus & _).
    + simpl. lia.
    + exists m, a. split; [exact Hm|]. split; [exact Ha|].
      destruct Hts as [H1 H2]; [reflexivity | simpl; lia |].
      destruct Hpulse as [H3 H4]; [reflexivity | vm_compute; lia |].
      split; [exact H1|]. split; [exact H3|]. split; [exact H2|]. split; [exact H4|].
      split; [apply Huser | apply Hstatus]; first [reflexivity | vm_compute; lia].
  - destruct (C2_truncated_field_is_left_out sample_now sample_cut_timestamp)
      as (m & a & Hm & Ha & _ & Hts & _ & _ & _ & Hcursor & _).
    + simpl. lia.
    + exists m, a. split; [exact Hm|]. split; [exact Ha|].
      destruct Hts as [H1 H2]; [reflexivity | simpl; lia |].
      destruct Hcursor as [H3 H4]; [reflexivity | vm_compute; lia |].
      split; [exact H1|]. split; [exact H2|]. split; [exact H3 | exact H4].
Defined.

(** C2 as stated fails: with flags 0x1E and no byte after the seventh, both
    decoders return a measurement that lacks every announced field.  With
    flags 0x06 and 13 bytes, the timestamp, short of one byte, is left out,
    and the pulse rate is read at offset 7, from the two bytes E8 07 that
    were sent as the year. *)
Lemma C2_no_truncation_error :
  flag sample_truncated 1 = true /\ flag sample_truncated 2 = true /\
  flag sample_truncated 3 = true /\ flag sample_truncated 4 = true /\
  length sample_truncated = 7%nat /\
  bpm_fields sample_truncated ["systolic"; "timestamp"; "pulse_rate"]
    = [Some (VInt 296); None; None] /\
  app_fields sample_truncated
    ["systolic"; "device_timestamp"; "pulse_rate"; "user_id"; "status"]
    = [Some (py_div_float 0x0128 (float_of_Z 10)); None; None; None; None] /\
  flag sample_cut_timestamp 1 = true /\ flag sample_cut_timestamp 2 = true /\
  length sample_cut_timestamp = 13%nat /\
  bpm_fields sample_cut_timestamp ["systolic"; "timestamp"; "pulse_rate"]
    = [Some (VInt 296); None; Some (VInt 2024)] /\
  app_fields sample_cut_timestamp ["systolic"; "device_timestamp"; "pulse_rate"]
    = [Some (py_div_float 0x0128 (float_of_Z 10)); None;
       Some (py_div_float 0x07E8 (float_of_Z 10))].
Proof. repeat split; vm_compute; reflexivity. Qed.

(** C7, as the code has it: when the timestamp flag is set, the 7 timestamp
    bytes are there and they hold calendar values that [datetime] rejects,
    neither decoder fails.  [qardio_arm2_app.py] returns the measurement
    without [device_timestamp]; [blood_pressure_monitor.py] returns it with
    the date text made of the raw values.  In both the cursor moves on by 7,
    so a pulse rate that follows is read at offset 14. *)
Theorem C7_invalid_timestamp_is_not_an_error (now : datetime) (data : list Byte.byte) :
  (14 <= length data)%nat ->
  flag data 1 = true ->
  ts_valid data 7 = false ->
  exists m a,
    BloodPressureMonitor.parse_blood_pressure_measurement data = Ret (Some m) /\
    QardioArm2App.parse_blood_pressure_measurement now data = Ret a /\
    a ≠ ∅ /\
    a !! "device_timestamp" = None /\
    m !! "timestamp" = Some (VStr (ts_text data 7)) /\
    (flag data 2 = true -> (16 <= length data)%nat ->
       a !! "pulse_rate" = Some (py_div_float (le16_at data 14) (float_of_Z 10)) /\
       m !! "pulse_rate" = Some (BloodPressureMonitor.parse_sfloat (le16_at data 14))).
Proof.
  intros Hlen Hflag Hbad. exists (BpmForm.form data), (AppForm.form now data).
  split; [apply bpm_parse_eq; lia|].
  split; [apply app_parse_eq; lia|].
  split; [apply app_form_nonempty|].
  rewrite bpm_form_timestamp, bpm_form_pulse_rate, app_form_device_timestamp,
    app_form_pulse_rate.
  unfold offset_after_timestamp. rewrite Hflag, Hbad.
  replace (14 <=? length data)%nat with true by (symmetry; apply Nat.leb_le; lia).
  cbn [andb]. split; [reflexivity|]. split; [reflexivity|].
  intros Hpulse Hlen16. rewrite Hpulse.
  replace (14 + 2 <=? length data)%nat with true
    by (symmetry; apply Nat.leb_le; lia).
  split; reflexivity.
Qed.

Lemma C7_invalid_timestamp_is_not_an_error_witness :
  exists m a,
    BloodPressureMonitor.parse_blood_pressure_measurement sample_bad_month = Ret (Some m) /\
    QardioArm2App.parse_blood_pressure_measurement sample_now sample_bad_month = Ret a /\
    a !! "device_timestamp" = None /\
    m !! "timestamp" = Some (VStr (ts_text sample_bad_month 7)).
Proof.
  destruct (C7_invalid_timestamp_is_not_an_error sample_now sample_bad_month)
    as (m & a & Hm & Ha & _ & Hdev & Hts & _).
  - simpl. lia.
  - reflexivity.
  - reflexivity.
  - exists m, a. repeat split; assumption.
Defined.

(** C7 as stated fails: with month 0 in the timestamp bytes, the app's
    decoder returns a measurement without [device_timestamp], and the
    monitor's decoder returns the text "2024-00-15 08:30:00". *)
Lemma C7_invalid_timestamp_accepted :
  flag sample_bad_month 1 = true /\
  ts_month sample_bad_month 7 = 0 /\
  ts_valid sample_bad_month 7 = false /\
  app_fields sample_bad_month ["diastolic"; "device_timestamp"; "pulse_rate"]
    = [Some (py_div_float 0x0050 (float_of_Z 10)); None;
       Some (py_div_float 0x0048 (float_of_Z 10))] /\
  bpm_fields sample_bad_month ["diastolic"; "timestamp"; "pulse_rate"]
    = [Some (VInt 80); Some (VStr "2024-00-15 08:30:00"); Some (VInt 72)].
Proof. repeat split; vm_compute; reflexivity. Qed.

(* ===================================================================== *)
(** ** The decoder: totality *)
(* ===================================================================== *)

Section Prefix.
Variable data : list Byte.byte.
Variable c : nat.

Lemma length_take_le : (c <= length data)%nat -> length (take c data) = c.
Proof. intros Hc. rewrite length_take. lia. Qed.

Lemma byte_at_take (i : nat) : (i < c)%nat -> byte_at (take c data) i = byte_at data i.
Proof. intros Hi. unfold byte_at. rewrite lookup_take_lt by assumption. reflexivity. Qed.

Lemma le16_at_take (i : nat) : (i + 2 <= c)%nat -> le16_at (take c data) i = le16_at data i.
Proof. intros Hi. unfold le16_at. rewrite !byte_at_take by lia. reflexivity. Qed.

Lemma flag_take (k : Z) : (0 < c)%nat -> flag (take c data) k = flag data k.
Proof. intros Hc. unfold flag. rewrite byte_at_take by assumption. reflexivity. Qed.

Lemma ts_text_take (off : nat) :
  (off + 7 <= c)%nat -> ts_text (take c data) off = ts_text data off.
Proof.
  intros Hoff. unfold ts_text, ts_year, ts_month, ts_day, ts_hour, ts_minute, ts_second.
  rewrite le16_at_take, !byte_at_take by lia. reflexivity.
Qed.

Lemma ts_valid_take (off : nat) :
  (off + 7 <= c)%nat -> ts_valid (take c data) off = ts_valid data off.
Proof.
  intros Hoff. unfold ts_valid, ts_year, ts_month, ts_day, ts_hour, ts_minute, ts_second.
  rewrite le16_at_take, !byte_at_take by lia. reflexivity.
Qed.

Lemma device_timestamp_take (off : nat) :
  (off + 7 <= c)%nat ->
  AppForm.device_timestamp (take c data) off = AppForm.device_timestamp data off.
Proof.
  intros Hoff.
  unfold AppForm.device_timestamp, ts_year, ts_month, ts_day, ts_hour, ts_minute,
    ts_second.
  rewrite le16_at_take, !byte_at_take by lia. reflexivity.
Qed.
End Prefix.

(** A length guard reads the same on a prefix that still holds the field. *)
Lemma guard_take (b : bool) (need c len : nat) :
  (c <= len)%nat ->
  (b && (need <=? len)%nat = true -> (need <= c)%nat) ->
  b && (need <=? c)%nat = b && (need <=? len)%nat.
Proof.
  intros Hc Hfit. destruct b; cbn [andb] in *; [|reflexivity].
  destruct (Nat.leb_spec need len) as [Hle|Hgt].
  - apply Nat.leb_le. auto.
  - apply Nat.leb_gt. lia.
Qed.

Lemma guard_true (b : bool) (need len : nat) :
  b && (need <=? len)%nat = true -> (need <= len)%nat.
Proof. intros [_ H%Nat.leb_le]%andb_true_iff. exact H. Qed.

Lemma offset_after_timestamp_bounds (data : list Byte.byte) :
  (7 <= length data)%nat ->
  (7 <= offset_after_timestamp data <= length data)%nat /\
  (flag data 1 && (14 <=? length data)%nat = true ->
     offset_after_timestamp data = 14%nat).
Proof.
  intros Hlen. unfold offset_after_timestamp.
  destruct (flag data 1 && (14 <=? length data)%nat) eqn:E.
  - apply guard_true in E. split; [lia | reflexivity].
  - split; [lia | discriminate].
Qed.

Lemma offset_after_timestamp_take (data : list Byte.byte) (c : nat) :
  (7 <= c <= length data)%nat ->
  (offset_after_timestamp data <= c)%nat ->
  offset_after_timestamp (take c data) = offset_after_timestamp data.
Proof.
  intros Hc Hoff. unfold offset_after_timestamp in *.
  rewrite length_take_le, flag_take by lia.
  rewrite (guard_take _ 14 c (length data)); [reflexivity | lia |].
  intros E. rewrite E in Hoff. exact Hoff.
Qed.

Lemma monitor_consumed_bounds (data : list Byte.byte) :
  (7 <= length data)%nat ->
  (offset_after_timestamp data <= monitor_consumed data <= length data)%nat /\
  (flag data 2 && (offset_after_timestamp data + 2 <=? length data)%nat = true ->
     (offset_after_timestamp data + 2 <= monitor_consumed data)%nat).
Proof.
  intros Hlen. pose proof (offset_after_timestamp_bounds data Hlen) as [Hoff _].
  unfold monitor_consumed. cbv zeta.
  destruct (flag data 2 && (offset_after_timestamp data + 2 <=? length data)%nat) eqn:E.
  - apply guard_true in E. split; [lia | intros _; lia].
  - split; [lia | discriminate].
Qed.

(** The monitor's decoder looks at no byte past the last field it reads. *)
Lemma bpm_form_prefix (data : list Byte.byte) :
  (7 <= length data)%nat ->
  (7 <= monitor_consumed data <= length data)%nat /\
  BpmForm.form (take (monitor_consumed data) data) = BpmForm.form data.
Proof.
  intros Hlen.
  pose proof (offset_after_timestamp_bounds data Hlen) as [Hoff Hts].
  pose proof (monitor_consumed_bounds data Hlen) as [Hc Hpulse].
  set (c := monitor_consumed data) in *.
  assert (Hle : (c <= length data)%nat) by lia.
  split; [lia|].
  unfold BpmForm.form, BpmForm.with_pulse_rate, BpmForm.with_timestamp, BpmForm.base.
  cbv zeta.
  rewrite offset_after_timestamp_take by lia.
  rewrite length_take_le, !flag_take by lia.
  rewrite (le16_at_take data c 1), (le16_at_take data c 3),
    (le16_at_take data c 5) by lia.
  rewrite (guard_take (flag data 1) 14 c (length data)) by (try intros ?%Hts; lia).
  rewrite (guard_take (flag data 2) _ c (length data)) by (try intros ?%Hpulse; lia).
  destruct (flag data 1 && (14 <=? length data)%nat) eqn:E1;
    destruct (flag data 2 && (offset_after_timestamp data + 2 <=? length data)%nat) eqn:E2;
    rewrite ?(ts_text_take data c 7) by (specialize (Hts eq_refl); lia);
    rewrite ?(le16_at_take data c (offset_after_timestamp data))
      by (specialize (Hpulse eq_refl); lia);
    reflexivity.
Qed.

Lemma offset_after_pulse_rate_bounds (data : list Byte.byte) :
  (7 <= length data)%nat ->
  (offset_after_timestamp data <= offset_after_pulse_rate data <= length data)%nat /\
  (flag data 2 && (offset_after_timestamp data + 2 <=? length data)%nat = true ->
     (offset_after_timestamp data + 2 <= offset_after_pulse_rate data)%nat).
Proof.
  intros Hlen. pose proof (offset_after_timestamp_bounds data Hlen) as [Hoff _].
  unfold offset_after_pulse_rate. cbv zeta.
  destruct (flag data 2 && (offset_after_timestamp data + 2 <=? length data)%nat) eqn:E.
  - apply guard_true in E. split; [lia | intros _; lia].
  - split; [lia | discriminate].
Qed.

Lemma offset_after_user_id_bounds (data : list Byte.byte) :
  (7 <= length data)%nat ->
  (offset_after_pulse_rate data <= offset_after_user_id data <= length data)%nat /\
  (flag data 3 && (offset_after_pulse_rate data + 1 <=? length data)%nat = true ->
     (offset_after_pulse_rate data + 1 <= offset_after_user_id data)%nat).
Proof.
  intros Hlen. pose proof (offset_after_pulse_rate_bounds data Hlen) as [Hoff _].
  unfold offset_after_user_id. cbv zeta.
  destruct (flag data 3 && (offset_after_pulse_rate data + 1 <=? length data)%nat) eqn:E.
  - apply guard_true in E. split; [lia | intros _; lia].
  - split; [lia | discriminate].
Qed.

Lemma offset_after_status_bounds (data : list Byte.byte) :
  (7 <= length data)%nat ->
  (offset_after_user_id data <= offset_after_status data <= length data)%nat /\
  (flag data 4 && (offset_after_user_id data + 2 <=? length data)%nat = true ->
     (offset_after_user_id data + 2 <= offset_after_status data)%nat).
Proof.
  intros Hlen. pose proof (offset_after_user_id_bounds data Hlen) as [Hoff _].
  unfold offset_after_status. cbv zeta.
  destruct (flag data 4 && (offset_after_user_id data + 2 <=? length data)%nat) eqn:E.
  - apply guard_true in E. split; [lia | intros _; lia].
  - split; [lia | discriminate].
Qed.

Lemma offset_after_pulse_rate_take (data : list Byte.byte) (c : nat) :
  (7 <= c <= length data)%nat ->
  (offset_after_pulse_rate data <= c)%nat ->
  offset_after_pulse_rate (take c data) = offset_after_pulse_rate data.
Proof.
  intros Hc Hoff.
  pose proof (offset_after_pulse_rate_bounds data ltac:(lia)) as [Hprev Hfit].
  unfold offset_after_pulse_rate in *. cbv zeta in *.
  rewrite offset_after_timestamp_take by lia.
  rewrite length_take_le, flag_take by lia.
  rewrite (guard_take (flag data 2) _ c (length data)); [reflexivity | lia |].
  intros E. specialize (Hfit E). lia.
Qed.

Lemma offset_after_user_id_take (data : list Byte.byte) (c : nat) :
  (7 <= c <= length data)%nat ->
  (offset_after_user_id data <= c)%nat ->
  offset_after_user_id (take c data) = offset_after_user_id data.
Proof.
  intros Hc Hoff.
  pose proof (offset_after_user_id_bounds data ltac:(lia)) as [Hprev Hfit].
  unfold offset_after_user_id in *. cbv zeta in *.
  rewrite offset_after_pulse_rate_take by lia.
  rewrite length_take_le, flag_take by lia.
  rewrite (guard_take (flag data 3) _ c (length data)); [reflexivity | lia |].
  intros E. specialize (Hfit E). lia.
Qed.

(** The app's decoder looks at no byte past the last field it reads. *)
Lemma app_form_prefix (now : datetime) (data : list Byte.byte) :
  (7 <= length data)%nat ->
  (7 <= offset_after_status data <= length data)%nat /\
  AppForm.form now (take (offset_after_status data) data) = AppForm.form now data.
Proof.
  intros Hlen.
  pose proof (offset_after_timestamp_bounds data Hlen) as [H1 Hts].
  pose proof (offset_after_pulse_rate_bounds data Hlen) as [H2 Hpulse].
  pose proof (offset_after_user_id_bounds data Hlen) as [H3 Huser].
  pose proof (offset_after_status_bounds data Hlen) as [H4 Hstatus].
  set (c := offset_after_status data) in *.
  assert (Hle : (c <= length data)%nat) by lia.
  split; [lia|].
  unfold AppForm.form, AppForm.with_status, AppForm.with_user_id,
    AppForm.with_pulse_rate, AppForm.with_timestamp, AppForm.base, AppForm.unit_of.
  cbv zeta.
  rewrite offset_after_user_id_take, offset_after_pulse_rate_take,
    offset_after_timestamp_take by lia.
  rewrite length_take_le, !flag_take by lia.
  rewrite (le16_at_take data c 1), (le16_at_take data c 3),
    (le16_at_take data c 5), (byte_at_take data c 0) by lia.
  rewrite (guard_take (flag data 1) 14 c (length data)) by (try intros ?%Hts; lia).
  rewrite (guard_take (flag data 2) _ c (length data)) by (try intros ?%Hpulse; lia).
  rewrite (guard_take (flag data 3) _ c (length data)) by (try intros ?%Huser; lia).
  rewrite (guard_take (flag data 4) _ c (length data)) by (try intros ?%Hstatus; lia).
  destruct (flag data 1 && (14 <=? length data)%nat) eqn:E1;
    destruct (flag data 2 && (offset_after_timestamp data + 2 <=? length data)%nat) eqn:E2;
    destruct (flag data 3 && (offset_after_pulse_rate data + 1 <=? length data)%nat) eqn:E3;
    destruct (flag data 4 && (offset_after_user_id data + 2 <=? length data)%nat) eqn:E4;
    rewrite ?(ts_valid_take data c 7) by (specialize (Hts eq_refl); lia);
    rewrite ?(device_timestamp_take data c 7) by (specialize (Hts eq_refl); lia);
    rewrite ?(le16_at_take data c (offset_after_timestamp data))
      by (specialize (Hpulse eq_refl); lia);
    rewrite ?(byte_at_take data c (offset_after_pulse_rate data))
      by (specialize (Huser eq_refl); lia);
    rewrite ?(le16_at_take data c (offset_after_user_id data))
      by (specialize (Hstatus eq_refl); lia);
    reflexivity.
Qed.

Lemma guarded_some_flag {A} (b c : bool) (o : option A) :
  is_Some (if b && c then o else None) -> b = true.
Proof. destruct b; [reflexivity|]. cbn [andb]. intros [x Hx]. discriminate. Qed.

(** C10: on every input of at least 7 bytes both decoders return without
    raising; the result holds the systolic, diastolic, mean-arterial and unit
    fields; an optional field is in the result only if its flag bit is set;
    and the bytes after the last field read play no part in the result. *)
Theorem C10_decoder_is_total (now : datetime) (data : list Byte.byte) :
  (7 <= length data)%nat ->
  exists m a,
    BloodPressureMonitor.parse_blood_pressure_measurement data = Ret (Some m) /\
    QardioArm2App.parse_blood_pressure_measurement now data = Ret a /\
    (is_Some (m !! "systolic") /\ is_Some (m !! "diastolic") /\
     is_Some (m !! "mean_arterial") /\ is_Some (m !! "units")) /\
    (is_Some (a !! "systolic") /\ is_Some (a !! "diastolic") /\
     is_Some (a !! "mean_arterial_pressure") /\ is_Some (a !! "unit")) /\
    (is_Some (m !! "timestamp") -> flag data 1 = true) /\
    (is_Some (m !! "pulse_rate") -> flag data 2 = true) /\
    (is_Some (a !! "device_timestamp") -> flag data 1 = true) /\
    (is_Some (a !! "pulse_rate") -> flag data 2 = true) /\
    (is_Some (a !! "user_id") -> flag data 3 = true) /\
    (is_Some (a !! "status") -> flag data 4 = true) /\
    BloodPressureMonitor.parse_blood_pressure_measurement
      (take (monitor_consumed data) data) = Ret (Some m) /\
    QardioArm2App.parse_blood_pressure_measurement now
      (take (offset_after_status data) data) = Ret a.
Proof.
  intros Hlen. exists (BpmForm.form data), (AppForm.form now data).
  destruct (bpm_form_prefix data Hlen) as [Hbc Hbpm].
  destruct (app_form_prefix now data Hlen) as [Hac Happ].
  split; [apply bpm_parse_eq; assumption|].
  split; [apply app_parse_eq; assumption|].
  rewrite bpm_form_systolic, bpm_form_diastolic, bpm_form_mean_arterial, bpm_form_units,
    bpm_form_timestamp, bpm_form_pulse_rate.
  rewrite app_form_systolic, app_form_diastolic, app_form_mean_arterial_pressure,
    app_form_unit, app_form_device_timestamp, app_form_pulse_rate, app_form_user_id,
    app_form_status.
  split; [repeat split; eexists; reflexivity|].
  split; [repeat split; eexists; reflexivity|].
  split; [apply guarded_some_flag|].
  split; [apply guarded_some_flag|].
  split; [apply guarded_some_flag|].
  split; [apply guarded_some_flag|].
  split; [apply guarded_some_flag|].
  split; [apply guarded_some_flag|].
  split.
  - rewrite bpm_parse_eq by (rewrite length_take_le; lia). rewrite Hbpm. reflexivity.
  - rewrite app_parse_eq by (rewrite length_take_le; lia). rewrite Happ. reflexivity.
Qed.

Lemma C10_decoder_is_total_witness :
  exists m a,
    BloodPressureMonitor.parse_blood_pressure_measurement sample_full = Ret (Some m) /\
    QardioArm2App.parse_blood_pressure_measurement sample_now sample_full = Ret a /\
    is_Some (m !! "systolic") /\ is_Some (a !! "unit").
Proof.
  destruct (C10_decoder_is_total sample_now sample_full)
    as (m & a & Hm & Ha & (Hsys & _) & (_ & _ & _ & Hunit) & _).
  - simpl. lia.
  - exists m, a. repeat split; assumption.
Defined.

(* ===================================================================== *)
(** ** Traces of the session code *)
(* ===================================================================== *)

Lemma io_bind_eq {A B} (m : io A) (k : A -> io B) (t : list event) :
  (m ≫= k) t =
  match m t with
  | (Ret a, t') => k a t'
  | (Raise e, t') => (Raise e, t')
  end.
Proof. reflexivity. Qed.

Lemma io_ret_eq {A} (a : A) (t : list event) : (mret a : io A) t = (Ret a, t).
Proof. reflexivity. Qed.

Lemma task_bind_eq {A B} (m : task A) (k : A -> task B) (t : list event) :
  (m ≫= k) t =
  match m t with
  | (Returned a, t') => k a t'
  | (Raised e, t') => (Raised e, t')
  | (CancelledError, t') => (CancelledError, t')
  end.
Proof. reflexivity. Qed.

Lemma task_ret_eq {A} (a : A) (t : list event) : (mret a : task A) t = (Returned a, t).
Proof. reflexivity. Qed.

Lemma await_eq {A} (m : io A) (t : list event) :
  await m t =
  match m t with
  | (Ret a, t') => (Returned a, t')
  | (Raise e, t') => (Raised e, t')
  end.
Proof. reflexivity. Qed.

(** A call without a result is accepted when it answers [Ret tt]. *)
Lemma accepted_unit (answer : py unit) : accepted answer = true <-> answer = Ret tt.
Proof.
  destruct answer as [[]|e]; cbn [accepted]; split; intros H;
    first [reflexivity | discriminate].
Qed.

Lemma for_each_cons {A R} (x : A) (xs : list A) (body : A -> io (option R))
    (orelse : io R) (t : list event) :
  for_each (x :: xs) body orelse t =
  match body x t with
  | (Ret (Some v), t') => (Ret v, t')
  | (Ret None, t') => for_each xs body orelse t'
  | (Raise e, t') => (Raise e, t')
  end.
Proof.
  cbn [for_each]. rewrite io_bind_eq.
  destruct (body x t) as [[[v|]|e] t']; reflexivity.
Qed.

Section Emits.
Context (P : event -> Prop).

Lemma emits_ret {A} (a : A) : emits P (mret a : io A).
Proof. intros t. exists []. rewrite app_nil_r. split; [reflexivity | constructor]. Qed.

Lemma emits_raise {A} (e : exn) : emits P (io_raise e : io A).
Proof. intros t. exists []. rewrite app_nil_r. split; [reflexivity | constructor]. Qed.

Lemma emits_call {A} (answer : list event -> py A) (ev : event) :
  P ev -> emits P (call answer ev).
Proof. intros Hev t. exists [ev]. split; [reflexivity | repeat constructor; assumption]. Qed.

Lemma emits_bind {A B} (m : io A) (k : A -> io B) :
  emits P m -> (forall a, emits P (k a)) -> emits P (m ≫= k).
Proof.
  intros Hm Hk t. rewrite io_bind_eq.
  destruct (Hm t) as (t1 & Ht1 & HP1).
  destruct (m t) as [[a|e] t'] eqn:Em; cbn [snd] in Ht1; subst t'.
  - destruct (Hk a (t ++ t1)) as (t2 & Ht2 & HP2).
    exists (t1 ++ t2). rewrite Ht2, app_assoc. split; [reflexivity|].
    apply Forall_app; split; assumption.
  - exists t1. split; [reflexivity | assumption].
Qed.

Lemma emits_try {A} (body : io A) (handler : exn -> io A) :
  emits P body -> (forall e, emits P (handler e)) -> emits P (io_try body handler).
Proof.
  intros Hm Hk t. unfold io_try.
  destruct (Hm t) as (t1 & Ht1 & HP1).
  destruct (body t) as [[a|e] t'] eqn:Em; cbn [snd] in Ht1; subst t'.
  - exists t1. split; [reflexivity | assumption].
  - destruct (Hk e (t ++ t1)) as (t2 & Ht2 & HP2).
    exists (t1 ++ t2). rewrite Ht2, app_assoc. split; [reflexivity|].
    apply Forall_app; split; assumption.
Qed.

Lemma emits_for_each {A R} (xs : list A) (body : A -> io (option R)) (orelse : io R) :
  (forall x, emits P (body x)) -> emits P orelse -> emits P (for_each xs body orelse).
Proof.
  intros Hbody Horelse. induction xs as [|x xs IH]; [exact Horelse|].
  cbn [for_each]. apply emits_bind; [apply Hbody|].
  intros [v|]; [apply emits_ret | exact IH].
Qed.
End Emits.

(* ===================================================================== *)
(** ** Bounded retry loops *)
(* ===================================================================== *)

Lemma rounds_S (ev : event) (delay : Z) (k : nat) :
  rounds ev delay (S k) = [ev; EvSleep delay] ++ rounds ev delay k.
Proof. reflexivity. Qed.

Section RetryLoop.
Context {R : Type}.
Variable body : nat -> io (option R).
Variable bound : nat.
Variable ev : event.
Variable delay : Z.
(** What an attempt made after the calls [t] achieves. *)
Variable outcome : list event -> option R.
Variable orelse : R.

Hypothesis body_step : forall attempt t,
  body attempt t =
  match outcome t with
  | Some r => (Ret (Some r), t ++ [ev])
  | None =>
      (Ret None, t ++ ev :: (if (attempt <? bound)%nat then [EvSleep delay] else []))
  end.

(** If no attempt succeeds the loop makes every attempt and falls through. *)
Lemma retry_all_fail (n a : nat) (t : list event) :
  (forall h, outcome h = None) ->
  for_each (seq a n) body (mret orelse) t =
  (Ret orelse, t ++ failed_attempts ev delay bound (seq a n)).
Proof.
  intros Hnone. revert a t. induction n as [|n IH]; intros a t.
  - cbn. rewrite app_nil_r. reflexivity.
  - cbn [seq]. rewrite for_each_cons, body_step, Hnone, IH.
    unfold failed_attempts. cbn [flat_map]. rewrite <- app_assoc. reflexivity.
Qed.

(** If attempt number [k] (counting from 0) is the first to succeed, the loop
    returns its result right after that attempt's call. *)
Lemma retry_first_success (k n a : nat) (t : list event) (r : R) :
  (k < n)%nat -> (a + k <= bound)%nat ->
  (forall j, (j < k)%nat -> outcome (t ++ rounds ev delay j) = None) ->
  outcome (t ++ rounds ev delay k) = Some r ->
  for_each (seq a n) body (mret orelse) t =
  (Ret r, t ++ rounds ev delay k ++ [ev]).
Proof.
  revert n a t. induction k as [|k IH]; intros n a t Hk Hbound Hfail Hok.
  - destruct n as [|n]; [lia|]. cbn [seq].
    rewrite for_each_cons, body_step.
    change (rounds ev delay 0) with (@nil event) in *.
    rewrite app_nil_r in Hok. rewrite Hok. reflexivity.
  - destruct n as [|n]; [lia|]. cbn [seq].
    rewrite for_each_cons, body_step.
    pose proof (Hfail 0%nat ltac:(lia)) as H0.
    change (rounds ev delay 0) with (@nil event) in H0.
    rewrite app_nil_r in H0. rewrite H0.
    replace (a <? bound)%nat with true by (symmetry; apply Nat.ltb_lt; lia).
    rewrite (IH n (S a) (t ++ [ev; EvSleep delay])); try lia.
    + rewrite rounds_S, <- !app_assoc. reflexivity.
    + intros j Hj. specialize (Hfail (S j) ltac:(lia)).
      rewrite rounds_S, app_assoc in Hfail. exact Hfail.
    + rewrite rounds_S, app_assoc in Hok. exact Hok.
Qed.
End RetryLoop.


(* ===================================================================== *)
(** ** Discovery *)
(* ===================================================================== *)

Lemma sleep_before_retry_bpm (attempt bound : nat) (t : list event) :
  BloodPressureMonitor.sleep_before_retry attempt bound t =
  (Ret tt, t ++ (if (attempt <? bound)%nat
                 then [EvSleep BloodPressureMonitor.RETRY_DELAY] else [])).
Proof.
  unfold BloodPressureMonitor.sleep_before_retry.
  destruct (attempt <? bound)%nat; [reflexivity|].
  rewrite app_nil_r. reflexivity.
Qed.

Lemma sleep_before_retry_attempt1 (attempt bound : nat) (t : list event) :
  Attempt1.sleep_before_retry attempt bound t =
  (Ret tt, t ++ (if (attempt <? bound)%nat then [EvSleep Attempt1.RETRY_DELAY] else [])).
Proof.
  unfold Attempt1.sleep_before_retry.
  destruct (attempt <? bound)%nat; [reflexivity|].
  rewrite app_nil_r. reflexivity.
Qed.

Lemma bpm_discover_attempt_step (env : ble_stack) (attempt : nat) (t : list event) :
  BloodPressureMonitor.discover_attempt env attempt t =
  match option_map Some (scan_match env BloodPressureMonitor.DEVICE_NAME t) with
  | Some r => (Ret (Some r), t ++ [EvDiscover])
  | None =>
      (Ret None,
       t ++ EvDiscover ::
         (if (attempt <? BloodPressureMonitor.MAX_DISCOVERY_RETRIES)%nat
          then [EvSleep BloodPressureMonitor.RETRY_DELAY] else []))
  end.
Proof.
  unfold BloodPressureMonitor.discover_attempt, io_try, scan_match.
  rewrite io_bind_eq. unfold BleakScanner_discover, call.
  destruct (ble_scan env t) as [devices|e].
  - destruct (find_by_name _ devices) as [d|]; cbn [option_map]; [reflexivity|].
    rewrite io_bind_eq, sleep_before_retry_bpm, io_ret_eq, <- app_assoc. reflexivity.
  - cbn [option_map].
    rewrite io_bind_eq, sleep_before_retry_bpm, io_ret_eq, <- app_assoc. reflexivity.
Qed.

Lemma attempt1_discover_attempt_step (env : ble_stack) (attempt : nat) (t : list event) :
  Attempt1.discover_attempt env attempt t =
  match option_map (fun d => Some (dev_address d))
          (scan_match env Attempt1.DEVICE_NAME t) with
  | Some r => (Ret (Some r), t ++ [EvDiscover])
  | None =>
      (Ret None,
       t ++ EvDiscover ::
         (if (attempt <? Attempt1.MAX_DISCOVERY_RETRIES)%nat
          then [EvSleep Attempt1.RETRY_DELAY] else []))
  end.
Proof.
  unfold Attempt1.discover_attempt, io_try, scan_match.
  rewrite io_bind_eq. unfold BleakScanner_discover, call.
  destruct (ble_scan env t) as [devices|e].
  - destruct (find_by_name _ devices) as [d|]; cbn [option_map]; [reflexivity|].
    rewrite io_bind_eq, sleep_before_retry_attempt1, io_ret_eq, <- app_assoc. reflexivity.
  - cbn [option_map].
    rewrite io_bind_eq, sleep_before_retry_attempt1, io_ret_eq, <- app_assoc. reflexivity.
Qed.



(* ===================================================================== *)
(** ** Connection *)
(* ===================================================================== *)

Lemma bpm_connect_attempt_step (env : ble_stack) (dev : device) (attempt : nat)
    (t : list event) :
  BloodPressureMonitor.connect_attempt env dev attempt t =
  match bpm_connect_outcome env (dev_address dev) t with
  | Some r => (Ret (Some r), t ++ [EvConnect (dev_address dev)])
  | None =>
      (Ret None,
       t ++ EvConnect (dev_address dev) ::
         (if (attempt <? BloodPressureMonitor.MAX_CONNECTION_RETRIES)%nat
          then [EvSleep BloodPressureMonitor.RETRY_DELAY] else []))
  end.
Proof.
  unfold BloodPressureMonitor.connect_attempt, io_try, bpm_connect_outcome.
  cbv zeta. rewrite io_bind_eq. unfold client_connect, call. cbn [client_address].
  destruct (ble_connect env t (dev_address dev)) as [[]|e].
  - reflexivity.
  - rewrite io_bind_eq, sleep_before_retry_bpm, io_ret_eq, <- app_assoc. reflexivity.
Qed.

Lemma attempt1_connect_attempt_step (env : ble_stack) (address : string) (attempt : nat)
    (t : list event) :
  Attempt1.connect_attempt env address attempt t =
  match attempt1_connect_outcome env address t with
  | Some r => (Ret (Some r), t ++ [EvConnect address])
  | None =>
      (Ret None,
       t ++ EvConnect address ::
         (if (attempt <? Attempt1.MAX_CONNECTION_RETRIES)%nat
          then [EvSleep Attempt1.RETRY_DELAY] else []))
  end.
Proof.
  unfold Attempt1.connect_attempt, Attempt1.connect_once, io_try,
    attempt1_connect_outcome, reports_already_connected.
  cbv zeta. rewrite io_bind_eq. unfold client_connect, call. cbn [client_address].
  destruct (ble_connect env t address) as [[]|e]; [reflexivity|].
  destruct e as [| | |msg|msg|]; cbn [exn_str io_raise];
    try (rewrite io_bind_eq, sleep_before_retry_attempt1, io_ret_eq, <- app_assoc;
         reflexivity).
  destruct (str_contains "already connected" (str_lower msg)); [reflexivity|].
  cbn [io_raise].
  rewrite io_bind_eq, sleep_before_retry_attempt1, io_ret_eq, <- app_assoc. reflexivity.
Qed.

(** [attempt1.py] connects as the specification asks: an "already
    connected" error on the first attempt is a success; when every attempt
    fails otherwise, [MAX_CONNECTION_RETRIES] attempts are made and [None] is
    returned; a later success ends the loop. *)
Lemma attempt1_connect_to_device_spec (env : ble_stack) (address : string) :
  (forall e, ble_connect env [] address = Raise e ->
     reports_already_connected e = true ->
     Attempt1.connect_to_device env address [] =
       (Ret (Some (MkClient address)), [EvConnect address])) /\
  ((forall h, attempt1_connect_outcome env address h = None) ->
     Attempt1.connect_to_device env address [] =
       (Ret None, [EvConnect address; EvSleep 0; EvConnect address; EvSleep 0;
                   EvConnect address])) /\
  (forall k,
     (k < Attempt1.MAX_CONNECTION_RETRIES)%nat ->
     (forall j, (j < k)%nat ->
        attempt1_connect_outcome env address
          (rounds (EvConnect address) Attempt1.RETRY_DELAY j) = None) ->
     attempt1_connect_outcome env address
       (rounds (EvConnect address) Attempt1.RETRY_DELAY k) = Some (Some (MkClient address)) ->
     Attempt1.connect_to_device env address [] =
       (Ret (Some (MkClient address)),
        rounds (EvConnect address) Attempt1.RETRY_DELAY k ++ [EvConnect address])).
Proof.
  split; [|split].
  - intros e He Hrep. unfold Attempt1.connect_to_device.
    rewrite (retry_first_success _ _ _ _ _ None
               (attempt1_connect_attempt_step env address) 0 _ _ _
               (Some (MkClient address))); [reflexivity | | | |].
    + unfold Attempt1.MAX_CONNECTION_RETRIES. lia.
    + unfold Attempt1.MAX_CONNECTION_RETRIES. lia.
    + intros j Hj. lia.
    + cbn [app rounds replicate concat]. unfold attempt1_connect_outcome.
      rewrite He, Hrep. reflexivity.
  - intros Hnone. unfold Attempt1.connect_to_device.
    rewrite (retry_all_fail _ _ _ _ _ None
               (attempt1_connect_attempt_step env address)) by assumption.
    reflexivity.
  - intros k Hk Hfail Hok. unfold Attempt1.connect_to_device.
    rewrite (retry_first_success _ _ _ _ _ None
               (attempt1_connect_attempt_step env address) k _ _ _
               (Some (MkClient address))); [reflexivity | lia | lia | |].
    + intros j Hj. cbn [app]. auto.
    + cbn [app]. assumption.
Qed.

(** [blood_pressure_monitor.py] retries every connect error alike. *)
Lemma bpm_connect_to_device_all_fail (env : ble_stack) (dev : device) (t : list event) :
  (forall h, exists e, ble_connect env h (dev_address dev) = Raise e) ->
  BloodPressureMonitor.connect_to_device env dev t =
  (Ret None,
   t ++ [EvConnect (dev_address dev); EvSleep 1; EvConnect (dev_address dev); EvSleep 1;
         EvConnect (dev_address dev)]).
Proof.
  intros Hfail. unfold BloodPressureMonitor.connect_to_device.
  rewrite (retry_all_fail _ _ _ _ _ None (bpm_connect_attempt_step env dev)).
  - reflexivity.
  - intros h. unfold bpm_connect_outcome. destruct (Hfail h) as [e ->]. reflexivity.
Qed.

(** C8 at the failing input: every connect attempt on [qardio] is refused
    with "Device Already Connected".  [attempt1.py] takes the first refusal
    as a connection; [blood_pressure_monitor.py] retries it like any other
    error and gives up after [MAX_CONNECTION_RETRIES] attempts. *)
Theorem C8_monitor_gives_up_when_already_connected :
  reports_already_connected (BleakError "Device Already Connected") = true /\
  Attempt1.connect_to_device busy_stack (dev_address qardio) [] =
    (Ret (Some (MkClient (dev_address qardio))), [EvConnect (dev_address qardio)]) /\
  BloodPressureMonitor.connect_to_device busy_stack qardio [] =
    (Ret None,
     [EvConnect (dev_address qardio); EvSleep 1;
      EvConnect (dev_address qardio); EvSleep 1;
      EvConnect (dev_address qardio)]) /\
  calls is_connect (snd (BloodPressureMonitor.connect_to_device busy_stack qardio [])) =
    BloodPressureMonitor.MAX_CONNECTION_RETRIES.
Proof.
  split; [reflexivity|]. split.
  - destruct (attempt1_connect_to_device_spec busy_stack (dev_address qardio))
      as (Halready & _ & _).
    apply (Halready (BleakError "Device Already Connected")); reflexivity.
  - rewrite bpm_connect_to_device_all_fail.
    + split; reflexivity.
    + intros h. eexists. reflexivity.
Qed.

(* ===================================================================== *)
(** ** The session of blood_pressure_monitor.py *)
(* ===================================================================== *)

Section MonitorSession.
Import BloodPressureMonitor.
Variable env : ble_stack.

Lemma sleep_before_retry_no_write (attempt bound : nat) :
  emits no_write (sleep_before_retry attempt bound).
Proof.
  unfold sleep_before_retry. destruct (attempt <? bound)%nat.
  - apply emits_call. reflexivity.
  - apply emits_ret.
Qed.

Lemma discover_device_no_write : emits no_write (discover_device env).
Proof.
  apply emits_for_each; [|apply emits_ret].
  intros attempt. apply emits_try.
  - apply emits_bind; [apply emits_call; reflexivity|].
    intros devices. destruct (find_by_name DEVICE_NAME devices); [apply emits_ret|].
    apply emits_bind; [apply sleep_before_retry_no_write | intros; apply emits_ret].
  - intros e. apply emits_bind; [apply sleep_before_retry_no_write | intros; apply emits_ret].
Qed.

Lemma connect_to_device_no_write (dev : device) :
  emits no_write (connect_to_device env dev).
Proof.
  apply emits_for_each; [|apply emits_ret].
  intros attempt. apply emits_try.
  - cbv zeta. apply emits_bind; [apply emits_call; reflexivity | intros; apply emits_ret].
  - intros e. apply emits_bind; [apply sleep_before_retry_no_write | intros; apply emits_ret].
Qed.

Lemma cleanup_no_write (c : client) : emits no_write (cleanup env c).
Proof.
  apply emits_try; [|intros; apply emits_ret].
  apply emits_bind; [apply emits_call; reflexivity|].
  intros _. apply emits_call. reflexivity.
Qed.

Lemma read_blood_pressure_feature_eq (c : client) (t : list event) :
  exists r, read_blood_pressure_feature env c t = (Ret r, t ++ [EvReadChar BP_FEATURE_CHAR_UUID]).
Proof.
  unfold read_blood_pressure_feature, io_try. rewrite io_bind_eq.
  unfold client_read_gatt_char, call.
  destruct (ble_read env t BP_FEATURE_CHAR_UUID) as [bytes|e]; eexists; reflexivity.
Qed.

Lemma activate_measurement_eq (c : client) (t : list event) :
  activate_measurement env c t =
  (Ret (accepted (ble_write env t ACTIVATION_CHAR_UUID ACTIVATION_DATA true)),
   t ++ [EvWriteChar ACTIVATION_CHAR_UUID ACTIVATION_DATA true]).
Proof.
  unfold activate_measurement, io_try. rewrite io_bind_eq.
  unfold client_write_gatt_char, call.
  destruct (ble_write env t ACTIVATION_CHAR_UUID ACTIVATION_DATA true) as [[]|e];
    reflexivity.
Qed.

(** The waiting loop never returns: it is left by [CancelledError], during
    the sleep that follows the completed ones. *)
Lemma wait_for_measurements_eq (n : nat) (t : list event) :
  wait_for_measurements n t =
  (CancelledError, t ++ replicate n (EvSleep 1) ++ [EvSleep 1]).
Proof.
  revert t. induction n as [|n IH]; intros t.
  - reflexivity.
  - cbn [wait_for_measurements replicate]. rewrite task_bind_eq, await_eq.
    unfold asyncio_sleep at 1, call. rewrite IH, <- app_assoc. reflexivity.
Qed.

Lemma cleanup_eq (c : client) (t : list event) :
  cleanup env c t = (Ret tt, t ++ cleanup_calls env t).
Proof.
  unfold cleanup, io_try, cleanup_calls. rewrite io_bind_eq.
  unfold client_stop_notify, client_disconnect, call.
  destruct (ble_stop_notify env t BP_MEASUREMENT_CHAR_UUID) as [[]|e]; cbn [accepted].
  - destruct (ble_disconnect env _ _) as [[]|e]; rewrite <- ?app_assoc; reflexivity.
  - reflexivity.
Qed.

(** The monitoring block, call by call: it is cancelled when the waiting
    loop was entered and returns otherwise. *)
Lemma monitor_eq (c : client) (t : list event) :
  monitor env c t =
  (if accepted (ble_start_notify env (t ++ [EvReadChar BP_FEATURE_CHAR_UUID])
                  BP_MEASUREMENT_CHAR_UUID)
      && accepted (ble_write env
                     (t ++ [EvReadChar BP_FEATURE_CHAR_UUID;
                            EvStartNotify BP_MEASUREMENT_CHAR_UUID])
                     ACTIVATION_CHAR_UUID ACTIVATION_DATA true)
   then CancelledError else Returned tt,
   t ++ EvReadChar BP_FEATURE_CHAR_UUID :: EvStartNotify BP_MEASUREMENT_CHAR_UUID ::
     (if accepted (ble_start_notify env (t ++ [EvReadChar BP_FEATURE_CHAR_UUID])
                     BP_MEASUREMENT_CHAR_UUID)
      then
        EvWriteChar ACTIVATION_CHAR_UUID ACTIVATION_DATA true ::
        (if accepted (ble_write env
                        (t ++ [EvReadChar BP_FEATURE_CHAR_UUID;
                               EvStartNotify BP_MEASUREMENT_CHAR_UUID])
                        ACTIVATION_CHAR_UUID ACTIVATION_DATA true)
         then replicate (ble_interrupt_after env) (EvSleep 1) ++ [EvSleep 1] else [])
      else [])).
Proof.
  unfold monitor, task_try. rewrite task_bind_eq, await_eq.
  destruct (read_blood_pressure_feature_eq c t) as [r ->].
  rewrite task_bind_eq, await_eq. unfold client_start_notify, call.
  destruct (ble_start_notify env (t ++ [EvReadChar BP_FEATURE_CHAR_UUID])
              BP_MEASUREMENT_CHAR_UUID) as [[]|e]; cbn [accepted andb].
  - rewrite task_bind_eq, await_eq, activate_measurement_eq.
    rewrite <- !app_assoc. cbn [app].
    destruct (ble_write env _ ACTIVATION_CHAR_UUID ACTIVATION_DATA true) as [[]|e];
      cbn [accepted negb].
    + rewrite wait_for_measurements_eq, <- ?app_assoc. reflexivity.
    + rewrite task_ret_eq, <- ?app_assoc. reflexivity.
  - rewrite <- ?app_assoc. reflexivity.
Qed.

(** The monitoring block reads the feature, subscribes, and goes on only if
    the subscription was accepted. *)
Lemma monitor_shape (c : client) (t : list event) :
  exists post,
    snd (monitor env c t) =
      (t ++ [EvReadChar BP_FEATURE_CHAR_UUID])
      ++ EvStartNotify BP_MEASUREMENT_CHAR_UUID :: post /\
    (ble_start_notify env (t ++ [EvReadChar BP_FEATURE_CHAR_UUID])
       BP_MEASUREMENT_CHAR_UUID = Ret tt \/ post = []).
Proof.
  rewrite monitor_eq. cbn [snd].
  destruct (ble_start_notify env (t ++ [EvReadChar BP_FEATURE_CHAR_UUID])
              BP_MEASUREMENT_CHAR_UUID) as [[]|e]; cbn [accepted].
  - eexists. split; [|left; reflexivity]. rewrite <- app_assoc. reflexivity.
  - exists []. split; [|right; reflexivity]. rewrite <- app_assoc. reflexivity.
Qed.

(** Shape of every trace of [main]: either no characteristic is written, or
    the trace has a subscription to the measurement characteristic with no
    write before it, and a write can only follow if that subscription was
    accepted. *)
Lemma main_shape :
  Forall no_write (snd (main env [])) \/
  exists pre post,
    snd (main env []) = pre ++ EvStartNotify BP_MEASUREMENT_CHAR_UUID :: post /\
    Forall no_write pre /\
    (ble_start_notify env pre BP_MEASUREMENT_CHAR_UUID = Ret tt \/ Forall no_write post).
Proof.
  unfold main. rewrite task_bind_eq, await_eq.
  destruct (discover_device_no_write []) as (td & Htd & Hqd).
  destruct (discover_device env []) as [[[dev|]|e] t1]; cbn [snd app] in Htd; subst t1;
    [| left; exact Hqd | left; exact Hqd].
  rewrite task_bind_eq, await_eq.
  destruct (connect_to_device_no_write dev td) as (tc & Htc & Hqc).
  destruct (connect_to_device env dev td) as [[[c|]|e] t2]; cbn [snd] in Htc; subst t2;
    [| left; apply Forall_app; split; assumption
     | left; apply Forall_app; split; assumption].
  right. unfold task_finally.
  destruct (monitor_shape c (td ++ tc)) as (post & Hpost & Hsub).
  destruct (monitor env c (td ++ tc)) as [r t3]. cbn [snd] in Hpost. subst t3.
  rewrite await_eq, cleanup_eq. cbn [snd].
  destruct (cleanup_no_write c
              (((td ++ tc) ++ [EvReadChar BP_FEATURE_CHAR_UUID])
               ++ EvStartNotify BP_MEASUREMENT_CHAR_UUID :: post)) as (tz & Htz & Hqz).
  rewrite cleanup_eq in Htz. cbn [snd] in Htz. apply app_inv_head in Htz.
  exists ((td ++ tc) ++ [EvReadChar BP_FEATURE_CHAR_UUID]), (post ++ tz).
  split; [|split].
  - rewrite Htz, <- !app_assoc. reflexivity.
  - repeat (apply Forall_app; split); try assumption. repeat constructor.
  - destruct Hsub as [Hok| ->]; [left; exact Hok | right; exact Hqz].
Qed.
End MonitorSession.

Lemma no_write_lookup (t : list event) (i : nat) (uuid : string)
    (data : list Byte.byte) (response : bool) :
  Forall no_write t -> t !! i = Some (EvWriteChar uuid data response) -> False.
Proof.
  intros Hall Hi. pose proof (Forall_lookup_1 _ _ _ _ Hall Hi) as Hno.
  unfold no_write in Hno. discriminate.
Qed.

Lemma calls_no_write (t : list event) : Forall no_write t -> calls is_write t = 0%nat.
Proof.
  unfold calls. induction 1 as [|ev t Hev _ IH]; [reflexivity|].
  cbn [List.filter]. unfold no_write in Hev. rewrite Hev. exact IH.
Qed.

(** C9: in every run of [main], a write to a characteristic, and so the
    activation write, comes after the call that subscribes to the
    blood-pressure-measurement notifications, that call was accepted, and no
    write was made before it. *)
Theorem C9_subscription_precedes_activation (env : ble_stack) (i : nat)
    (uuid : string) (data : list Byte.byte) (response : bool) :
  snd (BloodPressureMonitor.main env []) !! i = Some (EvWriteChar uuid data response) ->
  exists j,
    (j < i)%nat /\
    snd (BloodPressureMonitor.main env []) !! j =
      Some (EvStartNotify BloodPressureMonitor.BP_MEASUREMENT_CHAR_UUID) /\
    ble_start_notify env (take j (snd (BloodPressureMonitor.main env [])))
      BloodPressureMonitor.BP_MEASUREMENT_CHAR_UUID = Ret tt /\
    calls is_write (take j (snd (BloodPressureMonitor.main env []))) = 0%nat.
Proof.
  intros Hwrite.
  destruct (main_shape env) as [Hnone | (pre & post & Ht & Hpre & Hsub)].
  - exfalso. eapply no_write_lookup; eassumption.
  - rewrite Ht in *. exists (length pre).
    assert (Hi : (length pre < i)%nat).
    { destruct (Nat.lt_trichotomy i (length pre)) as [Hlt|[Heq|Hgt]]; [| |exact Hgt].
      - exfalso. rewrite lookup_app_l in Hwrite by assumption.
        eapply no_write_lookup; eassumption.
      - exfalso. rewrite list_lookup_middle in Hwrite by assumption. discriminate. }
    split; [exact Hi|].
    split; [apply list_lookup_middle; reflexivity|].
    rewrite take_app_length. split; [|apply calls_no_write; exact Hpre].
    destruct Hsub as [Hok|Hpost]; [exact Hok|].
    exfalso.
    rewrite lookup_app_r in Hwrite by lia.
    destruct (i - length pre)%nat as [|k] eqn:Ek; [lia|].
    cbn in Hwrite. eapply no_write_lookup; eassumption.
Qed.

Example main_on_late_stack :
  BloodPressureMonitor.main late_stack [] =
  (CancelledError,
   [EvDiscover; EvSleep 1; EvDiscover;
    EvConnect "C4:7C:8D:00:00:01";
    EvReadChar BloodPressureMonitor.BP_FEATURE_CHAR_UUID;
    EvStartNotify BloodPressureMonitor.BP_MEASUREMENT_CHAR_UUID;
    EvWriteChar BloodPressureMonitor.ACTIVATION_CHAR_UUID
      BloodPressureMonitor.ACTIVATION_DATA true;
    EvSleep 1; EvSleep 1; EvSleep 1;
    EvStopNotify BloodPressureMonitor.BP_MEASUREMENT_CHAR_UUID;
    EvDisconnect]).
Proof. reflexivity. Qed.

Lemma C9_subscription_precedes_activation_witness :
  exists j,
    (j < 6)%nat /\
    snd (BloodPressureMonitor.main late_stack []) !! j =
      Some (EvStartNotify BloodPressureMonitor.BP_MEASUREMENT_CHAR_UUID).
Proof.
  destruct (C9_subscription_precedes_activation late_stack 6
              BloodPressureMonitor.ACTIVATION_CHAR_UUID
              BloodPressureMonitor.ACTIVATION_DATA true)
    as (j & Hj & Hsub & _).
  - reflexivity.
  - exists j. split; assumption.
Defined.

(* ===================================================================== *)
(** ** More on the decoders *)
(* ===================================================================== *)

Lemma twos_complement_of_mod (bits v : Z) :
  0 < bits -> - 2 ^ (bits - 1) <= v < 2 ^ (bits - 1) ->
  twos_complement bits (v mod 2 ^ bits) = v.
Proof.
  intros Hb Hv. unfold twos_complement.
  assert (Hpow : 2 ^ bits = 2 * 2 ^ (bits - 1)).
  { replace bits with (Z.succ (bits - 1)) at 1 by lia. apply Z.pow_succ_r. lia. }
  destruct (Z.lt_ge_cases v 0) as [Hneg|Hpos].
  - replace (v mod 2 ^ bits) with (v + 2 ^ bits)
      by (apply Z.mod_unique with (q := -1); lia).
    destruct (Z.ltb_spec (v + 2 ^ bits) (2 ^ (bits - 1))); lia.
  - rewrite Z.mod_small by lia.
    destruct (Z.ltb_spec v (2 ^ (bits - 1))); lia.
Qed.

Lemma twos_complement_mod (bits u : Z) :
  0 < bits -> 0 <= u < 2 ^ bits -> twos_complement bits u mod 2 ^ bits = u.
Proof.
  intros Hb Hu. unfold twos_complement.
  destruct (Z.ltb_spec u (2 ^ (bits - 1))).
  - apply Z.mod_small. lia.
  - symmetry. apply Z.mod_unique with (q := -1); lia.
Qed.

(** X1: the SFLOAT decoder and the field layout are inverse to each other.
    A mantissa in [-2048, 2047] and an exponent in [-8, 7] packed into a raw
    16-bit value decode to mantissa * 10 ** exponent, and packing the fields
    read from any raw value gives back its low 16 bits. *)
Theorem sfloat_fields_round_trip (m e raw : Z) :
  -2048 <= m <= 2047 -> -8 <= e <= 7 ->
  0 <= sfloat_raw m e < 65536 /\
  sfloat_mantissa (sfloat_raw m e) = m /\
  sfloat_exponent (sfloat_raw m e) = e /\
  BloodPressureMonitor.parse_sfloat (sfloat_raw m e) = sfloat_value m e /\
  sfloat_raw (sfloat_mantissa raw) (sfloat_exponent raw) = raw mod 65536.
Proof.
  intros Hm He.
  pose proof (Z.mod_pos_bound m 4096 ltac:(lia)) as Hm12.
  pose proof (Z.mod_pos_bound e 16 ltac:(lia)) as He4.
  assert (Hmant : sfloat_mantissa (sfloat_raw m e) = m).
  { unfold sfloat_mantissa, sfloat_raw.
    rewrite Z.add_comm, Z_mod_plus_full, Z.mod_mod by lia.
    apply (twos_complement_of_mod 12); [lia|]. change (2 ^ (12 - 1)) with 2048. lia. }
  assert (Hexp : sfloat_exponent (sfloat_raw m e) = e).
  { unfold sfloat_exponent, sfloat_raw.
    rewrite Z.add_comm, Z_div_plus_full, Z.div_small, Z.add_0_l, Z.mod_mod by lia.
    apply (twos_complement_of_mod 4); [lia|]. change (2 ^ (4 - 1)) with 8. lia. }
  split; [unfold sfloat_raw; lia|].
  split; [exact Hmant|]. split; [exact Hexp|].
  split; [rewrite parse_sfloat_fields, Hmant, Hexp; reflexivity|].
  unfold sfloat_raw, sfloat_mantissa, sfloat_exponent.
  rewrite (twos_complement_mod 12), (twos_complement_mod 4)
    by (try lia; apply Z.mod_pos_bound; lia).
  pose proof (Z.div_mod raw 4096 ltac:(lia)) as Hraw.
  pose proof (Z.div_mod (raw / 4096) 16 ltac:(lia)) as Hhigh.
  pose proof (Z.mod_pos_bound raw 4096 ltac:(lia)).
  pose proof (Z.mod_pos_bound (raw / 4096) 16 ltac:(lia)).
  apply Z.mod_unique with (q := raw / 4096 / 16); lia.
Qed.

Lemma sfloat_fields_round_trip_witness :
  BloodPressureMonitor.parse_sfloat (sfloat_raw (-120) (-1)) = sfloat_value (-120) (-1) /\
  sfloat_raw (-120) (-1) = 0xFF88.
Proof.
  destruct (sfloat_fields_round_trip (-120) (-1) 0) as (_ & _ & _ & Hval & _);
    [lia | lia |].
  split; [exact Hval | reflexivity].
Defined.

Lemma guard_true_intro (b : bool) (need len : nat) :
  b = true -> (need <= len)%nat -> b && (need <=? len)%nat = true.
Proof. intros -> Hle. apply Nat.leb_le in Hle. rewrite Hle. reflexivity. Qed.

Lemma bpm_form_keys (data : list Byte.byte) :
  keys (BpmForm.form data) =
  {[ "systolic"; "diastolic"; "mean_arterial"; "units" ]}
  ∪ key_if (flag data 1 && (14 <=? length data)%nat) "timestamp"
  ∪ key_if (flag data 2 && (offset_after_timestamp data + 2 <=? length data)%nat)
      "pulse_rate".
Proof.
  unfold BpmForm.form, BpmForm.with_pulse_rate, BpmForm.with_timestamp, BpmForm.base,
    keys, key_if.
  cbv zeta.
  destruct (flag data 1 && (14 <=? length data)%nat);
    destruct (flag data 2 && (offset_after_timestamp data + 2 <=? length data)%nat);
    rewrite !dom_insert_L, dom_empty_L; set_solver.
Qed.

Lemma app_form_keys (now : datetime) (data : list Byte.byte) :
  keys (AppForm.form now data) =
  {[ "timestamp"; "systolic"; "diastolic"; "mean_arterial_pressure"; "unit"; "flags" ]}
  ∪ key_if (flag data 1 && (14 <=? length data)%nat && ts_valid data 7) "device_timestamp"
  ∪ key_if (flag data 2 && (offset_after_timestamp data + 2 <=? length data)%nat)
      "pulse_rate"
  ∪ key_if (flag data 3 && (offset_after_pulse_rate data + 1 <=? length data)%nat)
      "user_id"
  ∪ key_if (flag data 4 && (offset_after_user_id data + 2 <=? length data)%nat)
      "status".
Proof.
  unfold AppForm.form, AppForm.with_status, AppForm.with_user_id,
    AppForm.with_pulse_rate, AppForm.with_timestamp, AppForm.base, keys, key_if.
  cbv zeta.
  destruct (flag data 1 && (14 <=? length data)%nat);
    destruct (ts_valid data 7);
    destruct (flag data 2 && (offset_after_timestamp data + 2 <=? length data)%nat);
    destruct (flag data 3 && (offset_after_pulse_rate data + 1 <=? length data)%nat);
    destruct (flag data 4 && (offset_after_user_id data + 2 <=? length data)%nat);
    cbn [andb]; rewrite !dom_insert_L, dom_empty_L; set_solver.
Qed.

(** X2: the dictionary [blood_pressure_monitor.py] returns on at least 7
    bytes has the keys systolic, diastolic, mean_arterial and units, the key
    timestamp exactly when flag bit 1 is set and 14 bytes are there, the key
    pulse_rate exactly when flag bit 2 is set and 2 bytes are left at the
    cursor, and no other key; the user-id and status flags add nothing. *)
Theorem monitor_result_keys (data : list Byte.byte) :
  (7 <= length data)%nat ->
  exists m,
    BloodPressureMonitor.parse_blood_pressure_measurement data = Ret (Some m) /\
    keys m =
      {[ "systolic"; "diastolic"; "mean_arterial"; "units" ]}
      ∪ key_if (flag data 1 && (14 <=? length data)%nat) "timestamp"
      ∪ key_if (flag data 2 && (offset_after_timestamp data + 2 <=? length data)%nat)
          "pulse_rate" /\
    (flag data 1 = true -> (14 <= length data)%nat ->
       m !! "timestamp" = Some (VStr (ts_text data 7))) /\
    (flag data 2 = true -> (offset_after_timestamp data + 2 <= length data)%nat ->
       m !! "pulse_rate" =
         Some (BloodPressureMonitor.parse_sfloat (le16_at data (offset_after_timestamp data)))).
Proof.
  intros Hlen. exists (BpmForm.form data).
  split; [apply bpm_parse_eq; assumption|].
  split; [apply bpm_form_keys|].
  rewrite bpm_form_timestamp, bpm_form_pulse_rate.
  split; intros Hflag Hfit; rewrite guard_true_intro by assumption; reflexivity.
Qed.

Lemma monitor_result_keys_witness :
  exists m,
    BloodPressureMonitor.parse_blood_pressure_measurement sample_full = Ret (Some m) /\
    keys m = {[ "systolic"; "diastolic"; "mean_arterial"; "units";
                "timestamp"; "pulse_rate" ]}.
Proof.
  destruct (monitor_result_keys sample_full) as (m & Hm & Hkeys & _).
  - simpl. lia.
  - exists m. split; [exact Hm|]. rewrite Hkeys.
    change (flag sample_full 1 && (14 <=? length sample_full)%nat) with true.
    change (flag sample_full 2 &&
            (offset_after_timestamp sample_full + 2 <=? length sample_full)%nat)
      with true.
    unfold key_if. set_solver.
Defined.

(** X3: the dictionary [qardio_arm2_app.py] returns on at least 7 bytes has
    the keys timestamp, systolic, diastolic, mean_arterial_pressure, unit and
    flags; device_timestamp exactly when flag bit 1 is set, 14 bytes are
    there and the calendar fields are valid; pulse_rate, user_id and status
    exactly when their flag bit (2, 3, 4) is set and the field fits at the
    cursor; and no other key.  A device timestamp in the result holds the
    decoded calendar fields. *)
Theorem app_result_keys (now : datetime) (data : list Byte.byte) :
  (7 <= length data)%nat ->
  exists a,
    QardioArm2App.parse_blood_pressure_measurement now data = Ret a /\
    keys a =
      {[ "timestamp"; "systolic"; "diastolic"; "mean_arterial_pressure"; "unit"; "flags" ]}
      ∪ key_if (flag data 1 && (14 <=? length data)%nat && ts_valid data 7)
          "device_timestamp"
      ∪ key_if (flag data 2 && (offset_after_timestamp data + 2 <=? length data)%nat)
          "pulse_rate"
      ∪ key_if (flag data 3 && (offset_after_pulse_rate data + 1 <=? length data)%nat)
          "user_id"
      ∪ key_if (flag data 4 && (offset_after_user_id data + 2 <=? length data)%nat)
          "status" /\
    (forall d, a !! "device_timestamp" = Some (VDatetime d) ->
       d = MkDatetime (le16_at data 7) (byte_at data 9) (byte_at data 10)
             (byte_at data 11) (byte_at data 12) (byte_at data 13) 0 /\
       1 <= dt_year d <= 9999 /\ 1 <= dt_month d <= 12 /\ 1 <= dt_day d <= 31 /\
       dt_hour d <= 23 /\ dt_minute d <= 59 /\ dt_second d <= 59).
Proof.
  intros Hlen. exists (AppForm.form now data).
  split; [apply app_parse_eq; assumption|].
  split; [apply app_form_keys|].
  intros d. rewrite app_form_device_timestamp.
  destruct (flag data 1 && (14 <=? length data)%nat); [|discriminate].
  destruct (ts_valid data 7) eqn:Hvalid; [|discriminate].
  intros [= <-]. split; [reflexivity|].
  unfold ts_valid, valid_datetime_fields, MINYEAR, MAXYEAR in Hvalid.
  repeat (apply andb_true_iff in Hvalid as [Hvalid ?]).
  repeat match goal with
         | H : (_ <=? _) = true |- _ => apply Z.leb_le in H
         end.
  assert (Hdays : days_in_month (ts_year data 7) (ts_month data 7) <= 31).
  { unfold days_in_month. repeat match goal with
                                 | |- context [if ?c then _ else _] => destruct c
                                 end; lia. }
  unfold AppForm.device_timestamp. cbn [dt_year dt_month dt_day dt_hour dt_minute dt_second].
  lia.
Qed.

Lemma app_result_keys_witness :
  exists a,
    QardioArm2App.parse_blood_pressure_measurement sample_now sample_full = Ret a /\
    keys a = {[ "timestamp"; "systolic"; "diastolic"; "mean_arterial_pressure"; "unit";
                "flags"; "device_timestamp"; "pulse_rate" ]}.
Proof.
  destruct (app_result_keys sample_now sample_full) as (a & Ha & Hkeys & _).
  - simpl. lia.
  - exists a. split; [exact Ha|]. rewrite Hkeys.
    change (flag sample_full 1 && (14 <=? length sample_full)%nat
            && ts_valid sample_full 7) with true.
    change (flag sample_full 2 &&
            (offset_after_timestamp sample_full + 2 <=? length sample_full)%nat)
      with true.
    change (flag sample_full 3 &&
            (offset_after_pulse_rate sample_full + 1 <=? length sample_full)%nat)
      with false.
    change (flag sample_full 4 &&
            (offset_after_user_id sample_full + 2 <=? length sample_full)%nat)
      with false.
    unfold key_if. set_solver.
Defined.

(** X4: on a packet that holds every field its flags announce,
    [qardio_arm2_app.py] reads the fields back to back in the order
    timestamp (7 bytes), pulse rate (2), user id (1), status (2): each
    announced field is decoded from the offset that is 7 plus the sizes of
    the announced fields before it, and the cursor ends after the last one. *)
Theorem app_full_packet_layout (now : datetime) (data : list Byte.byte) :
  let o1 := (7 + field_size (flag data 1) 7)%nat in
  let o2 := (o1 + field_size (flag data 2) 2)%nat in
  let o3 := (o2 + field_size (flag data 3) 1)%nat in
  let o4 := (o3 + field_size (flag data 4) 2)%nat in
  (o4 <= length data)%nat ->
  exists a,
    QardioArm2App.parse_blood_pressure_measurement now data = Ret a /\
    a !! "pulse_rate" =
      (if flag data 2 then Some (py_div_float (le16_at data o1) (float_of_Z 10))
       else None) /\
    a !! "user_id" = (if flag data 3 then Some (VInt (byte_at data o2)) else None) /\
    a !! "status" = (if flag data 4 then Some (VInt (le16_at data o3)) else None) /\
    (is_Some (a !! "device_timestamp") <-> flag data 1 = true /\ ts_valid data 7 = true) /\
    offset_after_status data = o4.
Proof.
  intros o1 o2 o3 o4 Hfit. exists (AppForm.form now data).
  assert (Hlen : (7 <= length data)%nat) by (unfold o4, o3, o2, o1 in Hfit; lia).
  split; [apply app_parse_eq; assumption|].
  rewrite app_form_pulse_rate, app_form_user_id, app_form_status,
    app_form_device_timestamp.
  unfold offset_after_status, offset_after_user_id, offset_after_pulse_rate,
    offset_after_timestamp.
  cbv zeta. unfold o4, o3, o2, o1 in *. clear o1 o2 o3 o4.
  destruct (flag data 1), (flag data 2), (flag data 3), (flag data 4);
    cbn [field_size andb Nat.add] in *;
    repeat (match goal with
            | |- context [(?n <=? length data)%nat] =>
                replace (n <=? length data)%nat with true
                  by (symmetry; apply Nat.leb_le; cbn; lia)
            end; cbn [andb Nat.add]);
    (repeat split; try reflexivity; intros;
     match goal with
     | H : is_Some (if ts_valid data 7 then _ else _) |- _ =>
         destruct (ts_valid data 7); [reflexivity | destruct H as [? H]; discriminate]
     | H : is_Some None |- _ => destruct H as [? H]; discriminate
     | H : _ /\ _ |- is_Some _ => destruct H as [_ ->]; eexists; reflexivity
     | H : _ /\ _ |- _ => destruct H; discriminate
     end).
Qed.

Lemma app_full_packet_layout_witness :
  exists a,
    QardioArm2App.parse_blood_pressure_measurement sample_now sample_full = Ret a /\
    a !! "pulse_rate" = Some (py_div_float (le16_at sample_full 14) (float_of_Z 10)) /\
    offset_after_status sample_full = 16%nat.
Proof.
  destruct (app_full_packet_layout sample_now sample_full)
    as (a & Ha & Hpulse & _ & _ & _ & Hend).
  - simpl. lia.
  - exists a. split; [exact Ha|]. split; [exact Hpulse | exact Hend].
Defined.

Lemma testbit_low3 (x y k : Z) :
  Z.land x 7 = Z.land y 7 -> 0 <= k <= 2 -> Z.testbit x k = Z.testbit y k.
Proof.
  intros Heq Hk.
  assert (H7 : Z.testbit 7 k = true)
    by (assert (k = 0 \/ k = 1 \/ k = 2) as [->|[->| ->]] by lia; reflexivity).
  pose proof (Z.land_spec x 7 k) as Hx. pose proof (Z.land_spec y 7 k) as Hy.
  rewrite H7, andb_true_r in Hx, Hy. rewrite <- Hx, <- Hy, Heq. reflexivity.
Qed.

Lemma flag_cons (b : Byte.byte) (rest : list Byte.byte) (k : Z) :
  flag (b :: rest) k = Z.testbit (byte_val b) k.
Proof. reflexivity. Qed.

(** X5: [blood_pressure_monitor.py] looks at bits 0, 1 and 2 of the flags
    byte only: two packets that differ in bits 3 to 7 of the flags byte (user
    id, status, reserved) and agree elsewhere decode to the same result. *)
Theorem monitor_reads_three_flag_bits (f f' : Byte.byte) (rest : list Byte.byte) :
  Z.land (byte_val f) 7 = Z.land (byte_val f') 7 ->
  BloodPressureMonitor.parse_blood_pressure_measurement (f :: rest) =
  BloodPressureMonitor.parse_blood_pressure_measurement (f' :: rest).
Proof.
  intros Hbits.
  destruct (Nat.lt_ge_cases (length (f :: rest)) 7) as [Hshort|Hlong].
  - rewrite !bpm_short by exact Hshort. reflexivity.
  - rewrite !bpm_parse_eq by exact Hlong. do 2 f_equal.
    unfold BpmForm.form, BpmForm.with_pulse_rate, BpmForm.with_timestamp, BpmForm.base,
      offset_after_timestamp.
    cbv zeta. rewrite !flag_cons.
    rewrite (testbit_low3 _ _ 0 Hbits), (testbit_low3 _ _ 1 Hbits),
      (testbit_low3 _ _ 2 Hbits) by lia.
    cbn [length].
    destruct (Z.testbit (byte_val f') 1 && (14 <=? S (length rest))%nat);
      destruct (Z.testbit (byte_val f') 2 && _); reflexivity.
Qed.

Lemma monitor_reads_three_flag_bits_witness :
  BloodPressureMonitor.parse_blood_pressure_measurement
    (Byte.xfe :: List.tl sample_full) =
  BloodPressureMonitor.parse_blood_pressure_measurement sample_full.
Proof.
  apply (monitor_reads_three_flag_bits Byte.xfe Byte.x06). reflexivity.
Defined.

(** X6: [qardio_arm2_app.py] reports each pressure as the raw little-endian
    16-bit value divided by 10.0 when flag bit 0 says mmHg and by 1000.0 when
    it says kPa, keeps the flags byte under [flags], and stores the host time
    of the call under [timestamp], whatever the device timestamp is. *)
Theorem app_pressure_scaling (now : datetime) (data : list Byte.byte) :
  (7 <= length data)%nat ->
  exists a,
    QardioArm2App.parse_blood_pressure_measurement now data = Ret a /\
    let scale := float_of_Z (if flag data 0 then 1000 else 10) in
    a !! "systolic" = Some (py_div_float (le16_at data 1) scale) /\
    a !! "diastolic" = Some (py_div_float (le16_at data 3) scale) /\
    a !! "mean_arterial_pressure" = Some (py_div_float (le16_at data 5) scale) /\
    a !! "flags" = Some (VInt (byte_at data 0)) /\
    a !! "timestamp" = Some (VDatetime now).
Proof.
  intros Hlen. exists (AppForm.form now data).
  split; [apply app_parse_eq; assumption|].
  cbv zeta.
  rewrite app_form_systolic, app_form_diastolic, app_form_mean_arterial_pressure,
    app_form_flags.
  unfold AppForm.unit_of, QardioArm2App.scale_pressure.
  assert (Hnow : AppForm.form now data !! "timestamp" = Some (VDatetime now)).
  { unfold AppForm.form, AppForm.with_status, AppForm.with_user_id,
      AppForm.with_pulse_rate, AppForm.with_timestamp, AppForm.base.
    cbv zeta. split_guards; map_lookup; reflexivity. }
  rewrite Hnow. destruct (flag data 0); repeat split; reflexivity.
Qed.

Lemma app_pressure_scaling_witness :
  exists a,
    QardioArm2App.parse_blood_pressure_measurement sample_now sample_kpa = Ret a /\
    a !! "systolic" = Some (py_div_float 0x0078 (float_of_Z 1000)).
Proof.
  destruct (app_pressure_scaling sample_now sample_kpa) as (a & Ha & Hsys & _).
  - simpl. lia.
  - exists a. split; [exact Ha | exact Hsys].
Defined.

Lemma handler_step (now : datetime) (log : list (gmap string pyval))
    (data : list Byte.byte) :
  QardioArm2App.blood_pressure_notification_handler now log data =
  Ret (if (7 <=? length data)%nat then log ++ [AppForm.form now data] else log).
Proof.
  unfold QardioArm2App.blood_pressure_notification_handler.
  destruct (Nat.leb_spec 7 (length data)) as [Hlong|Hshort].
  - rewrite app_parse_eq, bind_Ret by assumption.
    destruct (Nat.eqb_spec (size (AppForm.form now data)) 0) as [Hsize|_]; [|reflexivity].
    apply map_size_empty_iff in Hsize. exfalso. eapply app_form_nonempty; eassumption.
  - rewrite app_short, bind_Ret, map_size_empty by assumption. reflexivity.
Qed.

(** X7: the list of measurements kept by [qardio_arm2_app.py] only grows at
    its end.  Whatever notifications arrive, the handler never raises, the
    measurements recorded before stay in place and in order, and exactly the
    notifications of at least 7 bytes add one measurement each, in order of
    arrival, none of them empty. *)
Theorem app_log_is_append_only (log : list (gmap string pyval))
    (notifications : list (datetime * list Byte.byte)) :
  exists added,
    deliver log notifications = Ret (log ++ added) /\
    length added = length (decodable notifications) /\
    Forall2 (fun a n =>
               QardioArm2App.parse_blood_pressure_measurement (fst n) (snd n) = Ret a /\
               a ≠ ∅)
            added (decodable notifications).
Proof.
  revert log. induction notifications as [|[now data] rest IH]; intros log.
  - exists []. rewrite app_nil_r. repeat split. constructor.
  - cbn [deliver]. rewrite handler_step, bind_Ret.
    unfold decodable in *. cbn [List.filter snd].
    destruct (Nat.leb_spec 7 (length data)) as [Hlong|Hshort].
    + destruct (IH (log ++ [AppForm.form now data])) as (added & Hrun & Hlen & Heach).
      exists (AppForm.form now data :: added).
      rewrite Hrun, <- app_assoc. split; [reflexivity|].
      split; [cbn [length]; rewrite Hlen; reflexivity|].
      constructor; [|exact Heach].
      split; [apply app_parse_eq; assumption | apply app_form_nonempty].
    + destruct (IH log) as (added & Hrun & Hlen & Heach).
      exists added. repeat split; assumption.
Qed.

(* ===================================================================== *)
(** ** Retry loops on any stack *)
(* ===================================================================== *)

Lemma calls_app (is_call : event -> bool) (t1 t2 : list event) :
  calls is_call (t1 ++ t2) = (calls is_call t1 + calls is_call t2)%nat.
Proof. unfold calls. rewrite List.filter_app, length_app. reflexivity. Qed.

Lemma failed_attempts_S (ev : event) (delay : Z) (bound a k : nat) :
  failed_attempts ev delay bound (seq a (S k)) =
  (ev :: (if (a <? bound)%nat then [EvSleep delay] else []))
  ++ failed_attempts ev delay bound (seq (S a) k).
Proof. reflexivity. Qed.

Lemma calls_failed_attempts (is_call : event -> bool) (ev : event) (delay : Z)
    (bound a k : nat) :
  is_call ev = true -> is_call (EvSleep delay) = false ->
  calls is_call (failed_attempts ev delay bound (seq a k)) = k.
Proof.
  intros Hev Hsleep. revert a. induction k as [|k IH]; intros a; [reflexivity|].
  rewrite failed_attempts_S, calls_app, IH. unfold calls. cbn [app List.filter].
  rewrite Hev. destruct (a <? bound)%nat; cbn [List.filter length];
    rewrite ?Hsleep; reflexivity.
Qed.

Lemma failed_attempts_events (ev : event) (delay : Z) (bound a k : nat) :
  Forall (fun e => e = ev \/ e = EvSleep delay) (failed_attempts ev delay bound (seq a k)).
Proof.
  revert a. induction k as [|k IH]; intros a; [constructor|].
  rewrite failed_attempts_S. apply Forall_app. split; [|apply IH].
  destruct (a <? bound)%nat.
  - constructor; [left; reflexivity|]. constructor; [right; reflexivity | constructor].
  - constructor; [left; reflexivity | constructor].
Qed.

Section RetryCases.
Context {R : Type}.
Variable body : nat -> io (option R).
Variable bound : nat.
Variable ev : event.
Variable delay : Z.
Variable outcome : list event -> option R.
Variable orelse : R.

Hypothesis body_step : forall attempt t,
  body attempt t =
  match outcome t with
  | Some r => (Ret (Some r), t ++ [ev])
  | None =>
      (Ret None, t ++ ev :: (if (attempt <? bound)%nat then [EvSleep delay] else []))
  end.

(** On any stack the loop stops at the first attempt that succeeds, after
    [k] failed ones, or falls through after all [n] attempts failed. *)
Lemma retry_cases (n a : nat) (t : list event) :
  exists k,
    (k <= n)%nat /\
    ((k = n /\
      for_each (seq a n) body (mret orelse) t =
        (Ret orelse, t ++ failed_attempts ev delay bound (seq a k))) \/
     ((k < n)%nat /\ exists r,
        outcome (t ++ failed_attempts ev delay bound (seq a k)) = Some r /\
        for_each (seq a n) body (mret orelse) t =
          (Ret r, t ++ failed_attempts ev delay bound (seq a k) ++ [ev]))).
Proof.
  revert a t. induction n as [|n IH]; intros a t.
  - exists 0%nat. split; [lia|]. left. split; [reflexivity|].
    cbn. rewrite app_nil_r. reflexivity.
  - cbn [seq]. rewrite for_each_cons, body_step.
    destruct (outcome t) as [r|] eqn:Hout.
    + exists 0%nat. split; [lia|]. right. split; [lia|]. exists r.
      cbn [seq failed_attempts flat_map app]. rewrite app_nil_r. split; [exact Hout|].
      reflexivity.
    + destruct (IH (S a)
                  (t ++ ev :: (if (a <? bound)%nat then [EvSleep delay] else [])))
        as (k & Hk & Hcase).
      exists (S k). split; [lia|].
      rewrite failed_attempts_S.
      destruct Hcase as [[-> Hrun]|(Hlt & r & Hr & Hrun)].
      * left. split; [reflexivity|]. rewrite Hrun, <- app_assoc. reflexivity.
      * right. split; [lia|]. exists r.
        rewrite <- !app_assoc in *. split; [exact Hr | exact Hrun].
Qed.
End RetryCases.

Lemma scan_match_sound (env : ble_stack) (name : string) (h : list event) (d : device) :
  scan_match env name h = Some d ->
  dev_name d = Some name /\
  exists devices, ble_scan env h = Ret devices /\ In d devices.
Proof.
  unfold scan_match, find_by_name. destruct (ble_scan env h) as [devices|e]; [|discriminate].
  intros Hfind. apply List.find_some in Hfind as [Hin Hname].
  destruct (dev_name d) as [n|]; [|discriminate].
  apply String.eqb_eq in Hname. subst n. split; [reflexivity|].
  exists devices. split; [reflexivity | exact Hin].
Qed.

(** X8: on any BLE stack, [discover_device] of [blood_pressure_monitor.py]
    returns without raising after at least one and at most three scans,
    having made no other call than scans and one-second sleeps.  It returns
    [None] only after three scans, and a device it returns is named exactly
    "QardioARM 2" and was listed by the scan it made last. *)
Theorem monitor_discovery_on_any_stack (env : ble_stack) :
  exists r te,
    BloodPressureMonitor.discover_device env [] = (Ret r, te) /\
    (1 <= calls is_discover te <= 3)%nat /\
    Forall (fun e => e = EvDiscover \/ e = EvSleep 1) te /\
    (r = None -> calls is_discover te = 3%nat) /\
    (forall d, r = Some d ->
       dev_name d = Some "QardioARM 2"%string /\
       exists h devices,
         te = h ++ [EvDiscover] /\ ble_scan env h = Ret devices /\ In d devices).
Proof.
  unfold BloodPressureMonitor.discover_device.
  destruct (retry_cases _ _ _ _ _ None (bpm_discover_attempt_step env)
              BloodPressureMonitor.MAX_DISCOVERY_RETRIES 1 [])
    as (k & Hk & [[-> Hrun]|(Hlt & r & Hr & Hrun)]).
  - exists None, (failed_attempts EvDiscover BloodPressureMonitor.RETRY_DELAY
                    BloodPressureMonitor.MAX_DISCOVERY_RETRIES
                    (seq 1 BloodPressureMonitor.MAX_DISCOVERY_RETRIES)).
    split; [exact Hrun|]. repeat split; try (cbn; lia).
    + apply failed_attempts_events.
    + discriminate.
    + discriminate.
  - cbn [app] in Hr, Hrun.
    destruct (scan_match env BloodPressureMonitor.DEVICE_NAME _) as [d|] eqn:Hscan;
      [|discriminate].
    cbn [option_map] in Hr. injection Hr as <-.
    exists (Some d), (failed_attempts EvDiscover BloodPressureMonitor.RETRY_DELAY
                        BloodPressureMonitor.MAX_DISCOVERY_RETRIES (seq 1 k)
                      ++ [EvDiscover]).
    split; [exact Hrun|].
    assert (Hcalls : calls is_discover
                       (failed_attempts EvDiscover BloodPressureMonitor.RETRY_DELAY
                          BloodPressureMonitor.MAX_DISCOVERY_RETRIES (seq 1 k)
                        ++ [EvDiscover]) = S k).
    { rewrite calls_app, calls_failed_attempts by reflexivity. cbn. lia. }
    rewrite Hcalls. unfold BloodPressureMonitor.MAX_DISCOVERY_RETRIES in Hlt.
    split; [lia|]. split.
    { apply Forall_app. split; [apply failed_attempts_events|].
      constructor; [left; reflexivity | constructor]. }
    split; [discriminate|].
    intros d' [= <-]. apply scan_match_sound in Hscan as (Hname & devices & Hdev & Hin).
    split; [exact Hname|]. eexists _, devices. split; [reflexivity|]. split; assumption.
Qed.

Lemma monitor_discovery_on_any_stack_witness :
  calls is_discover (snd (BloodPressureMonitor.discover_device quiet_stack [])) = 3%nat /\
  exists h devices,
    snd (BloodPressureMonitor.discover_device late_stack []) = h ++ [EvDiscover] /\
    ble_scan late_stack h = Ret devices /\ In qardio devices.
Proof.
  destruct (monitor_discovery_on_any_stack quiet_stack)
    as (r & te & Hrun & _ & _ & Hnone & _).
  destruct (monitor_discovery_on_any_stack late_stack)
    as (r' & te' & Hrun' & _ & _ & _ & Hsome).
  rewrite Hrun, Hrun'. cbn [snd].
  vm_compute in Hrun. injection Hrun as Hr Ht.
  vm_compute in Hrun'. injection Hrun' as Hr' Ht'.
  split.
  - apply Hnone. symmetry. exact Hr.
  - destruct (Hsome qardio) as (_ & h & devices & Hh & Hscan & Hin).
    { symmetry. exact Hr'. }
    exists h, devices. split; [exact Hh|]. split; [exact Hscan | exact Hin].
Defined.

(** X9: [discover_device] of [attempt1.py] returns a supplied, non-empty
    address at once, without any call.  Without one it behaves on any stack
    like the monitor's: at least one and at most three scans, [None] only
    after three, and a returned address is that of a device named exactly
    "QardioARM 2" listed by the last scan. *)
Theorem attempt1_discovery_on_any_stack (env : ble_stack) :
  (forall c s t,
     Attempt1.discover_device env (Some (String c s)) t = (Ret (Some (String c s)), t)) /\
  exists r te,
    Attempt1.discover_device env None [] = (Ret r, te) /\
    (1 <= calls is_discover te <= 3)%nat /\
    Forall (fun e => e = EvDiscover \/ e = EvSleep 0) te /\
    (r = None -> calls is_discover te = 3%nat) /\
    (forall address, r = Some address ->
       exists h devices d,
         te = h ++ [EvDiscover] /\ ble_scan env h = Ret devices /\ In d devices /\
         dev_name d = Some "QardioARM 2"%string /\ dev_address d = address).
Proof.
  split; [reflexivity|].
  unfold Attempt1.discover_device.
  destruct (retry_cases _ _ _ _ _ None (attempt1_discover_attempt_step env)
              Attempt1.MAX_DISCOVERY_RETRIES 1 [])
    as (k & Hk & [[-> Hrun]|(Hlt & r & Hr & Hrun)]).
  - exists None, (failed_attempts EvDiscover Attempt1.RETRY_DELAY
                    Attempt1.MAX_DISCOVERY_RETRIES (seq 1 Attempt1.MAX_DISCOVERY_RETRIES)).
    split; [exact Hrun|]. repeat split; try (cbn; lia).
    + apply failed_attempts_events.
    + discriminate.
  - cbn [app] in Hr, Hrun.
    destruct (scan_match env Attempt1.DEVICE_NAME _) as [d|] eqn:Hscan; [|discriminate].
    cbn [option_map] in Hr. injection Hr as <-.
    exists (Some (dev_address d)),
      (failed_attempts EvDiscover Attempt1.RETRY_DELAY Attempt1.MAX_DISCOVERY_RETRIES
         (seq 1 k) ++ [EvDiscover]).
    split; [exact Hrun|].
    assert (Hcalls : calls is_discover
                       (failed_attempts EvDiscover Attempt1.RETRY_DELAY
                          Attempt1.MAX_DISCOVERY_RETRIES (seq 1 k) ++ [EvDiscover]) = S k).
    { rewrite calls_app, calls_failed_attempts by reflexivity. cbn. lia. }
    rewrite Hcalls. unfold Attempt1.MAX_DISCOVERY_RETRIES in Hlt.
    split; [lia|]. split.
    { apply Forall_app. split; [apply failed_attempts_events|].
      constructor; [left; reflexivity | constructor]. }
    split; [discriminate|].
    intros address [= <-].
    apply scan_match_sound in Hscan as (Hname & devices & Hdev & Hin).
    eexists _, devices, d. repeat split; assumption.
Qed.

Lemma attempt1_discovery_on_any_stack_witness :
  Attempt1.discover_device quiet_stack (Some "C4:7C:8D:00:00:01"%string) [] =
    (Ret (Some "C4:7C:8D:00:00:01"%string), []) /\
  calls is_discover (snd (Attempt1.discover_device quiet_stack None [])) = 3%nat /\
  exists h devices d,
    snd (Attempt1.discover_device late_stack None []) = h ++ [EvDiscover] /\
    ble_scan late_stack h = Ret devices /\ In d devices /\
    dev_name d = Some "QardioARM 2"%string /\
    dev_address d = "C4:7C:8D:00:00:01"%string.
Proof.
  destruct (attempt1_discovery_on_any_stack quiet_stack)
    as (Hgiven & r & te & Hrun & _ & _ & Hnone & _).
  destruct (attempt1_discovery_on_any_stack late_stack)
    as (_ & r' & te' & Hrun' & _ & _ & _ & Hsome).
  split; [apply Hgiven|].
  rewrite Hrun, Hrun'. cbn [snd].
  vm_compute in Hrun. injection Hrun as Hr Ht.
  vm_compute in Hrun'. injection Hrun' as Hr' Ht'.
  split.
  - apply Hnone. symmetry. exact Hr.
  - apply Hsome. symmetry. exact Hr'.
Defined.



(** X11: on any BLE stack, [connect_to_device] of [attempt1.py] returns
    without raising after at least one and at most three connect calls, with
    zero-second sleeps between them.  It returns a client only when its last
    connect call was accepted or raised a [BleakError] whose text contains
    "already connected" in any letter case; an error of another class never
    counts as a connection, whatever its text.  It returns [None] only after
    three calls. *)
Theorem attempt1_connection_on_any_stack (env : ble_stack) (address : string)
    (t : list event) :
  exists r te,
    Attempt1.connect_to_device env address t = (Ret r, t ++ te) /\
    (1 <= calls is_connect te <= 3)%nat /\
    Forall (fun e => e = EvConnect address \/ e = EvSleep 0) te /\
    (r = None -> calls is_connect te = 3%nat) /\
    (forall c, r = Some c ->
       c = MkClient address /\
       exists h,
         te = h ++ [EvConnect address] /\
         (ble_connect env (t ++ h) address = Ret tt \/
          exists msg,
            ble_connect env (t ++ h) address = Raise (BleakError msg) /\
            str_contains "already connected" (str_lower msg) = true)).
Proof.
  unfold Attempt1.connect_to_device.
  destruct (retry_cases _ _ _ _ _ None (attempt1_connect_attempt_step env address)
              Attempt1.MAX_CONNECTION_RETRIES 1 t)
    as (k & Hk & [[-> Hrun]|(Hlt & r & Hr & Hrun)]).
  - exists None, (failed_attempts (EvConnect address) Attempt1.RETRY_DELAY
                    Attempt1.MAX_CONNECTION_RETRIES
                    (seq 1 Attempt1.MAX_CONNECTION_RETRIES)).
    split; [exact Hrun|]. repeat split; try (cbn; lia).
    + apply failed_attempts_events.
    + discriminate.
    + discriminate.
  - exists r, (failed_attempts (EvConnect address) Attempt1.RETRY_DELAY
                 Attempt1.MAX_CONNECTION_RETRIES (seq 1 k) ++ [EvConnect address]).
    split; [exact Hrun|].
    assert (Hcalls : calls is_connect
                       (failed_attempts (EvConnect address) Attempt1.RETRY_DELAY
                          Attempt1.MAX_CONNECTION_RETRIES (seq 1 k)
                        ++ [EvConnect address]) = S k).
    { rewrite calls_app, calls_failed_attempts by reflexivity. cbn. lia. }
    rewrite Hcalls. unfold Attempt1.MAX_CONNECTION_RETRIES in Hlt.
    split; [lia|]. split.
    { apply Forall_app. split; [apply failed_attempts_events|].
      constructor; [left; reflexivity | constructor]. }
    unfold attempt1_connect_outcome in Hr.
    destruct (ble_connect env _ address) as [[]|e] eqn:Hconn.
    + injection Hr as <-. split; [discriminate|].
      intros c [= <-]. split; [reflexivity|]. eexists. split; [reflexivity|].
      left. exact Hconn.
    + destruct (reports_already_connected e) eqn:Hrep; [|discriminate].
      injection Hr as <-. split; [discriminate|].
      intros c [= <-]. split; [reflexivity|]. eexists. split; [reflexivity|].
      right. destruct e as [| | |msg|msg|]; try discriminate.
      exists msg. split; [exact Hconn | exact Hrep].
Qed.

Lemma attempt1_connection_on_any_stack_witness :
  exists h msg,
    Attempt1.connect_to_device busy_stack "C4:7C:8D:00:00:01" [EvDiscover] =
      (Ret (Some (MkClient "C4:7C:8D:00:00:01")),
       [EvDiscover] ++ h ++ [EvConnect "C4:7C:8D:00:00:01"]) /\
    ble_connect busy_stack ([EvDiscover] ++ h) "C4:7C:8D:00:00:01" =
      Raise (BleakError msg) /\
    str_contains "already connected" (str_lower msg) = true.
Proof.
  destruct (attempt1_connection_on_any_stack busy_stack "C4:7C:8D:00:00:01" [EvDiscover])
    as (r & te & Hrun & _ & _ & _ & Hsome).
  assert (Hr : r = Some (MkClient "C4:7C:8D:00:00:01")).
  { pose proof Hrun as Hc. vm_compute in Hc. injection Hc as Hc _. symmetry. exact Hc. }
  destruct (Hsome _ Hr) as (_ & h & Hte & [Hok | (msg & Hraise & Hmsg)]).
  - discriminate Hok.
  - exists h, msg. split; [|split; [exact Hraise | exact Hmsg]].
    rewrite Hrun, Hr, Hte. reflexivity.
Defined.

(* ===================================================================== *)
(** ** More on the session of blood_pressure_monitor.py *)
(* ===================================================================== *)

Section MonitorRuns.
Import BloodPressureMonitor.
Variable env : ble_stack.

Lemma calls_none (is_call : event -> bool) (t : list event) :
  Forall (fun e => is_call e = false) t -> calls is_call t = 0%nat.
Proof.
  unfold calls. induction 1 as [|e t He _ IH]; [reflexivity|].
  cbn [List.filter]. rewrite He. exact IH.
Qed.

Lemma discover_device_returns (t : list event) :
  exists r te,
    discover_device env t = (Ret r, t ++ te) /\ calls is_gatt te = 0%nat.
Proof.
  unfold discover_device.
  destruct (retry_cases _ _ _ _ _ None (bpm_discover_attempt_step env)
              MAX_DISCOVERY_RETRIES 1 t)
    as (k & _ & [[_ Hrun]|(_ & r & _ & Hrun)]);
    eexists _, _; (split; [exact Hrun|]); apply calls_none;
    rewrite ?Forall_app; repeat split;
    try (eapply Forall_impl; [apply failed_attempts_events|];
         intros e [->| ->]; reflexivity);
    repeat constructor.
Qed.

Lemma connect_to_device_returns (dev : device) (t : list event) :
  exists r te,
    connect_to_device env dev t = (Ret r, t ++ te) /\ calls is_gatt te = 0%nat.
Proof.
  unfold connect_to_device.
  destruct (retry_cases _ _ _ _ _ None (bpm_connect_attempt_step env dev)
              MAX_CONNECTION_RETRIES 1 t)
    as (k & _ & [[_ Hrun]|(_ & r & _ & Hrun)]);
    eexists _, _; (split; [exact Hrun|]); apply calls_none;
    rewrite ?Forall_app; repeat split;
    try (eapply Forall_impl; [apply failed_attempts_events|];
         intros e [->| ->]; reflexivity);
    repeat constructor.
Qed.

(** [main] once a client is connected after the calls [tc]. *)
Lemma main_connected (dev : device) (td : list event) (c : client) (tc : list event) :
  discover_device env [] = (Ret (Some dev), td) ->
  connect_to_device env dev td = (Ret (Some c), tc) ->
  main env [] =
  (fst (monitor env c tc),
   snd (monitor env c tc) ++ cleanup_calls env (snd (monitor env c tc))).
Proof.
  intros Hd Hc. unfold main.
  rewrite task_bind_eq, await_eq, Hd, task_bind_eq, await_eq, Hc.
  unfold task_finally.
  destruct (monitor env c tc) as [r t]. cbn [fst snd].
  rewrite await_eq, cleanup_eq. reflexivity.
Qed.
End MonitorRuns.

(** X12: how [main] ends on any BLE stack, in a run that the user
    interrupts once the waiting loop is reached.  No exception deriving
    from [Exception] leaves [main].  It returns when discovery found
    nothing (only scans and sleeps were made) and when no connection could
    be made (only scans, connect attempts and sleeps).  Once a client is
    connected, the feature is read and the subscription is requested;
    [main] then returns if the subscription or the activation write is
    refused, and is left by the [CancelledError] of the interrupt exactly
    when both were accepted, that is when the waiting loop was entered:
    that loop never ends by itself.  Either way the last calls are the
    unsubscription, followed by the disconnection exactly when the
    unsubscription was accepted. *)
Theorem main_outcomes (env : ble_stack) :
  exists r t,
    BloodPressureMonitor.main env [] = (r, t) /\
    ((r = Returned tt /\
      BloodPressureMonitor.discover_device env [] = (Ret None, t) /\
      calls is_gatt t = 0%nat) \/
     (r = Returned tt /\
      exists dev td,
        BloodPressureMonitor.discover_device env [] = (Ret (Some dev), td) /\
        BloodPressureMonitor.connect_to_device env dev td = (Ret None, t) /\
        calls is_gatt t = 0%nat) \/
     (exists dev td c tc post,
        BloodPressureMonitor.discover_device env [] = (Ret (Some dev), td) /\
        BloodPressureMonitor.connect_to_device env dev td = (Ret (Some c), tc) /\
        calls is_gatt tc = 0%nat /\
        let body :=
          tc ++ EvReadChar BloodPressureMonitor.BP_FEATURE_CHAR_UUID ::
                EvStartNotify BloodPressureMonitor.BP_MEASUREMENT_CHAR_UUID :: post in
        t = body ++ cleanup_calls env body /\
        (r = Returned tt \/ r = CancelledError) /\
        (r = CancelledError <->
           ble_start_notify env
             (tc ++ [EvReadChar BloodPressureMonitor.BP_FEATURE_CHAR_UUID])
             BloodPressureMonitor.BP_MEASUREMENT_CHAR_UUID = Ret tt /\
           ble_write env
             (tc ++ [EvReadChar BloodPressureMonitor.BP_FEATURE_CHAR_UUID;
                     EvStartNotify BloodPressureMonitor.BP_MEASUREMENT_CHAR_UUID])
             BloodPressureMonitor.ACTIVATION_CHAR_UUID
             BloodPressureMonitor.ACTIVATION_DATA true = Ret tt))).
Proof.
  destruct (discover_device_returns env []) as (rd & td & Hd & Hgd).
  cbn [app] in Hd.
  destruct rd as [dev|].
  - destruct (connect_to_device_returns env dev td) as (rc & tc & Hc & Hgc).
    destruct rc as [c|].
    + eexists _, _. split; [apply (main_connected env dev td c (td ++ tc) Hd Hc)|].
      right. right. rewrite monitor_eq. cbn [fst snd].
      eexists dev, td, c, (td ++ tc), _.
      split; [exact Hd|]. split; [exact Hc|].
      split; [rewrite calls_app, Hgd, Hgc; reflexivity|].
      cbv zeta. split; [reflexivity|].
      rewrite <- !accepted_unit.
      destruct (accepted (ble_start_notify env _ _));
        destruct (accepted (ble_write env _ _ _ _)); cbn [andb];
        (split; [auto|]); split;
        first [discriminate | intros [? ?]; discriminate | intros; split; reflexivity
              | reflexivity].
    + exists (Returned tt), (td ++ tc). split.
      * unfold BloodPressureMonitor.main.
        rewrite task_bind_eq, await_eq, Hd, task_bind_eq, await_eq, Hc.
        reflexivity.
      * right. left. split; [reflexivity|].
        exists dev, td. split; [exact Hd|]. split; [exact Hc|].
        rewrite calls_app, Hgd, Hgc. reflexivity.
  - exists (Returned tt), td. split.
    + unfold BloodPressureMonitor.main. rewrite task_bind_eq, await_eq, Hd. reflexivity.
    + left. split; [reflexivity|]. split; [exact Hd | exact Hgd].
Qed.

(** X13: the run of [main] when all goes well.  After the device was found
    and connected, if the subscription and the activation write are accepted,
    [main] makes exactly these calls: read the feature characteristic,
    subscribe to the measurement characteristic, write the activation bytes
    F1 01 with response, sleep one second at a time until the interrupt
    cancels the sleep in progress, unsubscribe, and disconnect if the
    unsubscription was accepted.  [main] does not return: the
    [CancelledError] leaves it once the cleanup is done.  A failed feature
    read changes nothing. *)
Theorem main_happy_path (env : ble_stack) (dev : device) (td : list event)
    (c : client) (tc : list event) :
  BloodPressureMonitor.discover_device env [] = (Ret (Some dev), td) ->
  BloodPressureMonitor.connect_to_device env dev td = (Ret (Some c), tc) ->
  ble_start_notify env (tc ++ [EvReadChar BloodPressureMonitor.BP_FEATURE_CHAR_UUID])
    BloodPressureMonitor.BP_MEASUREMENT_CHAR_UUID = Ret tt ->
  ble_write env
    (tc ++ [EvReadChar BloodPressureMonitor.BP_FEATURE_CHAR_UUID;
            EvStartNotify BloodPressureMonitor.BP_MEASUREMENT_CHAR_UUID])
    BloodPressureMonitor.ACTIVATION_CHAR_UUID [Byte.xf1; Byte.x01] true = Ret tt ->
  let body :=
    tc ++ [EvReadChar BloodPressureMonitor.BP_FEATURE_CHAR_UUID;
           EvStartNotify BloodPressureMonitor.BP_MEASUREMENT_CHAR_UUID;
           EvWriteChar BloodPressureMonitor.ACTIVATION_CHAR_UUID [Byte.xf1; Byte.x01] true]
       ++ replicate (ble_interrupt_after env) (EvSleep 1) ++ [EvSleep 1] in
  BloodPressureMonitor.main env [] = (CancelledError, body ++ cleanup_calls env body).
Proof.
  intros Hd Hc Hsub Hwrite body.
  rewrite (main_connected env dev td c tc Hd Hc), monitor_eq. cbn [fst snd].
  rewrite Hsub. cbn [accepted andb].
  change BloodPressureMonitor.ACTIVATION_DATA with [Byte.xf1; Byte.x01].
  rewrite Hwrite. cbn [accepted]. unfold body.
  rewrite <- ?app_assoc. cbn [app]. rewrite <- ?app_assoc. reflexivity.
Qed.

Lemma main_happy_path_witness :
  BloodPressureMonitor.main late_stack [] =
  (CancelledError,
   [EvDiscover; EvSleep 1; EvDiscover; EvConnect "C4:7C:8D:00:00:01";
    EvReadChar BloodPressureMonitor.BP_FEATURE_CHAR_UUID;
    EvStartNotify BloodPressureMonitor.BP_MEASUREMENT_CHAR_UUID;
    EvWriteChar BloodPressureMonitor.ACTIVATION_CHAR_UUID [Byte.xf1; Byte.x01] true;
    EvSleep 1; EvSleep 1; EvSleep 1;
    EvStopNotify BloodPressureMonitor.BP_MEASUREMENT_CHAR_UUID; EvDisconnect]).
Proof.
  apply (main_happy_path late_stack qardio [EvDiscover; EvSleep 1; EvDiscover]
           (MkClient "C4:7C:8D:00:00:01")
           [EvDiscover; EvSleep 1; EvDiscover; EvConnect "C4:7C:8D:00:00:01"]);
    reflexivity.
Defined.

(** X14: the runs of [main] that stop early after the connection.  If the
    subscription is refused, no characteristic is written and the
    unsubscription follows at once.  If the subscription is accepted and the
    activation write is refused, [main] does not wait for measurements: the
    unsubscription follows the write at once.  In both cases [main]
    returns. *)
Theorem main_stops_early (env : ble_stack) (dev : device) (td : list event)
    (c : client) (tc : list event) :
  BloodPressureMonitor.discover_device env [] = (Ret (Some dev), td) ->
  BloodPressureMonitor.connect_to_device env dev td = (Ret (Some c), tc) ->
  let subscribed :=
    tc ++ [EvReadChar BloodPressureMonitor.BP_FEATURE_CHAR_UUID;
           EvStartNotify BloodPressureMonitor.BP_MEASUREMENT_CHAR_UUID] in
  let written :=
    subscribed ++
    [EvWriteChar BloodPressureMonitor.ACTIVATION_CHAR_UUID
       BloodPressureMonitor.ACTIVATION_DATA true] in
  (forall e,
     ble_start_notify env (tc ++ [EvReadChar BloodPressureMonitor.BP_FEATURE_CHAR_UUID])
       BloodPressureMonitor.BP_MEASUREMENT_CHAR_UUID = Raise e ->
     BloodPressureMonitor.main env [] =
       (Returned tt, subscribed ++ cleanup_calls env subscribed)) /\
  (forall e,
     ble_start_notify env (tc ++ [EvReadChar BloodPressureMonitor.BP_FEATURE_CHAR_UUID])
       BloodPressureMonitor.BP_MEASUREMENT_CHAR_UUID = Ret tt ->
     ble_write env subscribed BloodPressureMonitor.ACTIVATION_CHAR_UUID
       BloodPressureMonitor.ACTIVATION_DATA true = Raise e ->
     BloodPressureMonitor.main env [] =
       (Returned tt, written ++ cleanup_calls env written)).
Proof.
  intros Hd Hc subscribed written. split.
  - intros e Hsub.
    rewrite (main_connected env dev td c tc Hd Hc), monitor_eq. cbn [fst snd].
    rewrite Hsub. cbn [accepted andb]. reflexivity.
  - intros e Hsub Hwrite.
    rewrite (main_connected env dev td c tc Hd Hc), monitor_eq. cbn [fst snd].
    rewrite Hsub. cbn [accepted andb]. unfold subscribed in Hwrite. rewrite Hwrite.
    cbn [accepted]. unfold written, subscribed. rewrite <- !app_assoc. reflexivity.
Qed.

Lemma main_stops_early_witness :
  BloodPressureMonitor.main refusing_stack [] =
    (Returned tt,
     [EvDiscover; EvConnect "C4:7C:8D:00:00:01";
      EvReadChar BloodPressureMonitor.BP_FEATURE_CHAR_UUID;
      EvStartNotify BloodPressureMonitor.BP_MEASUREMENT_CHAR_UUID;
      EvStopNotify BloodPressureMonitor.BP_MEASUREMENT_CHAR_UUID]) /\
  BloodPressureMonitor.main locked_stack [] =
    (Returned tt,
     [EvDiscover; EvConnect "C4:7C:8D:00:00:01";
      EvReadChar BloodPressureMonitor.BP_FEATURE_CHAR_UUID;
      EvStartNotify BloodPressureMonitor.BP_MEASUREMENT_CHAR_UUID;
      EvWriteChar BloodPressureMonitor.ACTIVATION_CHAR_UUID
        BloodPressureMonitor.ACTIVATION_DATA true;
      EvStopNotify BloodPressureMonitor.BP_MEASUREMENT_CHAR_UUID; EvDisconnect]).
Proof.
  split.
  - destruct (main_stops_early refusing_stack qardio [EvDiscover]
                (MkClient "C4:7C:8D:00:00:01")
                [EvDiscover; EvConnect "C4:7C:8D:00:00:01"]) as [Hsub _];
      [reflexivity | reflexivity |].
    apply (Hsub (BleakError "Notify refused")). reflexivity.
  - destruct (main_stops_early locked_stack qardio [EvDiscover]
                (MkClient "C4:7C:8D:00:00:01")
                [EvDiscover; EvConnect "C4:7C:8D:00:00:01"]) as [_ Hwrite];
      [reflexivity | reflexivity |].
    apply (Hwrite (BleakError "Write not permitted")); reflexivity.
Defined.

(* ===================================================================== *)
(** ** send_command of attempt1.py *)
(* ===================================================================== *)

Section RetryWithTail.
Context {R : Type}.
Variable body : nat -> io (option R).
Variable bound : nat.
Variable ev : event.
Variable tail : list event.
Variable delay : Z.
Variable outcome : list event -> option R.
Variable orelse : R.

Hypothesis body_step : forall attempt t,
  body attempt t =
  match outcome t with
  | Some r => (Ret (Some r), t ++ ev :: tail)
  | None =>
      (Ret None, t ++ ev :: (if (attempt <? bound)%nat then [EvSleep delay] else []))
  end.

End RetryWithTail.




(* ===================================================================== *)
(** ** The client of qardio_arm2_app.py *)
(* ===================================================================== *)

Lemma scan_loop (devices : list QardioArm2App.scanned_device)
    (qardio_devices all_devices : list QardioArm2App.device_info) :
  fold_left QardioArm2App.scan_step devices (qardio_devices, all_devices) =
  (qardio_devices
     ++ List.map QardioArm2App.make_device_info
          (List.filter QardioArm2App.looks_like_qardio devices),
   all_devices ++ List.map QardioArm2App.make_device_info devices).
Proof.
  revert qardio_devices all_devices.
  induction devices as [|d devices IH]; intros qardio_devices all_devices.
  - cbn. rewrite !app_nil_r. reflexivity.
  - cbn [fold_left List.filter List.map]. unfold QardioArm2App.scan_step at 2.
    cbv zeta. destruct (QardioArm2App.looks_like_qardio d);
      rewrite IH; cbn [List.map]; rewrite <- !app_assoc; reflexivity.
Qed.

Lemma make_device_info_name (d : QardioArm2App.scanned_device) :
  QardioArm2App.info_name (QardioArm2App.make_device_info d) <> ""%string /\
  QardioArm2App.info_address (QardioArm2App.make_device_info d) = QardioArm2App.sd_address d.
Proof.
  unfold QardioArm2App.make_device_info.
  destruct (QardioArm2App.rssi_and_metadata d) as [rssi metadata].
  cbn [QardioArm2App.info_name QardioArm2App.info_address]. split; [|reflexivity].
  unfold QardioArm2App.name_or_unknown.
  destruct (QardioArm2App.sd_name d) as [n|]; [|discriminate].
  destruct (String.eqb_spec n ""); [discriminate | assumption].
Qed.

(** X16: [scan_for_devices] of [qardio_arm2_app.py] makes one scan and does
    not catch its failure.  From the devices of a successful scan it returns,
    in scan order, the descriptions of those whose name contains "qardio",
    "blood pressure" or "bp" in any letter case, or of all devices when none
    does; so the result is empty only if the scan found nothing.  Every
    description carries the device's address and a non-empty name. *)
Theorem scan_for_devices_selection (scan_devices : list event -> py (list QardioArm2App.scanned_device))
    (t : list event) :
  (forall e, scan_devices t = Raise e ->
     QardioArm2App.scan_for_devices scan_devices t = (Raise e, t ++ [EvDiscover])) /\
  (forall devices, scan_devices t = Ret devices ->
     exists found,
       QardioArm2App.scan_for_devices scan_devices t = (Ret found, t ++ [EvDiscover]) /\
       found =
         List.map QardioArm2App.make_device_info
           (if existsb QardioArm2App.looks_like_qardio devices
            then List.filter QardioArm2App.looks_like_qardio devices
            else devices) /\
       (found = [] <-> devices = []) /\
       Forall (fun info => QardioArm2App.info_name info <> ""%string) found).
Proof.
  split.
  - intros e He. unfold QardioArm2App.scan_for_devices. rewrite io_bind_eq.
    unfold call. rewrite He. reflexivity.
  - intros devices Hd. eexists. split.
    { unfold QardioArm2App.scan_for_devices. rewrite io_bind_eq.
      unfold call. rewrite Hd. reflexivity. }
    assert (Hsel : QardioArm2App.select_devices devices =
              List.map QardioArm2App.make_device_info
                (if existsb QardioArm2App.looks_like_qardio devices
                 then List.filter QardioArm2App.looks_like_qardio devices
                 else devices)).
    { unfold QardioArm2App.select_devices. rewrite scan_loop. cbn [app].
      induction devices as [|d devices IH]; [reflexivity|].
      cbn [existsb List.filter].
      destruct (QardioArm2App.looks_like_qardio d) eqn:Hd1; cbn [orb List.map].
      - reflexivity.
      - clear IH Hd. destruct (existsb QardioArm2App.looks_like_qardio devices) eqn:Hex.
        + apply existsb_exists in Hex as (x & Hin & Hx).
          assert (Hne : List.filter QardioArm2App.looks_like_qardio devices <> []).
          { intros Hnil. assert (In x (List.filter QardioArm2App.looks_like_qardio devices))
              by (apply List.filter_In; split; assumption).
            rewrite Hnil in H. destruct H. }
          destruct (List.filter QardioArm2App.looks_like_qardio devices);
            [congruence | reflexivity].
        + assert (Hnil : List.filter QardioArm2App.looks_like_qardio devices = []).
          { clear Hd1. induction devices as [|y ys IHy]; [reflexivity|].
            cbn [existsb] in Hex. apply orb_false_iff in Hex as [Hy Hys].
            cbn [List.filter]. rewrite Hy. apply IHy. exact Hys. }
          rewrite Hnil. reflexivity. }
    assert (Hempty : QardioArm2App.select_devices devices = [] <-> devices = []).
    { unfold QardioArm2App.select_devices. rewrite scan_loop. cbn [app].
      destruct (List.map QardioArm2App.make_device_info
                  (List.filter QardioArm2App.looks_like_qardio devices)) eqn:Hq.
      - split; [apply List.map_eq_nil | intros ->; reflexivity].
      - split; [discriminate|]. intros ->. discriminate. }
    split; [exact Hsel|]. split; [exact Hempty|]. rewrite Hsel.
    { apply Forall_forall. intros info Hin.
      apply list_elem_of_In, List.in_map_iff in Hin as (d & <- & _).
      apply make_device_info_name. }
Qed.

Lemma scan_for_devices_selection_witness :
  exists found,
    QardioArm2App.scan_for_devices
      (fun _ => Ret [QardioArm2App.MkScanned (Some "Headset") "00:1B:66:00:00:02" None None;
                     QardioArm2App.MkScanned (Some "My BP Cuff") "C4:7C:8D:00:00:01" None
                       (Some (Some (VInt (-60))))])
      [] = (Ret found, [EvDiscover]) /\
    found = [QardioArm2App.MkDeviceInfo "C4:7C:8D:00:00:01" "My BP Cuff"
               (Some (VInt (-60))) None].
Proof.
  destruct (scan_for_devices_selection
              (fun _ => Ret [QardioArm2App.MkScanned (Some "Headset") "00:1B:66:00:00:02"
                               None None;
                             QardioArm2App.MkScanned (Some "My BP Cuff")
                               "C4:7C:8D:00:00:01" None (Some (Some (VInt (-60))))])
              []) as [_ Hok].
  destruct (Hok _ eq_refl) as (found & Hrun & Hfound & _).
  exists found. split; [exact Hrun | exact Hfound].
Defined.

(** X17: [read_battery_level] of [qardio_arm2_app.py] makes one read of the
    battery-level characteristic and never raises.  It returns the first
    byte of the answer, a number from 0 to 255, exactly when the read is
    accepted with at least one byte, and [None] when the read fails or the
    answer is empty. *)
Theorem read_battery_level_result (env : ble_stack) (c : client) (t : list event) :
  exists r,
    QardioArm2App.read_battery_level env c t =
      (Ret r, t ++ [EvReadChar QardioArm2App.BATTERY_LEVEL_UUID]) /\
    (forall v, r = Some v <->
       exists b rest,
         ble_read env t QardioArm2App.BATTERY_LEVEL_UUID = Ret (b :: rest) /\
         v = byte_val b) /\
    (forall v, r = Some v -> 0 <= v <= 255).
Proof.
  unfold QardioArm2App.read_battery_level, io_try. rewrite io_bind_eq.
  unfold client_read_gatt_char, call.
  destruct (ble_read env t QardioArm2App.BATTERY_LEVEL_UUID) as [[|b rest]|e].
  - exists None. split; [reflexivity|]. split.
    + intros v. split; [discriminate|]. intros (b & rest & Hb & _). discriminate.
    + discriminate.
  - exists (Some (byte_val b)). split; [reflexivity|]. split.
    + intros v. split.
      * intros [= <-]. exists b, rest. split; reflexivity.
      * intros (b' & rest' & [= <- <-] & ->). reflexivity.
    + intros v [= <-]. pose proof (byte_val_range b). lia.
  - exists None. split; [reflexivity|]. split.
    + intros v. split; [discriminate|]. intros (b & rest & Hb & _). discriminate.
    + discriminate.
Qed.

Lemma read_battery_level_result_witness :
  QardioArm2App.read_battery_level
    (MkBleStack (ble_scan quiet_stack) (ble_connect quiet_stack)
       (fun _ _ => Ret [Byte.x57]) (ble_start_notify quiet_stack)
       (ble_write quiet_stack) (ble_stop_notify quiet_stack)
       (ble_disconnect quiet_stack) 0)
    (MkClient "C4:7C:8D:00:00:01") [] =
    (Ret (Some 87), [EvReadChar QardioArm2App.BATTERY_LEVEL_UUID]) /\
  0 <= 87 <= 255.
Proof.
  destruct (read_battery_level_result
              (MkBleStack (ble_scan quiet_stack) (ble_connect quiet_stack)
                 (fun _ _ => Ret [Byte.x57]) (ble_start_notify quiet_stack)
                 (ble_write quiet_stack) (ble_stop_notify quiet_stack)
                 (ble_disconnect quiet_stack) 0)
              (MkClient "C4:7C:8D:00:00:01") [])
    as (r & Hrun & Hiff & Hrange).
  assert (Hr : r = Some 87).
  { apply Hiff. exists Byte.x57, []. split; reflexivity. }
  split.
  - rewrite Hrun, Hr. reflexivity.
  - apply Hrange. exact Hr.
Defined.

(* ===================================================================== *)
(** ** The feature bits logged by blood_pressure_monitor.py *)
(* ===================================================================== *)

Lemma int_from_bytes_little_range (bs : list Byte.byte) : 0 <= int_from_bytes_little bs.
Proof.
  induction bs as [|b bs IH]; [reflexivity|].
  cbn [int_from_bytes_little]. pose proof (byte_val_range b). lia.
Qed.



(** X19: [connect] of [qardio_arm2_app.py] makes exactly one connect call
    and never raises.  It returns [True] exactly when the call is accepted
    and the client then reports that it is connected, and only then records
    the address in [self.device_address]; in every case [self.client] is the
    client created for the address.  A [disconnect] made afterwards acts on
    that client: it makes one disconnect call, whose failure it does not
    catch, if the client reports that it is connected, and no call
    otherwise. *)
Theorem app_connect_then_disconnect (env : ble_stack)
    (is_connected : list event -> string -> bool)
    (self : QardioArm2App.client_state) (address : string) (t : list event) :
  exists ok self',
    QardioArm2App.connect env is_connected self address t =
      (Ret (ok, self'), t ++ [EvConnect address]) /\
    QardioArm2App.self_client self' = Some (MkClient address) /\
    (ok = true <->
       ble_connect env t address = Ret tt /\
       is_connected (t ++ [EvConnect address]) address = true) /\
    QardioArm2App.self_device_address self' =
      (if ok then Some address else QardioArm2App.self_device_address self) /\
    (forall t',
       QardioArm2App.disconnect env is_connected self' t' =
       if is_connected t' address
       then (ble_disconnect env t' address, t' ++ [EvDisconnect])
       else (Ret tt, t')).
Proof.
  unfold QardioArm2App.connect, io_try. cbv zeta. rewrite io_bind_eq.
  unfold client_connect, call. cbn [client_address].
  destruct (ble_connect env t address) as [[]|e].
  - rewrite io_bind_eq. unfold io_read.
    destruct (is_connected (t ++ [EvConnect address]) address) eqn:Hconn.
    + eexists true, _. split; [reflexivity|]. cbn.
      split; [reflexivity|]. split; [tauto|]. split; [reflexivity|].
      intros t'. unfold QardioArm2App.disconnect. cbn.
      rewrite io_bind_eq. unfold io_read, client_disconnect, call. cbn.
      destruct (is_connected t' address); reflexivity.
    + eexists false, _. split; [reflexivity|]. cbn.
      split; [reflexivity|]. split; [split; [discriminate | intros [_ ?]; discriminate]|].
      split; [reflexivity|].
      intros t'. unfold QardioArm2App.disconnect. cbn.
      rewrite io_bind_eq. unfold io_read, client_disconnect, call. cbn.
      destruct (is_connected t' address); reflexivity.
  - eexists false, _. split; [reflexivity|]. cbn.
    split; [reflexivity|]. split; [split; [discriminate | intros [? _]; discriminate]|].
    split; [reflexivity|].
    intros t'. unfold QardioArm2App.disconnect. cbn.
    rewrite io_bind_eq. unfold io_read, client_disconnect, call. cbn.
    destruct (is_connected t' address); reflexivity.
Qed.

(** X20: the two decoders agree on the structure of a packet of at least 7
    bytes: they report the same unit, they find a pulse rate in the same
    packets and at the same offset, and the app has a device timestamp
    exactly when the monitor has a timestamp whose calendar fields are
    valid. *)
Theorem decoders_agree_on_structure (now : datetime) (data : list Byte.byte) :
  (7 <= length data)%nat ->
  exists m a,
    BloodPressureMonitor.parse_blood_pressure_measurement data = Ret (Some m) /\
    QardioArm2App.parse_blood_pressure_measurement now data = Ret a /\
    m !! "units" = a !! "unit" /\
    (is_Some (m !! "pulse_rate") <-> is_Some (a !! "pulse_rate")) /\
    (is_Some (m !! "pulse_rate") ->
       m !! "pulse_rate" =
         Some (BloodPressureMonitor.parse_sfloat
                 (le16_at data (offset_after_timestamp data))) /\
       a !! "pulse_rate" =
         Some (py_div_float (le16_at data (offset_after_timestamp data))
                 (float_of_Z 10))) /\
    (is_Some (a !! "device_timestamp") <->
     is_Some (m !! "timestamp") /\ ts_valid data 7 = true).
Proof.
  intros Hlen. exists (BpmForm.form data), (AppForm.form now data).
  split; [apply bpm_parse_eq; assumption|].
  split; [apply app_parse_eq; assumption|].
  rewrite bpm_form_units, app_form_unit, bpm_form_pulse_rate, app_form_pulse_rate,
    bpm_form_timestamp, app_form_device_timestamp.
  unfold AppForm.unit_of.
  split; [reflexivity|].
  destruct (flag data 2 && (offset_after_timestamp data + 2 <=? length data)%nat);
    destruct (flag data 1 && (14 <=? length data)%nat);
    destruct (ts_valid data 7);
    (split; [split; intros [x Hx]; first [discriminate | eexists; reflexivity]|]);
    (split; [intros [x Hx]; first [discriminate | split; reflexivity]|]);
    (split; [intros [x Hx]; first [discriminate | split; [eexists|]; reflexivity]
            |intros [[x Hx] Hv]; first [discriminate | eexists; reflexivity]]).
Qed.

Lemma decoders_agree_on_structure_witness :
  exists m a,
    BloodPressureMonitor.parse_blood_pressure_measurement sample_bad_month = Ret (Some m) /\
    QardioArm2App.parse_blood_pressure_measurement sample_now sample_bad_month = Ret a /\
    m !! "units" = a !! "unit" /\
    (is_Some (m !! "pulse_rate") <-> is_Some (a !! "pulse_rate")).
Proof.
  destruct (decoders_agree_on_structure sample_now sample_bad_month)
    as (m & a & Hm & Ha & Hunit & Hpulse & _).
  - simpl. lia.
  - exists m, a. repeat split; try assumption; apply Hpulse.
Defined.
